(** * OLT SNMP monitor: the metric-extraction and aggregation pipeline

    A shallow embedding of the three collector scripts

      - [src/huawei/get_olt_huawei_info.py]        (Variant B, module [Huawei])
      - [src/zte/get_olt_zte_info.py]              (Variant C, module [ZTE])
      - [src/fiberhome/get_olt_fiberhome_info.py]  (Variant A, module [Fiberhome])

    Modelling conventions.
      - A Python [str] is a [string]; characters are 7-bit ASCII (the
        classification of code points above 127 by [str.strip], [\s], [\d],
        [str.upper] is outside the model).
      - A Python [dict] with string keys is a [gmap string _]; a loop over it
        is a [foldl] over [map_to_list], in an order that is not the
        insertion order of Python: the loops of the scripts count rows and
        collect sets, so their results do not depend on it.  A Python [set]
        is a [gset string].
      - [subprocess.run] is replaced by a [transport]: a fixed mapping from
        (address, object identifier, walk flag) to the captured standard
        output, or [None] when the command failed or timed out.
      - An exception is a value [Raise msg] of the [exc] monad; [try/except]
        is [try_except].  Logging and file output are left out.
      - The interpreter is CPython 3.11 or later with its settings untouched:
        [int] refuses a numeral of more than 4300 digits.

    The earlier Huawei script [src/get_olt_huawei_info.py], which reports the
    used counts only, is not modelled. *)

From Stdlib Require Import ZArith Ascii String DecimalString.
From Stdlib Require DecimalFacts DecimalPos DecimalZ.
From stdpp Require Import gmap strings list sorting.

Local Open Scope Z_scope.
Local Open Scope nat_scope.
Set Warnings "-clear-no-such-hyp".

(** ** Python string primitives *)

Module Py.

Definition code (c : ascii) : N := N_of_ascii c.

Definition between (lo hi : N) (c : ascii) : bool :=
  ((lo <=? code c) && (code c <=? hi))%N.

(** [str.isspace] restricted to ASCII: TAB, LF, VT, FF, CR, the four
    separators 0x1c-0x1f and the blank. *)
Definition isspace (c : ascii) : bool := between 9 13 c || between 28 32 c.

Definition isdigit (c : ascii) : bool := between 48 57 c.
Definition isupper (c : ascii) : bool := between 65 90 c.
Definition islower (c : ascii) : bool := between 97 122 c.
Definition isalpha (c : ascii) : bool := isupper c || islower c.

Definition lower_char (c : ascii) : ascii :=
  if isupper c then ascii_of_N (code c + 32) else c.
Definition upper_char (c : ascii) : ascii :=
  if islower c then ascii_of_N (code c - 32) else c.

Fixpoint map_chars (f : ascii → ascii) (s : string) : string :=
  match s with
  | "" => ""
  | String c s' => String (f c) (map_chars f s')
  end.

(** [s.lower()] and [s.upper()] *)
Definition lower : string → string := map_chars lower_char.
Definition upper : string → string := map_chars upper_char.

(** [bool(s)]: a string is truthy when it is not empty. *)
Definition truthy (s : string) : bool :=
  match s with "" => false | _ => true end.

(** [s.lstrip(chars)], [s.rstrip(chars)] and [s.strip(chars)], the set of
    characters given as a predicate. *)
Fixpoint lstrip_with (p : ascii → bool) (s : string) : string :=
  match s with
  | "" => ""
  | String c s' => if p c then lstrip_with p s' else s
  end.

Fixpoint rstrip_with (p : ascii → bool) (s : string) : string :=
  match s with
  | "" => ""
  | String c s' =>
      match rstrip_with p s' with
      | "" => if p c then "" else String c ""
      | r => String c r
      end
  end.

Definition strip_with (p : ascii → bool) (s : string) : string :=
  rstrip_with p (lstrip_with p s).

(** [s.strip()] *)
Definition strip : string → string := strip_with isspace.

(** [s.split(sep)] and [s.split(sep, maxsplit)] for a one-character
    separator; [maxsplit = None] stands for no limit. *)
Fixpoint split (sep : ascii) (maxsplit : option nat) (s : string) : list string :=
  match s with
  | "" => [""]
  | String c s' =>
      if Ascii.eqb c sep && negb (bool_decide (maxsplit = Some 0)) then
        "" :: split sep (Nat.pred <$> maxsplit) s'
      else
        match split sep maxsplit s' with
        | h :: t => String c h :: t
        | [] => [String c ""]
        end
  end.

(** [s.split()]: the maximal runs of non-blank characters. *)
Fixpoint split_ws_go (cur : option string) (s : string) : list string :=
  match s with
  | "" => option_list (String.rev <$> cur)
  | String c s' =>
      if isspace c then option_list (String.rev <$> cur) ++ split_ws_go None s'
      else split_ws_go (Some (String c (default "" cur))) s'
  end.
Definition split_ws : string → list string := split_ws_go None.

(** [sub in s] *)
Fixpoint contains (sub s : string) : bool :=
  String.prefix sub s ||
  match s with
  | "" => false
  | String _ s' => contains sub s'
  end.

(** [l[-1]] of a list that [split] returned (never empty). *)
Definition last_item (l : list string) : string := default "" (last l).

(** The blanks that [int] skips around the numeral of an ASCII string, those
    of C's [isspace]: TAB, LF, VT, FF, CR and the blank.  The separators
    0x1c-0x1f, which [str.strip] removes, are not among them. *)
Definition c_isspace (c : ascii) : bool := between 9 13 c || between 32 32 c.

(** [sys.int_info.default_max_str_digits].  From CPython 3.11 on [int] answers
    a numeral of more digits with a [ValueError]; the scripts leave the limit
    as the interpreter sets it. *)
Definition MAX_STR_DIGITS : N := 4300.

Fixpoint count_digits (s : string) : N :=
  match s with
  | "" => 0
  | String c s' => ((if isdigit c then 1 else 0) + count_digits s')%N
  end.

(** [int(s)] on a string: the blanks of [c_isspace] skipped on both sides, an
    optional sign, decimal digits with single underscores between them, at
    most [MAX_STR_DIGITS] digits; [None] stands for [ValueError]. *)
Definition digit_val (c : ascii) : Z := Z.of_N (code c - 48).

Fixpoint int_digits (acc : Z) (prev_digit : bool) (s : string) : option Z :=
  match s with
  | "" => if prev_digit then Some acc else None
  | String c s' =>
      if isdigit c then int_digits (10 * acc + digit_val c)%Z true s'
      else if Ascii.eqb c "_" && prev_digit then int_digits acc false s'
      else None
  end.

Definition int (s : string) : option Z :=
  let '(negative, digits) :=
    match strip_with c_isspace s with
    | String c r =>
        if Ascii.eqb c "-" then (true, r)
        else if Ascii.eqb c "+" then (false, r)
        else (false, String c r)
    | "" => (false, "")
    end in
  match int_digits 0 false digits with
  | Some n =>
      if (MAX_STR_DIGITS <? count_digits digits)%N then None
      else Some (if negative : bool then (- n)%Z else n)
  | None => None
  end.

(** [str(n)] of an integer *)
Definition str (z : Z) : string := NilZero.string_of_int (Z.to_int z).

(** [s[:n]] *)
Fixpoint take (n : nat) (s : string) : string :=
  match n, s with
  | S n', String c s' => String c (take n' s')
  | _, _ => ""
  end.

(** The characters LF and the double quote. *)
Definition LF : ascii := "010"%char.
Definition DQUOTE : ascii := "034"%char.

End Py.

(** ** Exceptions *)

Inductive exc (A : Type) : Type :=
| Ret (a : A)
| Raise (e : string).
Arguments Ret {A} a.
Arguments Raise {A} e.

Definition exc_bind {A B} (m : exc A) (f : A → exc B) : exc B :=
  match m with
  | Ret a => f a
  | Raise e => Raise e
  end.

Notation "x ←! m ; k" := (exc_bind m (λ x, k))
  (at level 20, m at level 100, k at level 200, only parsing).

(** [try: body except Exception as e: handler e] *)
Definition try_except {A} (body : exc A) (handler : string → exc A) : exc A :=
  match body with
  | Ret a => Ret a
  | Raise e => handler e
  end.

(** [l[i]] for [0 <= i] and [d[k]] *)
Definition list_getitem {A} (l : list A) (i : nat) : exc A :=
  match l !! i with
  | Some x => Ret x
  | None => Raise "list index out of range"
  end.

Definition dict_getitem {A} (d : gmap string A) (k : string) : exc A :=
  match d !! k with
  | Some x => Ret x
  | None => Raise k
  end.

(** ** The fragment of [re] the scripts use

    A backtracking matcher in the list-of-successes style: [run r st] lists the
    states reachable by matching [r] at [st], in the order in which Python's
    engine tries them (greedy repetition first).  A state is the text still to
    be read and the groups captured so far, the latest capture first. *)

Module Re.

Inductive regex : Type :=
| Eps
| Class (p : ascii → bool)
| Seq (r1 r2 : regex)
| Star (r : regex)
| Group (i : nat) (r : regex)
| Bos
| Eos.

Definition Lit (c : ascii) : regex := Class (Ascii.eqb c).
Definition Plus (r : regex) : regex := Seq r (Star r).

(** A literal word, and the same under [re.IGNORECASE]. *)
Fixpoint Word (w : string) : regex :=
  match w with
  | "" => Eps
  | String c w' => Seq (Lit c) (Word w')
  end.

Fixpoint WordI (w : string) : regex :=
  match w with
  | "" => Eps
  | String c w' =>
      Seq (Class (λ x, Ascii.eqb (Py.lower_char x) (Py.lower_char c))) (WordI w')
  end.

Definition mstate : Type := string * list (nat * string).

Fixpoint star_go (step : mstate → list mstate) (fuel : nat) (st : mstate) : list mstate :=
  match fuel with
  | 0 => [st]
  | S fuel' =>
      (step st ≫= λ st',
         if bool_decide (String.length st'.1 < String.length st.1)
         then star_go step fuel' st' else []) ++ [st]
  end.

Fixpoint run (n0 : nat) (r : regex) (st : mstate) : list mstate :=
  match r with
  | Eps => [st]
  | Class p =>
      match st.1 with
      | String c s' => if p c then [(s', st.2)] else []
      | "" => []
      end
  | Seq a b => run n0 a st ≫= run n0 b
  | Star a => star_go (run n0 a) (String.length st.1) st
  | Group i a =>
      (λ st', (st'.1, (i, Py.take (String.length st.1 - String.length st'.1) st.1) :: st'.2))
        <$> run n0 a st
  | Bos => if bool_decide (String.length st.1 = n0) then [st] else []
  | Eos => if bool_decide (st.1 = "" ∨ st.1 = String Py.LF "") then [st] else []
  end.

(** A match object: the text of group 0 and the captured groups. *)
Definition match_obj : Type := string * list (nat * string).

Fixpoint captured (i : nat) (caps : list (nat * string)) : option string :=
  match caps with
  | [] => None
  | (j, s) :: caps' => if Nat.eqb i j then Some s else captured i caps'
  end.

(** [m.group(i)] *)
Definition group (m : match_obj) (i : nat) : string :=
  match i with
  | 0 => m.1
  | _ => default "" (captured i m.2)
  end.

(** [re.search(r, s)]: the first offset from the left at which [r] matches. *)
Fixpoint search_from (n0 : nat) (r : regex) (s : string) : option match_obj :=
  match run n0 r (s, []) with
  | st :: _ => Some (Py.take (String.length s - String.length st.1) s, st.2)
  | [] =>
      match s with
      | "" => None
      | String _ s' => search_from n0 r s'
      end
  end.

Definition search (r : regex) (s : string) : option match_obj :=
  search_from (String.length s) r s.

(** [re.sub(r, '', s)]: every non-overlapping match deleted, left to right. *)
Fixpoint sub_go (n0 : nat) (r : regex) (fuel : nat) (s : string) : string :=
  match fuel with
  | 0 => s
  | S fuel' =>
      let skip :=
        match s with
        | "" => ""
        | String c s' => String c (sub_go n0 r fuel' s')
        end in
      match run n0 r (s, []) with
      | st :: _ =>
          if bool_decide (String.length st.1 < String.length s)
          then sub_go n0 r fuel' st.1 else skip
      | [] => skip
      end
  end.

Definition sub_empty (r : regex) (s : string) : string :=
  sub_go (String.length s) r (S (String.length s)) s.

End Re.

Infix "⋅" := Re.Seq (at level 41, right associativity).

Definition DIGITS : Re.regex := Re.Plus (Re.Class Py.isdigit).

(** [r'^[A-Za-z\-]+:\s*'], the type tag in front of a value *)
Definition TYPE_TAG : Re.regex :=
  Re.Bos ⋅ Re.Plus (Re.Class (λ c, Py.isalpha c || Ascii.eqb c "-"))
         ⋅ Re.Lit ":" ⋅ Re.Star (Re.Class Py.isspace).

(** ** What the three scripts share *)

(** The transport behind [run_snmp_command]: the standard output of
    [snmpget] ([walk = false]) or [snmpwalk] ([walk = true]), [None] on a
    non-zero exit status, a timeout or any other failure. *)
Definition transport : Type := string → string → bool → option string.

Definition run_snmp_command (t : transport) (ip oid : string) (walk : bool) : option string :=
  t ip oid walk.

(** [not output], for an output that is a string or [None] *)
Definition missing (output : option string) : bool :=
  match output with
  | Some text => negb (Py.truthy text)
  | None => true
  end.

Definition OID_SYS_DESCR : string := "1.3.6.1.2.1.1.1.0".
Definition OID_SYS_NAME : string := "1.3.6.1.2.1.1.5.0".
Definition OID_IF_TYPE : string := "1.3.6.1.2.1.2.2.1.3".
Definition OID_IF_ADMIN_STATUS : string := "1.3.6.1.2.1.2.2.1.7".
Definition OID_IF_OPER_STATUS : string := "1.3.6.1.2.1.2.2.1.8".

(** [d.keys()], [d.values()] and [d.items()] *)
Definition keys {A} (d : gmap string A) : list string := (map_to_list d).*1.
Definition values {A} (d : gmap string A) : list A := (map_to_list d).*2.
Definition items {A} (d : gmap string A) : list (string * A) := map_to_list d.

(** [oid_part.split('.')[-1]] *)
Definition trailing_scalar (oid_part : string) : string :=
  Py.last_item (Py.split "." None oid_part).

(** The index of a row; [full_pattern] is the pattern the script searches for
    when [full_index] is set. *)
Definition table_index (full_pattern : Re.regex) (full_index : bool) (oid_part : string) : string :=
  if full_index then
    match Re.search full_pattern oid_part with
    | Some m => Re.group m 1
    | None => trailing_scalar oid_part
    end
  else trailing_scalar oid_part.

(** [re.sub(r'^[A-Za-z\-]+:\s*', '', value_part)], then the double quotes and
    the blanks stripped from both ends *)
Definition clean_value (value_part : string) : string :=
  let value := Re.sub_empty TYPE_TAG value_part in
  Py.strip (Py.strip_with (Ascii.eqb Py.DQUOTE) value).

(** One turn of the loop over the lines of [parse_snmp_output]. *)
Definition parse_line (full_pattern : Re.regex) (full_index : bool)
    (data : gmap string string) (line : string) : gmap string string :=
  if negb (Py.contains "=" line) then data
  else
    match Py.split "=" (Some 1) line with
    | [p0; p1] =>
        let oid_part := Py.strip p0 in
        let value_part := Py.strip p1 in
        <[table_index full_pattern full_index oid_part := clean_value value_part]> data
    | _ => data
    end.

Definition parse_snmp_output_with (full_pattern : Re.regex)
    (output : option string) (full_index : bool) : gmap string string :=
  match output with
  | Some (String _ _ as text) =>
      foldl (parse_line full_pattern full_index) ∅ (Py.split Py.LF None (Py.strip text))
  | _ => ∅
  end.

(** [get_olt_sysname], the same in the three scripts *)
Definition get_olt_sysname (t : transport) (ip : string) : exc string :=
  match run_snmp_command t ip OID_SYS_NAME false with
  | Some (String _ _ as output) =>
      let parts := Py.split "=" None output in
      if bool_decide (1 < length parts) then
        p1 ←! list_getitem parts 1;
        Ret (clean_value (Py.strip p1))
      else Ret "Unknown"
  | _ => Ret "Unknown"
  end.

(** *** The record of one device *)

(** The status of a record: the strings ["OK"] and ["error"]. *)
Inductive status : Type := OK | ERROR.

Global Instance status_eq_dec : EqDecision status.
Proof. solve_decision. Defined.

Record DeviceRecord : Type := mkRecord {
  rec_ip : string;
  rec_sysname : string;
  rec_model : string;
  rec_board_installed : nat;
  rec_board_used : nat;
  rec_pon_port_installed : nat;
  rec_pon_port_used : nat;
  rec_ont_installed : nat;
  rec_ont_online : nat;
  rec_status : status;
  rec_error : string
}.

Definition new_record (ip : string) : DeviceRecord :=
  mkRecord ip "" "" 0 0 0 0 0 0 ERROR "".

Definition set_sysname (v : string) (r : DeviceRecord) : DeviceRecord :=
  mkRecord (rec_ip r) v (rec_model r) (rec_board_installed r) (rec_board_used r)
    (rec_pon_port_installed r) (rec_pon_port_used r) (rec_ont_installed r)
    (rec_ont_online r) (rec_status r) (rec_error r).
Definition set_model (v : string) (r : DeviceRecord) : DeviceRecord :=
  mkRecord (rec_ip r) (rec_sysname r) v (rec_board_installed r) (rec_board_used r)
    (rec_pon_port_installed r) (rec_pon_port_used r) (rec_ont_installed r)
    (rec_ont_online r) (rec_status r) (rec_error r).
Definition set_board (b : nat * nat) (r : DeviceRecord) : DeviceRecord :=
  mkRecord (rec_ip r) (rec_sysname r) (rec_model r) b.1 b.2
    (rec_pon_port_installed r) (rec_pon_port_used r) (rec_ont_installed r)
    (rec_ont_online r) (rec_status r) (rec_error r).
Definition set_pon_port (p : nat * nat) (r : DeviceRecord) : DeviceRecord :=
  mkRecord (rec_ip r) (rec_sysname r) (rec_model r) (rec_board_installed r)
    (rec_board_used r) p.1 p.2 (rec_ont_installed r)
    (rec_ont_online r) (rec_status r) (rec_error r).
Definition set_ont (o : nat * nat) (r : DeviceRecord) : DeviceRecord :=
  mkRecord (rec_ip r) (rec_sysname r) (rec_model r) (rec_board_installed r)
    (rec_board_used r) (rec_pon_port_installed r) (rec_pon_port_used r) o.1 o.2
    (rec_status r) (rec_error r).
Definition set_status (v : status) (r : DeviceRecord) : DeviceRecord :=
  mkRecord (rec_ip r) (rec_sysname r) (rec_model r) (rec_board_installed r)
    (rec_board_used r) (rec_pon_port_installed r) (rec_pon_port_used r)
    (rec_ont_installed r) (rec_ont_online r) v (rec_error r).
Definition set_error (v : string) (r : DeviceRecord) : DeviceRecord :=
  mkRecord (rec_ip r) (rec_sysname r) (rec_model r) (rec_board_installed r)
    (rec_board_used r) (rec_pon_port_installed r) (rec_pon_port_used r)
    (rec_ont_installed r) (rec_ont_online r) (rec_status r) v.

(** *** The vendor adapter: the five functions [collect_olt_data] calls *)

Record adapter : Type := mkAdapter {
  adapter_sysname : transport → string → exc string;
  adapter_model : transport → string → exc string;
  adapter_board : transport → string → exc (nat * nat);
  adapter_pon_port : transport → string → exc (nat * nat);
  adapter_ont : transport → string → exc (nat * nat)
}.

(** One statement of the [try] block of [collect_olt_data]: evaluate [m],
    store its value in the record and go on; an exception leaves the block
    with the record as it is. *)
Definition step {A} (m : exc A) (store : A → DeviceRecord → DeviceRecord)
    (k : DeviceRecord → DeviceRecord * exc ()) (result : DeviceRecord)
    : DeviceRecord * exc () :=
  match m with
  | Ret a => k (store a result)
  | Raise e => (result, Raise e)
  end.

Definition collect_steps (V : adapter) (t : transport) (ip : string)
    : DeviceRecord → DeviceRecord * exc () :=
  step (adapter_sysname V t ip) set_sysname $
  step (adapter_model V t ip) set_model $
  step (adapter_board V t ip) set_board $
  step (adapter_pon_port V t ip) set_pon_port $
  step (adapter_ont V t ip) set_ont $
  λ result, (set_status OK result, Ret ()).

Definition collect_olt_data_with (V : adapter) (t : transport) (ip : string) : DeviceRecord :=
  let result := new_record ip in
  let test := run_snmp_command t ip OID_SYS_DESCR false in
  if missing test then set_error "timeout/unreachable" result
  else
    let '(result, outcome) := collect_steps V t ip result in
    match outcome with
    | Ret _ => result
    | Raise e => set_error e result
    end.

(** *** The fleet: [main], after the address list is read *)

(** [future.result()] of the task submitted for [ip]. *)
Definition future_result (collect : string → DeviceRecord) (ip : string) : exc DeviceRecord :=
  Ret (collect ip).

(** The loop over [as_completed]: [completed] lists the addresses in the
    order in which their tasks finish.  The record built for a task that
    raised carries the address, the status and the message only. *)
Definition gather (collect : string → DeviceRecord) (completed : list string) : list DeviceRecord :=
  foldl (λ results ip,
           results ++ [match future_result collect ip with
                       | Ret r => r
                       | Raise e => set_error e (new_record ip)
                       end]) [] completed.

(** [sort_values('ip')]: the order of Python strings, code point by code point *)
Definition ip_le (r1 r2 : DeviceRecord) : Prop := String.le (rec_ip r1) (rec_ip r2).

Global Instance ip_le_dec : RelDecision ip_le.
Proof. intros r1 r2. unfold ip_le. apply _. Defined.

Definition sort_values_ip (results : list DeviceRecord) : list DeviceRecord :=
  merge_sort ip_le results.

Record FleetSummary : Type := mkSummary {
  total_olt : nat;
  success : nat;
  total_board_installed : nat;
  total_board_used : nat;
  total_pon_installed : nat;
  total_pon_used : nat;
  total_ont_installed : nat;
  total_ont_online : nat
}.

(** [Failed: {total - success}] *)
Definition failed (s : FleetSummary) : nat := total_olt s - success s.

(** [sum([r.get(field, 0) for r in results if r['status'] == 'OK'])] *)
Definition sum_ok (field : DeviceRecord → nat) (results : list DeviceRecord) : nat :=
  sum_list (field <$> filter (λ r, rec_status r = OK) results).

Definition summary (results : list DeviceRecord) : FleetSummary :=
  mkSummary
    (length results)
    (length (filter (λ r, rec_status r = OK) results))
    (sum_ok rec_board_installed results)
    (sum_ok rec_board_used results)
    (sum_ok rec_pon_port_installed results)
    (sum_ok rec_pon_port_used results)
    (sum_ok rec_ont_installed results)
    (sum_ok rec_ont_online results).

Definition main_with (collect : string → DeviceRecord) (completed : list string)
    : list DeviceRecord * FleetSummary :=
  let results := gather collect completed in
  (sort_values_ip results, summary results).

(** ** Variant B: Huawei MA5800 *)

Module Huawei.

Definition OID_HW_BOARD_OPER_STATUS : string := "1.3.6.1.4.1.2011.6.3.3.2.1.7".
Definition OID_HW_ONT_RUN_STATUS : string := "1.3.6.1.4.1.2011.6.128.1.1.2.46.1.15".

(** The pattern of the compound index: a dot, then group 1, which is [\d+]
    followed by [(?:\.\d+)] any number of times, then [$]. *)
Definition FULL_INDEX : Re.regex :=
  Re.Lit "." ⋅ Re.Group 1 (DIGITS ⋅ Re.Star (Re.Lit "." ⋅ DIGITS)) ⋅ Re.Eos.

Definition parse_snmp_output : option string → bool → gmap string string :=
  parse_snmp_output_with FULL_INDEX.

(** [r'MA5800-[^\s]+'] *)
Definition MODEL : Re.regex :=
  Re.Word "MA5800-" ⋅ Re.Plus (Re.Class (λ c, negb (Py.isspace c))).

Definition get_olt_model (t : transport) (ip : string) : exc string :=
  match run_snmp_command t ip OID_SYS_DESCR false with
  | Some (String _ _ as output) =>
      match Re.search MODEL output with
      | Some m => Ret (Re.group m 0)
      | None =>
          let parts := Py.split "=" None output in
          if bool_decide (1 < length parts) then
            p1 ←! list_getitem parts 1;
            list_getitem (Py.split_ws (Py.strip p1)) 0
          else Ret "Unknown"
      end
  | _ => Ret "Unknown"
  end.

Definition get_board_status_body (t : transport) (ip : string) : exc (nat * nat) :=
  let oper_output := run_snmp_command t ip OID_HW_BOARD_OPER_STATUS true in
  if negb (missing oper_output) then
    let oper_status := parse_snmp_output oper_output false in
    let installed := size oper_status in
    let used := sum_list ((λ _, 1) <$> filter (λ status, status = "0") (values oper_status)) in
    if bool_decide (0 < installed) then Ret (installed, used) else Ret (0, 0)
  else Ret (0, 0).

Definition get_board_status (t : transport) (ip : string) : exc (nat * nat) :=
  try_except (get_board_status_body t ip) (λ _, Ret (0, 0)).

(** One turn of [for idx in types: if types[idx] == "250": ...]; the
    accumulator is [(installed, used)]. *)
Definition count_gpon (types oper_status : gmap string string)
    (acc : exc (nat * nat)) (idx : string) : exc (nat * nat) :=
  c ←! acc;
  iftype ←! dict_getitem types idx;
  if bool_decide (iftype = "250") then
    Ret (S c.1, if bool_decide (oper_status !! idx = Some "1") then S c.2 else c.2)
  else Ret c.

Definition get_pon_port_status_body (t : transport) (ip : string) : exc (nat * nat) :=
  let type_output := run_snmp_command t ip OID_IF_TYPE true in
  let oper_output := run_snmp_command t ip OID_IF_OPER_STATUS true in
  if missing type_output || missing oper_output then Ret (0, 0)
  else
    let types := parse_snmp_output type_output false in
    let oper_status := parse_snmp_output oper_output false in
    foldl (count_gpon types oper_status) (Ret (0, 0)) (keys types).

Definition get_pon_port_status (t : transport) (ip : string) : exc (nat * nat) :=
  try_except (get_pon_port_status_body t ip) (λ _, Ret (0, 0)).

Definition get_ont_status_body (t : transport) (ip : string) : exc (nat * nat) :=
  let ont_output := run_snmp_command t ip OID_HW_ONT_RUN_STATUS true in
  if missing ont_output then Ret (0, 0)
  else
    let statuses := parse_snmp_output ont_output true in
    let installed := size statuses in
    let online := sum_list ((λ _, 1) <$> filter (λ status, status = "1") (values statuses)) in
    Ret (installed, online).

Definition get_ont_status (t : transport) (ip : string) : exc (nat * nat) :=
  try_except (get_ont_status_body t ip) (λ _, Ret (0, 0)).

Definition vendor : adapter :=
  mkAdapter get_olt_sysname get_olt_model get_board_status get_pon_port_status get_ont_status.

Definition collect_olt_data : transport → string → DeviceRecord :=
  collect_olt_data_with vendor.

Definition main (t : transport) : list string → list DeviceRecord * FleetSummary :=
  main_with (collect_olt_data t).

End Huawei.

(** ** Variant C: ZTE C600/C620 *)

Module ZTE.

Definition OID_ZTE_ONU_STATUS : string := "1.3.6.1.4.1.3902.1082.500.10.2.3.8.1.4".

(** [r'\.(\d+\.\d+)$'] *)
Definition FULL_INDEX : Re.regex :=
  Re.Lit "." ⋅ Re.Group 1 (DIGITS ⋅ Re.Lit "." ⋅ DIGITS) ⋅ Re.Eos.

Definition parse_snmp_output : option string → bool → gmap string string :=
  parse_snmp_output_with FULL_INDEX.

(** [r'C6[0-2]0'] under [re.IGNORECASE], and [r'ZXA10[^\s,]+'] *)
Definition MODEL_C6 : Re.regex :=
  Re.WordI "C6" ⋅ Re.Class (Py.between 48 50) ⋅ Re.Lit "0".
Definition MODEL_ZXA10 : Re.regex :=
  Re.Word "ZXA10" ⋅ Re.Plus (Re.Class (λ c, negb (Py.isspace c || Ascii.eqb c ","))).

Definition get_olt_model (t : transport) (ip : string) : exc string :=
  match run_snmp_command t ip OID_SYS_DESCR false with
  | Some (String _ _ as output) =>
      match Re.search MODEL_C6 output with
      | Some m => Ret ("ZTE-" +:+ Re.group m 0)
      | None =>
          match Re.search MODEL_ZXA10 output with
          | Some m => Ret (Re.group m 0)
          | None =>
              if Py.contains "ZXA10" output || Py.contains "C600" output
                 || Py.contains "C620" output
              then Ret "ZTE-C600" else Ret "Unknown"
          end
      end
  | _ => Ret "Unknown"
  end.

(** [decode_zte_ifindex]: the bare [except] turns the [ValueError] of [int]
    into [None]. *)
Definition decode_zte_ifindex (ifindex : string) : option string :=
  match Py.int ifindex with
  | Some idx =>
      let slot := Z.land (Z.shiftr idx 8) 255 in
      Some (Py.str slot)
  | None => None
  end.

(** One turn of [for idx, iftype in types.items()] of [get_board_status]; the
    accumulator is [(cards, active_cards)]. *)
Definition add_card (admin_status : gmap string string)
    (acc : gset string * gset string) (item : string * string)
    : gset string * gset string :=
  let '(idx, iftype) := item in
  if bool_decide (iftype = "250") then
    match decode_zte_ifindex idx with
    | Some slot =>
        if Py.truthy slot then
          ({[slot]} ∪ acc.1,
           if bool_decide (admin_status !! idx = Some "1") then {[slot]} ∪ acc.2 else acc.2)
        else acc
    | None => acc
    end
  else acc.

Definition get_board_status_body (t : transport) (ip : string) : exc (nat * nat) :=
  let type_output := run_snmp_command t ip OID_IF_TYPE true in
  let admin_output := run_snmp_command t ip OID_IF_ADMIN_STATUS true in
  if missing type_output then Ret (0, 0)
  else
    let types := parse_snmp_output type_output false in
    let admin_status :=
      if negb (missing admin_output) then parse_snmp_output admin_output false else ∅ in
    let '(cards, active_cards) := foldl (add_card admin_status) (∅, ∅) (items types) in
    let installed := size cards in
    let used := size active_cards in
    if bool_decide (0 < installed) then Ret (installed, used) else Ret (0, 0).

Definition get_board_status (t : transport) (ip : string) : exc (nat * nat) :=
  try_except (get_board_status_body t ip) (λ _, Ret (0, 0)).

(** One turn of [for idx, iftype in types.items()] of [get_pon_port_status]. *)
Definition count_gpon (oper_status : gmap string string)
    (acc : nat * nat) (item : string * string) : nat * nat :=
  let '(idx, iftype) := item in
  if bool_decide (iftype = "250") then
    (S acc.1, if bool_decide (oper_status !! idx = Some "1") then S acc.2 else acc.2)
  else acc.

Definition get_pon_port_status_body (t : transport) (ip : string) : exc (nat * nat) :=
  let type_output := run_snmp_command t ip OID_IF_TYPE true in
  let oper_output := run_snmp_command t ip OID_IF_OPER_STATUS true in
  if missing type_output || missing oper_output then Ret (0, 0)
  else
    let types := parse_snmp_output type_output false in
    let oper_status := parse_snmp_output oper_output false in
    Ret (foldl (count_gpon oper_status) (0, 0) (items types)).

Definition get_pon_port_status (t : transport) (ip : string) : exc (nat * nat) :=
  try_except (get_pon_port_status_body t ip) (λ _, Ret (0, 0)).

Definition online_statuses : list string := ["1"; "3"; "4"].

Definition get_ont_status_body (t : transport) (ip : string) : exc (nat * nat) :=
  let onu_output := run_snmp_command t ip OID_ZTE_ONU_STATUS true in
  if missing onu_output then Ret (0, 0)
  else
    let statuses := parse_snmp_output onu_output true in
    let installed := size statuses in
    let online :=
      sum_list ((λ _, 1) <$> filter (λ status, status ∈ online_statuses) (values statuses)) in
    Ret (installed, online).

Definition get_ont_status (t : transport) (ip : string) : exc (nat * nat) :=
  try_except (get_ont_status_body t ip) (λ _, Ret (0, 0)).

Definition vendor : adapter :=
  mkAdapter get_olt_sysname get_olt_model get_board_status get_pon_port_status get_ont_status.

Definition collect_olt_data : transport → string → DeviceRecord :=
  collect_olt_data_with vendor.

Definition main (t : transport) : list string → list DeviceRecord * FleetSummary :=
  main_with (collect_olt_data t).

End ZTE.

(** ** Variant A: Fiberhome AN6000 *)

Module Fiberhome.

Definition OID_FH_CARD_STATUS : string := "1.3.6.1.4.1.5875.800.3.9.2.1.1.5".
Definition OID_FH_CARD_TYPE : string := "1.3.6.1.4.1.5875.800.3.9.2.1.1.2".
Definition OID_FH_PON_PORT_TYPE : string := "1.3.6.1.4.1.5875.800.3.9.3.4.1.1".
Definition OID_FH_PON_PORT_NAME : string := "1.3.6.1.4.1.5875.800.3.9.3.4.1.2".
Definition OID_FH_ONU_STATUS : string := "1.3.6.1.4.1.5875.800.3.10.1.1.11".

(** The pattern of the compound index: a dot, then group 1, which is [\d+]
    followed by [(?:\.\d+)] any number of times, then [$]. *)
Definition FULL_INDEX : Re.regex :=
  Re.Lit "." ⋅ Re.Group 1 (DIGITS ⋅ Re.Star (Re.Lit "." ⋅ DIGITS)) ⋅ Re.Eos.

Definition parse_snmp_output : option string → bool → gmap string string :=
  parse_snmp_output_with FULL_INDEX.

(** [r'AN6000[^\s,]*'] under [re.IGNORECASE] *)
Definition MODEL : Re.regex :=
  Re.WordI "AN6000" ⋅ Re.Star (Re.Class (λ c, negb (Py.isspace c || Ascii.eqb c ","))).

Definition get_olt_model (t : transport) (ip : string) : exc string :=
  match run_snmp_command t ip OID_SYS_DESCR false with
  | Some (String _ _ as output) =>
      match Re.search MODEL output with
      | Some m => Ret (Re.group m 0)
      | None =>
          if Py.contains "fiberhome" (Py.lower output) then
            let parts := Py.split "=" None output in
            if bool_decide (1 < length parts) then
              p1 ←! list_getitem parts 1;
              list_getitem (Py.split_ws (Py.strip p1)) 0
            else Ret "Unknown"
          else Ret "Unknown"
      end
  | _ => Ret "Unknown"
  end.

Definition get_board_status_body (t : transport) (ip : string) : exc (nat * nat) :=
  let status_output := run_snmp_command t ip OID_FH_CARD_STATUS true in
  let from_type :=
    let type_output := run_snmp_command t ip OID_FH_CARD_TYPE true in
    if negb (missing type_output) then
      let types := parse_snmp_output type_output false in
      let installed := size types in
      let used := installed in
      Ret (installed, used)
    else Ret (0, 0) in
  if negb (missing status_output) then
    let statuses := parse_snmp_output status_output false in
    let installed := size statuses in
    let used := length (filter (λ v, v = "1") (values statuses)) in
    if bool_decide (0 < installed) then Ret (installed, used) else from_type
  else from_type.

Definition get_board_status (t : transport) (ip : string) : exc (nat * nat) :=
  try_except (get_board_status_body t ip) (λ _, Ret (0, 0)).

Definition get_pon_port_status_body (t : transport) (ip : string) : exc (nat * nat) :=
  let type_output := run_snmp_command t ip OID_FH_PON_PORT_TYPE true in
  if missing type_output then Ret (0, 0)
  else
    let types := parse_snmp_output type_output false in
    let installed := length (filter (λ v, v = "1") (values types)) in
    let name_output := run_snmp_command t ip OID_FH_PON_PORT_NAME true in
    let used :=
      if negb (missing name_output) then
        let names := parse_snmp_output name_output false in
        length (filter (λ v, Py.truthy v && Py.contains "PON" (Py.upper v)) (values names))
      else installed in
    Ret (installed, used).

Definition get_pon_port_status (t : transport) (ip : string) : exc (nat * nat) :=
  try_except (get_pon_port_status_body t ip) (λ _, Ret (0, 0)).

Definition get_onu_status_body (t : transport) (ip : string) : exc (nat * nat) :=
  let onu_status_output := run_snmp_command t ip OID_FH_ONU_STATUS true in
  if missing onu_status_output then Ret (0, 0)
  else
    let statuses := parse_snmp_output onu_status_output false in
    let installed := length (filter (λ v, v ≠ "0") (values statuses)) in
    let online := length (filter (λ v, v = "1") (values statuses)) in
    Ret (installed, online).

Definition get_onu_status (t : transport) (ip : string) : exc (nat * nat) :=
  try_except (get_onu_status_body t ip) (λ _, Ret (0, 0)).

Definition vendor : adapter :=
  mkAdapter get_olt_sysname get_olt_model get_board_status get_pon_port_status get_onu_status.

Definition collect_olt_data : transport → string → DeviceRecord :=
  collect_olt_data_with vendor.

Definition main (t : transport) : list string → list DeviceRecord * FleetSummary :=
  main_with (collect_olt_data t).

End Fiberhome.

(** ** The vocabulary of the properties *)

(** The table under [oid] could not be walked. *)
Definition absent (t : transport) (ip oid : string) : Prop :=
  missing (run_snmp_command t ip oid true) = true.

(** A transport that answers no query: every table is absent.  And one whose
    interface table has a single GPON row, indexed by a name. *)
Definition silent : transport := λ _ _ _, None.

Definition named_rows : transport := λ _ oid _,
  if bool_decide (oid = OID_IF_TYPE) then Some "IF-MIB::ifType.gpon1 = INTEGER: 250"
  else None.

Definition LINE_END : string := String Py.LF "".

(** The unit separator, a blank for [str.strip] and not for [int]. *)
Definition UNIT_SEPARATOR : ascii := "031"%char.

(** The characters of a numeral that [int] accepts. *)
Definition numeral_char (c : ascii) : bool :=
  Py.isdigit c || Ascii.eqb c "_" || Ascii.eqb c "-" || Ascii.eqb c "+"
  || Py.c_isspace c.

(** A Fiberhome device whose only port is not of type 1 and carries a PON name. *)
Definition renamed_port : transport := λ _ oid _,
  if bool_decide (oid = Fiberhome.OID_FH_PON_PORT_TYPE) then
    Some ("SNMPv2-SMI::enterprises.5875.800.3.9.3.4.1.1.1 = INTEGER: 2" +:+ LINE_END)
  else if bool_decide (oid = Fiberhome.OID_FH_PON_PORT_NAME) then
    Some ("SNMPv2-SMI::enterprises.5875.800.3.9.3.4.1.2.1 = STRING: PON 1/1/1" +:+ LINE_END)
  else None.

(** The sum of one column over the records whose status is OK, read off the
    records one by one. *)
Fixpoint column_sum (field : DeviceRecord → nat) (records : list DeviceRecord) : nat :=
  match records with
  | [] => 0
  | r :: records' =>
      match rec_status r with
      | OK => field r + column_sum field records'
      | ERROR => column_sum field records'
      end
  end.

(** The six metric totals of a summary. *)
Definition metric_totals (s : FleetSummary) : list nat :=
  [total_board_installed s; total_board_used s; total_pon_installed s;
   total_pon_used s; total_ont_installed s; total_ont_online s].

(** The reachability probe of [collect_olt_data] got no answer. *)
Definition unreachable (t : transport) (ip : string) : Prop :=
  missing (run_snmp_command t ip OID_SYS_DESCR false) = true.

Definition metric_pairs (r : DeviceRecord) : list (nat * nat) :=
  [(rec_board_installed r, rec_board_used r);
   (rec_pon_port_installed r, rec_pon_port_used r);
   (rec_ont_installed r, rec_ont_online r)].

(** A device that answers the probe with an empty description, printed
    without a type tag. *)
Definition blank_description : transport := λ _ oid _,
  if bool_decide (oid = OID_SYS_DESCR) then
    Some ("SNMPv2-MIB::sysDescr.0 = " +:+ LINE_END)
  else None.

Definition blank_fiberhome_description : transport := λ _ oid _,
  if bool_decide (oid = OID_SYS_DESCR) then
    Some ("FIBERHOME-MIB::sysDescr.0 = " +:+ LINE_END)
  else None.

(** Every character of [s] satisfies [p]. *)
Fixpoint all_chars (p : ascii → bool) (s : string) : bool :=
  match s with
  | "" => true
  | String c s' => p c && all_chars p s'
  end.

(** A group of digits: a non-empty string of decimal digits. *)
Definition number (d : string) : Prop := d ≠ "" ∧ all_chars Py.isdigit d = true.

Global Instance number_dec d : Decision (number d).
Proof. unfold number. apply _. Defined.

(** What a greedy repetition can reach: any number of turns of [step], each
    of which reads something. *)
Inductive star_rel (step : Re.mstate → list Re.mstate) : Re.mstate → Re.mstate → Prop :=
| star_stop st : star_rel step st st
| star_more st st1 st' :
    st1 ∈ step st →
    String.length st1.1 < String.length st.1 →
    star_rel step st1 st' →
    star_rel step st st'.

(** What [(?:\.\d+)] repeated can read: groups of digits, a dot before each. *)
Inductive dot_groups : string → Prop :=
| dot_groups_nil : dot_groups ""
| dot_groups_cons d w : number d → dot_groups w → dot_groups ("." +:+ d +:+ w).

(** The text group 1 of the two patterns can capture. *)
Definition dotted (u : string) : Prop :=
  ∃ d w, number d ∧ dot_groups w ∧ u = d +:+ w.

Definition two_groups (u : string) : Prop :=
  ∃ d1 d2, number d1 ∧ number d2 ∧ u = d1 +:+ "." +:+ d2.

(** [$] matches at the end of the text and before a final line feed. *)
Definition at_end (s : string) : Prop := s = "" ∨ s = String Py.LF "".

(** [u] is made of groups of digits separated by dots. *)
Definition digit_groups (u : string) : Prop := Forall number (Py.split "." None u).

(** [u] is a trailing run of the identifier [s]: digit groups that end [s]
    and follow a dot. *)
Definition trailing_run (s u : string) : Prop :=
  (∃ p, s = p +:+ "." +:+ u) ∧ digit_groups u.

Definition longest_trailing_run (s u : string) : Prop :=
  trailing_run s u ∧ ∀ u', trailing_run s u' → String.length u' ≤ String.length u.

(** [u] is the last two dot-separated components of [s], both of them groups
    of digits, after a dot. *)
Definition last_two_groups (s u : string) : Prop :=
  (∃ p, s = p +:+ "." +:+ u)
  ∧ ∃ d1 d2, Py.split "." None u = [d1; d2] ∧ number d1 ∧ number d2.

Definition no_dot (h : string) : Prop :=
  all_chars (λ c, negb (Ascii.eqb c ".")) h = true.

Definition ONU_STATUS_LINE : string := "...ponOnuStatus.285278465.1 = INTEGER: 4".

(** An identifier as [snmpwalk] prints it when no MIB names it. *)
Definition NUMERIC_ONU_OID : string :=
  "iso.3.6.1.4.1.3902.1082.500.10.2.3.8.1.4.285278465.1".

(** The value of decimal digits read from the left, starting from [acc]. *)
Fixpoint uint_value (acc : Z) (d : Decimal.uint) : Z :=
  match d with
  | Decimal.Nil => acc
  | Decimal.D0 l => uint_value (10 * acc) l
  | Decimal.D1 l => uint_value (10 * acc + 1) l
  | Decimal.D2 l => uint_value (10 * acc + 2) l
  | Decimal.D3 l => uint_value (10 * acc + 3) l
  | Decimal.D4 l => uint_value (10 * acc + 4) l
  | Decimal.D5 l => uint_value (10 * acc + 5) l
  | Decimal.D6 l => uint_value (10 * acc + 6) l
  | Decimal.D7 l => uint_value (10 * acc + 7) l
  | Decimal.D8 l => uint_value (10 * acc + 8) l
  | Decimal.D9 l => uint_value (10 * acc + 9) l
  end%Z.

(** *** Rows of a response *)

(** The stripped identifier and the normalized value of a line that has an
    equals sign: what stands before and after the first one. *)
Definition line_oid (line : string) : string :=
  Py.strip (default "" (Py.split "=" (Some 1) line !! 0)).

Definition line_value (line : string) : string :=
  clean_value (Py.strip (default "" (Py.split "=" (Some 1) line !! 1))).

Definition is_row (line : string) : Prop := Py.contains "=" line = true.

(** The lines of an output, as [parse_snmp_output] cuts them. *)
Definition output_lines (text : string) : list string :=
  Py.split Py.LF None (Py.strip text).

(** The characters of a type tag, [[A-Za-z\-]]. *)
Definition tag_char (c : ascii) : bool := Py.isalpha c || Ascii.eqb c "-".

Definition is_quote (c : ascii) : bool := Ascii.eqb Py.DQUOTE c.

(** What is left of [s] after each number of leading characters in [p] that a
    greedy repetition can read, the longest reading first. *)
Fixpoint spans (p : ascii → bool) (s : string) : list string :=
  match s with
  | "" => [""]
  | String c s' => if p c then spans p s' ++ [s] else [s]
  end.

(** The lines of what [run_snmp_command] returned. *)
Definition lines_of (output : option string) : list string :=
  match output with
  | Some text => output_lines text
  | None => []
  end.

(** The index under which [parse_snmp_output] stores a row. *)
Definition row_index (pat : Re.regex) (full_index : bool) (line : string) : string :=
  table_index pat full_index (line_oid line).

(** Two rows of one table that carry the same index. *)
Definition REPEATED_ROW : string :=
  "IF-MIB::ifType.12 = INTEGER: 6" +:+ String Py.LF "IF-MIB::ifType.12 = INTEGER: 250".

(** *** Rows of the interface table *)

(** A GPON port, and a GPON port whose status in [status] is 1 (up). *)
Definition is_gpon (row : string * string) : Prop := row.2 = "250".

Definition is_gpon_up (status : gmap string string) (row : string * string) : Prop :=
  row.2 = "250" ∧ status !! row.1 = Some "1".

(** The decimal names of the 256 values of a byte. *)
Definition BYTE_NAMES : gset string := list_to_set (Py.str <$> seqZ 0 256).

(** *** Adapters whose faults stay inside *)

(** What [collect_olt_data] can rely on for the three scripts: only
    [get_olt_model] may raise, and then with a message. *)
Definition contained (V : adapter) : Prop :=
  (∀ t ip, ∃ name, adapter_sysname V t ip = Ret name)
  ∧ (∀ t ip e, adapter_model V t ip = Raise e → e ≠ "")
  ∧ (∀ t ip, ∃ counts, adapter_board V t ip = Ret counts)
  ∧ (∀ t ip, ∃ counts, adapter_pon_port V t ip = Ret counts)
  ∧ (∀ t ip, ∃ counts, adapter_ont V t ip = Ret counts).

(** Every pair an adapter returns has used at most installed. *)
Definition bounded (V : adapter) : Prop :=
  ∀ t ip counts,
    (adapter_board V t ip = Ret counts ∨ adapter_pon_port V t ip = Ret counts
     ∨ adapter_ont V t ip = Ret counts) →
    counts.2 ≤ counts.1.

Definition vendors : list adapter := [Huawei.vendor; ZTE.vendor; Fiberhome.vendor].

(** The used and online counts of a record do not exceed the installed ones. *)
Definition within_installed (r : DeviceRecord) : Prop :=
  rec_board_used r ≤ rec_board_installed r
  ∧ rec_pon_port_used r ≤ rec_pon_port_installed r
  ∧ rec_ont_online r ≤ rec_ont_installed r.

(** The devices of a list whose probe is answered. *)
Definition reachable (t : transport) (ip : string) : bool :=
  negb (missing (run_snmp_command t ip OID_SYS_DESCR false)).

(** *** The value of a single-object answer *)

Definition no_equals (s : string) : Prop :=
  all_chars (λ c, negb (Ascii.eqb c "=")) s = true.

(** [value] is what stands in [text] between the first equals sign and the
    second, or the end: [text.split('=')[1]]. *)
Definition first_value (text value : string) : Prop :=
  ∃ oid rest,
    text = oid +:+ "=" +:+ value +:+ rest
    ∧ no_equals oid ∧ no_equals value
    ∧ (rest = "" ∨ ∃ r, rest = "=" +:+ r).

(** A device whose name contains an equals sign. *)
Definition SYSNAME_ANSWER : string :=
  "SNMPv2-MIB::sysName.0 = STRING: OLT-A=B" +:+ LINE_END.

Definition named_device : transport := λ _ oid _,
  if bool_decide (oid = OID_SYS_NAME) then Some SYSNAME_ANSWER else None.

Definition nonblank (c : ascii) : bool := negb (Py.isspace c).

(** A model name in a description, [before] characters in: [MA5800-] and the
    characters after it up to the next blank, at least one. *)
Definition model_token_at (text before token : string) : Prop :=
  ∃ a after,
    text = before +:+ token +:+ after
    ∧ token = "MA5800-" +:+ a
    ∧ a ≠ "" ∧ all_chars nonblank a = true
    ∧ match after with String c _ => nonblank c = false | "" => True end.

(** A description of a Huawei device. *)
Definition HUAWEI_DESCRIPTION : string :=
  "SNMPv2-MIB::sysDescr.0 = STRING: Huawei MA5800-X17 optical access" +:+ LINE_END.

Definition huawei_device : transport := λ _ oid _,
  if bool_decide (oid = OID_SYS_DESCR) then Some HUAWEI_DESCRIPTION else None.

(** *** Faults of the metric methods *)

Definition method : Type := transport → string → exc (nat * nat).

(** The nine metric methods, each with its body (what stands inside [try])
    and the tables it walks, in the order of the source. *)
Definition metric_methods : list (method * method * list string) :=
  [(Huawei.get_board_status, Huawei.get_board_status_body,
    [Huawei.OID_HW_BOARD_OPER_STATUS]);
   (Huawei.get_pon_port_status, Huawei.get_pon_port_status_body,
    [OID_IF_TYPE; OID_IF_OPER_STATUS]);
   (Huawei.get_ont_status, Huawei.get_ont_status_body,
    [Huawei.OID_HW_ONT_RUN_STATUS]);
   (ZTE.get_board_status, ZTE.get_board_status_body,
    [OID_IF_TYPE; OID_IF_ADMIN_STATUS]);
   (ZTE.get_pon_port_status, ZTE.get_pon_port_status_body,
    [OID_IF_TYPE; OID_IF_OPER_STATUS]);
   (ZTE.get_ont_status, ZTE.get_ont_status_body,
    [ZTE.OID_ZTE_ONU_STATUS]);
   (Fiberhome.get_board_status, Fiberhome.get_board_status_body,
    [Fiberhome.OID_FH_CARD_STATUS; Fiberhome.OID_FH_CARD_TYPE]);
   (Fiberhome.get_pon_port_status, Fiberhome.get_pon_port_status_body,
    [Fiberhome.OID_FH_PON_PORT_TYPE; Fiberhome.OID_FH_PON_PORT_NAME]);
   (Fiberhome.get_onu_status, Fiberhome.get_onu_status_body,
    [Fiberhome.OID_FH_ONU_STATUS])].

(** The specification's wording of the degradation: a method that cannot walk
    one of its tables returns (0,0). *)
Definition missing_table_gives_zero : Prop :=
  ∀ (t : transport) (ip : string) (m : method * method * list string) (oid : string),
    m ∈ metric_methods → oid ∈ m.2 → absent t ip oid → m.1.1 t ip = Ret (0, 0).

(** And: an index that [int] rejects in the interface table of Variant C
    makes [get_board_status] return (0,0). *)
Definition unparsable_index_gives_zero : Prop :=
  ∀ (t : transport) (ip : string) (idx : string),
    ZTE.parse_snmp_output (run_snmp_command t ip OID_IF_TYPE true) false !! idx
      = Some "250" →
    Py.int idx = None →
    ZTE.get_board_status t ip = Ret (0, 0).

(** A Fiberhome device that answers the walk of the port types, with one port
    of type 1, and no other walk. *)
Definition unnamed_port : transport := λ _ oid _,
  if bool_decide (oid = Fiberhome.OID_FH_PON_PORT_TYPE) then
    Some ("SNMPv2-SMI::enterprises.5875.800.3.9.3.4.1.1.1 = INTEGER: 1" +:+ LINE_END)
  else None.

(** A Fiberhome device that answers the walk of the card types, with one card,
    and no other walk. *)
Definition typed_card : transport := λ _ oid _,
  if bool_decide (oid = Fiberhome.OID_FH_CARD_TYPE) then
    Some ("SNMPv2-SMI::enterprises.5875.800.3.9.2.1.1.2.1 = INTEGER: 523" +:+ LINE_END)
  else None.

(** A ZTE device that answers the walk of the interface types, with one GPON
    port, and no other walk; and one whose interface table has a second GPON
    row, indexed by a name. *)
Definition one_gpon_port : transport := λ _ oid _,
  if bool_decide (oid = OID_IF_TYPE) then
    Some ("IF-MIB::ifType.285278465 = INTEGER: 250" +:+ LINE_END)
  else None.

Definition mixed_indices : transport := λ _ oid _,
  if bool_decide (oid = OID_IF_TYPE) then
    Some ("IF-MIB::ifType.gpon1 = INTEGER: 250" +:+ LINE_END
          +:+ "IF-MIB::ifType.285278465 = INTEGER: 250" +:+ LINE_END)
  else None.

(** A numeral of [n] zeros. *)
Fixpoint zeros (n : nat) : string :=
  match n with
  | 0 => ""
  | S n' => String "0" (zeros n')
  end.

(** * Properties *)

(** ** The primitives on examples *)

Example strip_ex : Py.strip ("  a b" +:+ LINE_END) = "a b".
Proof. reflexivity. Qed.

Example split_ex :
  Py.split "=" (Some 1) "a = b = c" = ["a "; " b = c"]
  ∧ Py.split "." None "a.b..c" = ["a"; "b"; ""; "c"]
  ∧ Py.split_ws "  STRING:  Huawei x " = ["STRING:"; "Huawei"; "x"].
Proof. by vm_compute. Qed.

Example int_ex :
  Py.int " -1_0 " = Some (-10)%Z ∧ Py.int "1__0" = None
  ∧ Py.int "12a" = None ∧ Py.int "" = None
  ∧ Py.int "+ 12" = None ∧ Py.int "0012" = Some 12%Z
  ∧ Py.int (String Py.LF "12" +:+ String UNIT_SEPARATOR "") = None
  ∧ Py.strip (String Py.LF "12" +:+ String UNIT_SEPARATOR "") = "12".
Proof. by vm_compute. Qed.

Example clean_value_ex :
  clean_value ("STRING: " +:+ String Py.DQUOTE "OLT-CORE-01" +:+ String Py.DQUOTE "")
  = "OLT-CORE-01".
Proof. by vm_compute. Qed.

Example trailing_scalar_ex :
  Huawei.parse_snmp_output (Some "IF-MIB::ifType.12 = INTEGER: 250") false
  = {[ "12" := "250" ]}.
Proof. by vm_compute. Qed.

Example search_ex1 :
  Re.search (Re.Lit "." ⋅ Re.Group 1 (DIGITS ⋅ Re.Star (Re.Lit "." ⋅ DIGITS)) ⋅ Re.Eos) "ab.12.3"
  = Some (".12.3", [(1, "12.3")]).
Proof. reflexivity. Qed.
Example sub_ex1 : Re.sub_empty TYPE_TAG "STRING:   abc: d" = "abc: d".
Proof. vm_compute. reflexivity. Qed.

(** ** Counting rows of a table *)

Section counting.
Context {A : Type}.
Implicit Types (m : gmap string A) (l : list A).

Lemma sum_list_ones {B} (l : list B) : sum_list ((λ _, 1) <$> l) = length l.
Proof. induction l as [|x l IH]; [done|]. cbn. f_equal. exact IH. Qed.

Lemma length_values m : length (values m) = size m.
Proof. unfold values. by rewrite length_fmap, length_map_to_list. Qed.

Lemma size_filter_rows (Q : string * A → Prop) `{!∀ row, Decision (Q row)} m :
  size (filter Q m) = length (filter Q (map_to_list m)).
Proof.
  rewrite map_filter_alt, map_size_list_to_map; [done|].
  eapply sublist_NoDup; [apply (NoDup_fst_map_to_list m)|].
  apply fmap_sublist, sublist_filter.
Qed.

(** The values that satisfy [P] are as many as the rows whose value does. *)
Lemma count_values (P : A → Prop) `{!∀ v, Decision (P v)} m :
  length (filter P (values m)) = size (filter (λ row : string * A, P row.2) m).
Proof.
  rewrite size_filter_rows. unfold values.
  induction (map_to_list m) as [|row l IH]; [done|].
  rewrite fmap_cons, !filter_cons. simpl.
  destruct (decide (P row.2)); simpl; by rewrite IH.
Qed.

End counting.

Lemma parse_missing pat output full_index :
  missing output = true → parse_snmp_output_with pat output full_index = ∅.
Proof. by destruct output as [[|c s]|]. Qed.

(** C4. Variant C (ZTE), [get_ont_status]: for every status table, installed
    is the number of parsed rows and online is the number of rows whose status
    is one of the codes 1 (logging), 3 (sync in progress) and 4 (working);
    no other code counts as online. *)
Theorem zte_ont_status_counts (t : transport) (ip : string) :
  let statuses :=
    ZTE.parse_snmp_output (run_snmp_command t ip ZTE.OID_ZTE_ONU_STATUS true) true in
  ZTE.get_ont_status t ip =
    Ret (size statuses,
         size (filter (λ row : string * string,
                         row.2 = "1" ∨ row.2 = "3" ∨ row.2 = "4") statuses)).
Proof.
  intros statuses. unfold ZTE.get_ont_status, ZTE.get_ont_status_body.
  fold statuses.
  assert (Hcount :
    sum_list ((λ _, 1) <$> filter (λ status, status ∈ ZTE.online_statuses) (values statuses))
    = size (filter (λ row : string * string,
                      row.2 = "1" ∨ row.2 = "3" ∨ row.2 = "4") statuses)).
  { rewrite sum_list_ones, count_values.
    f_equal. apply map_filter_ext. intros i x _. unfold ZTE.online_statuses.
    simpl. rewrite !elem_of_cons, elem_of_nil. tauto. }
  destruct (missing _) eqn:Hmiss; simpl.
  - subst statuses. unfold ZTE.parse_snmp_output.
    rewrite (parse_missing _ _ _ Hmiss).
    by rewrite map_filter_empty, map_size_empty.
  - by rewrite Hcount.
Qed.

(** C5. Variant A (Fiberhome), [get_onu_status]: for every status table,
    installed is the number of rows whose status is not 0 and online is the
    number of rows whose status is 1; a row with another status counts toward
    installed and not toward online. *)
Theorem fiberhome_onu_status_counts (t : transport) (ip : string) :
  let statuses :=
    Fiberhome.parse_snmp_output
      (run_snmp_command t ip Fiberhome.OID_FH_ONU_STATUS true) false in
  let installed := filter (λ row : string * string, row.2 ≠ "0") statuses in
  let online := filter (λ row : string * string, row.2 = "1") statuses in
  Fiberhome.get_onu_status t ip = Ret (size installed, size online)
  ∧ online ⊆ installed
  ∧ size installed
    = size online + size (filter (λ row : string * string,
                                    row.2 ≠ "0" ∧ row.2 ≠ "1") statuses).
Proof.
  intros statuses installed online. split; [|split].
  - unfold Fiberhome.get_onu_status, Fiberhome.get_onu_status_body.
    fold statuses. subst installed online.
    destruct (missing _) eqn:Hmiss; simpl.
    + subst statuses. unfold Fiberhome.parse_snmp_output.
      rewrite (parse_missing _ _ _ Hmiss).
      by rewrite !map_filter_empty, map_size_empty.
    + by rewrite !count_values.
  - subst installed online. apply map_filter_strong_subseteq_ext.
    intros i x [-> ?]. by split.
  - subst installed online. rewrite !size_filter_rows.
    induction (map_to_list statuses) as [|row l IH]; [done|].
    rewrite !filter_cons.
    destruct (decide (row.2 = "1")) as [E|E];
      destruct (decide (row.2 ≠ "0")) as [E0|E0];
      destruct (decide (row.2 ≠ "0" ∧ row.2 ≠ "1")) as [E1|E1]; simpl;
      try lia; exfalso; try tauto.
    rewrite E in E0. by apply E0.
Qed.

(** ** The bound used <= installed *)

Lemma count_le_size {A} (P : A → Prop) `{!∀ v, Decision (P v)} (m : gmap string A) :
  sum_list ((λ _, 1) <$> filter P (values m)) ≤ size m.
Proof. rewrite sum_list_ones, <-length_values. apply length_filter. Qed.

(** The loop of Huawei's [get_pon_port_status] keeps used <= installed, from
    whatever keys it is run on, until an exception stops it. *)
Lemma huawei_count_gpon_bound types oper_status (idxs : list string) acc :
  (∀ c, acc = Ret c → c.2 ≤ c.1) →
  ∀ c, foldl (Huawei.count_gpon types oper_status) acc idxs = Ret c → c.2 ≤ c.1.
Proof.
  revert acc. induction idxs as [|idx idxs IH]; intros acc Hacc c; simpl.
  { apply Hacc. }
  apply IH. intros c'. unfold Huawei.count_gpon.
  destruct acc as [c0|e]; simpl; [|done].
  specialize (Hacc c0 eq_refl).
  destruct (dict_getitem types idx) as [iftype|e]; simpl; [|done].
  repeat case_bool_decide; intros [= <-]; simpl; lia.
Qed.

Lemma zero_pair_bound (c : nat * nat) : Ret (0, 0) = Ret c → c.2 ≤ c.1.
Proof. by intros [= <-]. Qed.

Lemma zte_count_gpon_bound oper_status (rows : list (string * string)) acc :
  acc.2 ≤ acc.1 →
  (foldl (ZTE.count_gpon oper_status) acc rows).2
  ≤ (foldl (ZTE.count_gpon oper_status) acc rows).1.
Proof.
  revert acc. induction rows as [|[idx iftype] rows IH]; intros acc Hacc; simpl.
  { done. }
  apply IH. repeat case_bool_decide; simpl; lia.
Qed.

(** The active cards of ZTE's [get_board_status] are among the cards. *)
Lemma zte_add_card_subseteq admin_status (rows : list (string * string)) acc :
  acc.2 ⊆ acc.1 →
  (foldl (ZTE.add_card admin_status) acc rows).2
  ⊆ (foldl (ZTE.add_card admin_status) acc rows).1.
Proof.
  revert acc. induction rows as [|[idx iftype] rows IH]; intros acc Hacc; simpl.
  { done. }
  apply IH. case_bool_decide; [|done].
  destruct (ZTE.decode_zte_ifindex idx) as [slot|]; [|done].
  destruct (Py.truthy slot); [|done].
  case_bool_decide; simpl.
  - by apply union_mono_l.
  - by apply union_subseteq_r'.
Qed.

(** C10. For Variant B (Huawei) and Variant C (ZTE), every metric derivation
    (board, PON port, subscriber unit) returns, for every transport, a pair
    with used (online) at most installed. *)
Theorem huawei_zte_used_le_installed (t : transport) (ip : string) :
  Forall (λ method : transport → string → exc (nat * nat),
            ∃ installed used, method t ip = Ret (installed, used) ∧ used ≤ installed)
    [Huawei.get_board_status; Huawei.get_pon_port_status; Huawei.get_ont_status;
     ZTE.get_board_status; ZTE.get_pon_port_status; ZTE.get_ont_status].
Proof.
  repeat apply Forall_cons_2; [..|apply Forall_nil_2].
  - unfold Huawei.get_board_status, Huawei.get_board_status_body.
    destruct (missing _); simpl; [by exists 0, 0|].
    case_bool_decide; [|by exists 0, 0].
    eexists _, _. split; [done|]. apply count_le_size.
  - unfold Huawei.get_pon_port_status, Huawei.get_pon_port_status_body.
    destruct (missing _ || missing _); simpl; [by exists 0, 0|].
    destruct (foldl _ _ _) as [[installed used]|e] eqn:Hloop; simpl;
      [|by exists 0, 0].
    exists installed, used. split; [done|].
    apply (huawei_count_gpon_bound _ _ _ _ zero_pair_bound _ Hloop).
  - unfold Huawei.get_ont_status, Huawei.get_ont_status_body.
    destruct (missing _); simpl; [by exists 0, 0|].
    eexists _, _. split; [done|]. apply count_le_size.
  - unfold ZTE.get_board_status, ZTE.get_board_status_body.
    destruct (missing _); simpl; [by exists 0, 0|].
    match goal with |- context [foldl (ZTE.add_card ?adm) ?a ?l] =>
      pose proof (zte_add_card_subseteq adm l a (reflexivity _)) as Hsub;
      destruct (foldl (ZTE.add_card adm) a l) as [cards active_cards] end.
    simpl in Hsub. case_bool_decide; simpl; [|by exists 0, 0].
    eexists _, _. split; [done|]. by apply subseteq_size.
  - unfold ZTE.get_pon_port_status, ZTE.get_pon_port_status_body.
    destruct (missing _ || missing _); simpl; [by exists 0, 0|].
    match goal with |- context [foldl (ZTE.count_gpon ?oper) ?a ?l] =>
      pose proof (zte_count_gpon_bound oper l a (le_n 0)) as Hle;
      destruct (foldl (ZTE.count_gpon oper) a l) as [installed used] end.
    by exists installed, used.
  - unfold ZTE.get_ont_status, ZTE.get_ont_status_body.
    destruct (missing _); simpl; [by exists 0, 0|].
    eexists _, _. split; [done|]. apply count_le_size.
Qed.

(** ** Fault containment inside the metric methods *)

Lemma try_except_total {A} (body : exc A) (d : A) :
  ∃ a, try_except body (λ _, Ret d) = Ret a.
Proof. destruct body; simpl; eauto. Qed.

Lemma zte_add_card_unparsable admin_status (rows : list (string * string)) acc :
  (∀ row, row ∈ rows → Py.int row.1 = None) →
  foldl (ZTE.add_card admin_status) acc rows = acc.
Proof.
  revert acc. induction rows as [|[idx iftype] rows IH]; intros acc Hrows; simpl.
  { done. }
  assert (Py.int idx = None) as Hidx by apply (Hrows (idx, iftype)), list_elem_of_here.
  unfold ZTE.decode_zte_ifindex. rewrite Hidx.
  assert ((if bool_decide (iftype = "250") then acc else acc) = acc) as ->
    by by case_bool_decide.
  apply IH. intros row Hrow. apply Hrows. by apply list_elem_of_further.
Qed.

(** ** The looseness of Variant A's PON-port pair *)

(** C9. The bound used <= installed is not enforced: Variant A's
    [get_pon_port_status] counts installed in the port-type table (the rows
    equal to 1) and used in the separate port-name table (the rows that
    contain PON), and some transport makes used exceed installed. *)
Theorem fiberhome_pon_used_may_exceed_installed :
  (∀ (t : transport) (ip : string),
     let type_output := run_snmp_command t ip Fiberhome.OID_FH_PON_PORT_TYPE true in
     let name_output := run_snmp_command t ip Fiberhome.OID_FH_PON_PORT_NAME true in
     let types := Fiberhome.parse_snmp_output type_output false in
     let names := Fiberhome.parse_snmp_output name_output false in
     let installed := size (filter (λ row : string * string, row.2 = "1") types) in
     let configured :=
       size (filter (λ row : string * string,
                       Py.truthy row.2 && Py.contains "PON" (Py.upper row.2)) names) in
     Fiberhome.get_pon_port_status t ip =
       Ret (if missing type_output then (0, 0)
            else (installed, if missing name_output then installed else configured)))
  ∧ ∃ (t : transport) (ip : string) (installed used : nat),
      Fiberhome.get_pon_port_status t ip = Ret (installed, used) ∧ installed < used.
Proof.
  split.
  - intros t ip. simpl.
    unfold Fiberhome.get_pon_port_status, Fiberhome.get_pon_port_status_body.
    destruct (missing (run_snmp_command t ip Fiberhome.OID_FH_PON_PORT_TYPE true));
      simpl; [done|].
    destruct (missing (run_snmp_command t ip Fiberhome.OID_FH_PON_PORT_NAME true));
      simpl; by rewrite !count_values.
  - exists renamed_port, "10.0.0.1", 0, 1. split; [by vm_compute | lia].
Qed.

(** ** The fleet summary *)

Lemma sum_ok_column_sum field results : sum_ok field results = column_sum field results.
Proof.
  unfold sum_ok. induction results as [|r results IH]; [done|].
  rewrite filter_cons. simpl.
  destruct (decide (rec_status r = OK)) as [E|E].
  - rewrite E. cbn. by rewrite <-IH.
  - destruct (rec_status r); [done | exact IH].
Qed.

Lemma column_sum_app field l1 l2 :
  column_sum field (l1 ++ l2) = column_sum field l1 + column_sum field l2.
Proof.
  induction l1 as [|r l1 IH]; [done|]. simpl.
  destruct (rec_status r); lia.
Qed.

Lemma count_ok_error (results : list DeviceRecord) :
  length (filter (λ r, rec_status r = OK) results)
  + length (filter (λ r, rec_status r = ERROR) results) = length results.
Proof.
  induction results as [|r results IH]; [done|].
  rewrite !filter_cons.
  destruct (decide (rec_status r = OK)) as [E|E];
    destruct (decide (rec_status r = ERROR)) as [E'|E']; simpl; try lia.
  - congruence.
  - by destruct (rec_status r).
Qed.

(** C7. For every collection of records, each metric total of the summary is
    the sum of its column over the records whose status is OK; a record whose
    status is ERROR adds nothing to any metric total and one to the number of
    failures, which is the total less the successes. *)
Theorem summary_sums_ok_records (results : list DeviceRecord) :
  metric_totals (summary results)
  = [column_sum rec_board_installed results; column_sum rec_board_used results;
     column_sum rec_pon_port_installed results; column_sum rec_pon_port_used results;
     column_sum rec_ont_installed results; column_sum rec_ont_online results]
  ∧ total_olt (summary results) = length results
  ∧ success (summary results) = length (filter (λ r, rec_status r = OK) results)
  ∧ failed (summary results) = length (filter (λ r, rec_status r = ERROR) results)
  ∧ ∀ (r : DeviceRecord) (before after : list DeviceRecord),
      results = before ++ after →
      let results' := before ++ set_status ERROR r :: after in
      metric_totals (summary results') = metric_totals (summary results)
      ∧ success (summary results') = success (summary results)
      ∧ failed (summary results') = S (failed (summary results)).
Proof.
  assert (Hfailed : ∀ l, failed (summary l)
                         = length (filter (λ r, rec_status r = ERROR) l)).
  { intros l. unfold failed. simpl. pose proof (count_ok_error l). lia. }
  split_and!; try done.
  - unfold metric_totals. simpl. by rewrite !sum_ok_column_sum.
  - intros r before after -> results'. subst results'. split_and!.
    + unfold metric_totals. simpl. rewrite !sum_ok_column_sum.
      by rewrite !column_sum_app.
    + simpl. by rewrite !filter_app, filter_cons, decide_False.
    + rewrite !Hfailed, !filter_app, filter_cons, decide_True by done.
      rewrite !length_app. simpl. lia.
Qed.

Lemma summary_sums_ok_records_witness :
  let down := set_error "timeout/unreachable" (new_record "10.0.0.2") in
  let up := mkRecord "10.0.0.1" "olt-1" "MA5800-X7" 4 3 32 20 900 850 OK "" in
  metric_totals (summary [up; set_status ERROR down]) = [4; 3; 32; 20; 900; 850]
  ∧ failed (summary [up; set_status ERROR down]) = 1.
Proof.
  intros down up.
  destruct (summary_sums_ok_records [up]) as (_ & _ & _ & _ & Hadd).
  destruct (Hadd down [up] [] eq_refl) as (Hm & _ & Hf).
  split; (etrans; [first [exact Hm | exact Hf] | reflexivity]).
Defined.

(** ** Independence of the completion order *)

Global Instance ip_le_trans : Transitive ip_le.
Proof. intros r1 r2 r3. unfold ip_le. apply transitivity. Qed.

Global Instance ip_le_total : Total ip_le.
Proof. intros r1 r2. unfold ip_le. apply String.le_total. Qed.

Lemma gather_fmap collect completed : gather collect completed = collect <$> completed.
Proof.
  unfold gather.
  enough (∀ acc : list DeviceRecord,
            foldl (λ results ip,
                     results ++ [match future_result collect ip with
                                 | Ret r => r
                                 | Raise e => set_error e (new_record ip)
                                 end]) acc completed
            = acc ++ (collect <$> completed)) as H by apply (H []).
  induction completed as [|ip completed IH]; intros acc; simpl.
  - by rewrite app_nil_r.
  - rewrite IH. by rewrite <-app_assoc.
Qed.

Lemma summary_Permutation l1 l2 : l1 ≡ₚ l2 → summary l1 = summary l2.
Proof.
  intros H. unfold summary, sum_ok. by rewrite !H.
Qed.

Lemma collect_keeps_ip V t ip : rec_ip (collect_olt_data_with V t ip) = ip.
Proof.
  unfold collect_olt_data_with, collect_steps, step.
  destruct (missing _); [done|].
  destruct (adapter_sysname V t ip); [|done].
  destruct (adapter_model V t ip); [|done].
  destruct (adapter_board V t ip); [|done].
  destruct (adapter_pon_port V t ip); [|done].
  by destruct (adapter_ont V t ip).
Qed.

Lemma sorted_records_unique (collect : string → DeviceRecord) (l1 l2 : list string) :
  (∀ ip, rec_ip (collect ip) = ip) →
  l1 ≡ₚ l2 →
  sort_values_ip (collect <$> l1) = sort_values_ip (collect <$> l2).
Proof.
  intros Hip Hperm. unfold sort_values_ip.
  apply (Sorted_unique_strong ip_le).
  - intros r1 r2 H1 H2 H12 H21.
    rewrite merge_sort_Permutation in H1, H2.
    apply list_elem_of_fmap in H1 as (ip1 & -> & _).
    apply list_elem_of_fmap in H2 as (ip2 & -> & _).
    unfold ip_le in H12, H21. rewrite !Hip in H12, H21.
    f_equal. by apply (anti_symm String.le).
  - apply Sorted_merge_sort, _.
  - apply Sorted_merge_sort, _.
  - by rewrite !merge_sort_Permutation, Hperm.
Qed.

(** C8. For a fixed transport, two runs of the fleet aggregation over the
    same addresses give the same summary and the same address-sorted sequence
    of records, in whatever orders the tasks of the two runs complete. *)
Theorem fleet_run_independent_of_completion_order
    (V : adapter) (t : transport) (addresses completed1 completed2 : list string) :
  completed1 ≡ₚ addresses →
  completed2 ≡ₚ addresses →
  main_with (collect_olt_data_with V t) completed1
  = main_with (collect_olt_data_with V t) completed2.
Proof.
  intros H1 H2. unfold main_with. rewrite !gather_fmap.
  assert (completed1 ≡ₚ completed2) as Hperm by by rewrite H1, H2.
  f_equal.
  - apply sorted_records_unique; [apply collect_keeps_ip | done].
  - apply summary_Permutation. by rewrite Hperm.
Qed.

Lemma fleet_run_independent_of_completion_order_witness :
  Huawei.main renamed_port ["10.0.0.2"; "10.0.0.1"; "10.0.0.3"]
  = Huawei.main renamed_port ["10.0.0.3"; "10.0.0.1"; "10.0.0.2"].
Proof.
  apply (fleet_run_independent_of_completion_order Huawei.vendor renamed_port
           ["10.0.0.1"; "10.0.0.2"; "10.0.0.3"]).
  - change (["10.0.0.2"; "10.0.0.1"] ++ ["10.0.0.3"]
            ≡ₚ ["10.0.0.1"; "10.0.0.2"] ++ ["10.0.0.3"]).
    apply Permutation_app_tail, perm_swap.
  - apply (Permutation_cons_append ["10.0.0.1"; "10.0.0.2"]).
Defined.

(** ** Decoding the composite interface index of Variant C *)

(** [int] reads back what [str] prints. *)
Lemma int_digits_uint acc b d :
  Py.int_digits acc b (NilEmpty.string_of_uint d)
  = match d with
    | Decimal.Nil => if b then Some acc else None
    | _ => Some (uint_value acc d)
    end.
Proof.
  revert acc b. induction d as [|l IH|l IH|l IH|l IH|l IH|l IH|l IH|l IH|l IH|l IH];
    intros acc b; [done|..];
    cbn [NilEmpty.string_of_uint Py.int_digits uint_value];
    (etrans; [apply IH|]); destruct l; f_equal; cbn [uint_value]; f_equal;
    unfold Py.digit_val; try (vm_compute (Z.of_N _)); lia.
Qed.

Lemma pos_of_uint_acc_value d p :
  Z.pos (Pos.of_uint_acc d p) = uint_value (Z.pos p) d.
Proof.
  revert p. induction d as [|l IH|l IH|l IH|l IH|l IH|l IH|l IH|l IH|l IH|l IH];
    intros p; [done|..]; cbn [Pos.of_uint_acc uint_value]; rewrite IH;
    f_equal; lia.
Qed.

Lemma of_uint_value d : Z.of_uint d = uint_value 0 d.
Proof.
  unfold Z.of_uint.
  induction d as [|l IH|l IH|l IH|l IH|l IH|l IH|l IH|l IH|l IH|l IH];
    [done | exact IH | ..];
    cbn [Pos.of_uint uint_value Z.of_N]; by rewrite pos_of_uint_acc_value.
Qed.

Lemma uint_string_no_blank d :
  all_chars (λ c, negb (Py.c_isspace c)) (NilEmpty.string_of_uint d) = true.
Proof. induction d; [done|..]; cbn [NilEmpty.string_of_uint all_chars]; by rewrite IHd. Qed.

Lemma strip_with_no_blank p s :
  all_chars (λ c, negb (p c)) s = true → Py.strip_with p s = s.
Proof.
  intros Hs. unfold Py.strip_with.
  assert (Py.lstrip_with p s = s) as ->.
  { destruct s as [|c s]; [done|]. simpl in *.
    apply andb_true_iff in Hs as [Hc _]. apply negb_true_iff in Hc. by rewrite Hc. }
  induction s as [|c s IH]; [done|]. simpl in *.
  apply andb_true_iff in Hs as [Hc Hs]. apply negb_true_iff in Hc.
  rewrite IH by done. rewrite Hc. by destruct s.
Qed.

Lemma count_digits_uint d :
  Py.count_digits (NilEmpty.string_of_uint d) = N.of_nat (Decimal.nb_digits d).
Proof.
  induction d; [done|..];
    cbn [NilEmpty.string_of_uint Py.count_digits Decimal.nb_digits];
    rewrite IHd; (change (Py.isdigit _) with true); cbv iota; lia.
Qed.

(** A numeral that starts with a digit and has no blank around it. *)
Lemma int_unsigned c s n :
  Py.isdigit c = true →
  all_chars (λ c, negb (Py.c_isspace c)) (String c s) = true →
  Py.int_digits 0 false (String c s) = Some n →
  (Py.count_digits (String c s) ≤ Py.MAX_STR_DIGITS)%N →
  Py.int (String c s) = Some n.
Proof.
  intros Hc Hblank Hn Hcount. unfold Py.int.
  rewrite strip_with_no_blank by done.
  destruct (Ascii.eqb_spec c "-") as [->|_]; [done|].
  destruct (Ascii.eqb_spec c "+") as [->|_]; [done|].
  rewrite Hn. by rewrite (proj2 (N.ltb_ge _ _) Hcount).
Qed.

Lemma int_negative s n :
  all_chars (λ c, negb (Py.c_isspace c)) s = true →
  Py.int_digits 0 false s = Some n →
  (Py.count_digits s ≤ Py.MAX_STR_DIGITS)%N →
  Py.int (String "-" s) = Some (- n)%Z.
Proof.
  intros Hblank Hn Hcount. unfold Py.int.
  rewrite strip_with_no_blank by (simpl; by rewrite Hblank).
  change (Ascii.eqb "-" "-") with true. cbv iota beta.
  rewrite Hn. by rewrite (proj2 (N.ltb_ge _ _) Hcount).
Qed.

Lemma uint_nil_dec (d : Decimal.uint) : d = Decimal.Nil ∨ d ≠ Decimal.Nil.
Proof. destruct d; [by left | by right..]. Qed.

Lemma uint_string_head d :
  d ≠ Decimal.Nil →
  ∃ c s, NilEmpty.string_of_uint d = String c s ∧ Py.isdigit c = true.
Proof. destruct d; [done|..]; intros _; by eexists _, _. Qed.

(** [int] reads back what [str] prints, up to the limit on the digits. *)
Lemma int_str (z : Z) :
  (Py.count_digits (Py.str z) ≤ Py.MAX_STR_DIGITS)%N → Py.int (Py.str z) = Some z.
Proof.
  unfold Py.str. rewrite <-(DecimalZ.of_to z) at 3.
  destruct (Z.to_int z) as [d|d]; cbn [NilZero.string_of_int Z.of_int].
  - rewrite of_uint_value. unfold NilZero.string_of_uint.
    destruct (uint_nil_dec d) as [->|Hd]; [done|].
    assert (match d with Decimal.Nil => "0" | _ => NilEmpty.string_of_uint d end
            = NilEmpty.string_of_uint d) as -> by by destruct d.
    pose proof (int_digits_uint 0 false d) as Hdigits.
    pose proof (uint_string_no_blank d) as Hblank.
    destruct (uint_string_head d Hd) as (c & s & Hs & Hc).
    rewrite Hs in *. intros Hcount.
    apply int_unsigned; [done..| |done]. rewrite Hdigits. by destruct d.
  - rewrite of_uint_value. unfold NilZero.string_of_uint.
    destruct (uint_nil_dec d) as [->|Hd]; [done|].
    assert (match d with Decimal.Nil => "0" | _ => NilEmpty.string_of_uint d end
            = NilEmpty.string_of_uint d) as -> by by destruct d.
    intros Hcount. apply int_negative; [apply uint_string_no_blank| |done].
    rewrite int_digits_uint. by destruct d.
Qed.

(** The decimal notation of an integer has no more digits than its size
    asks for. *)
Lemma uint_value_lower d acc :
  (0 ≤ acc)%Z → (acc * 10 ^ Z.of_nat (Decimal.nb_digits d) ≤ uint_value acc d)%Z.
Proof.
  revert acc. induction d; intros acc Hacc;
    cbn [Decimal.nb_digits uint_value]; [simpl; lia|..];
    (etrans; [|apply IHd; lia]);
    rewrite Nat2Z.inj_succ, Z.pow_succ_r by lia;
    pose proof (Z.pow_nonneg 10 (Z.of_nat (Decimal.nb_digits d))); nia.
Qed.

Lemma to_uint_digits p n :
  (Z.pos p < 10 ^ Z.of_nat n)%Z → Decimal.nb_digits (Pos.to_uint p) ≤ n.
Proof.
  intros Hp.
  assert (Decimal.unorm (Pos.to_uint p) = Pos.to_uint p) as Hnorm.
  { rewrite <-DecimalPos.Unsigned.to_of. by rewrite DecimalPos.Unsigned.of_to. }
  assert (uint_value 0 (Pos.to_uint p) = Z.pos p) as Hvalue.
  { rewrite <-of_uint_value. unfold Z.of_uint.
    change (Pos.of_uint (Pos.to_uint p)) with (Pos.of_uint (Pos.to_uint p)).
    by rewrite DecimalPos.Unsigned.of_to. }
  pose proof (DecimalPos.Unsigned.to_uint_nonzero p) as Hzero.
  destruct (Pos.to_uint p) as [|d|d|d|d|d|d|d|d|d|d] eqn:Hd;
    cbn [Decimal.nb_digits uint_value] in *.
  { lia. }
  { exfalso. rewrite DecimalFacts.unorm_D0 in Hnorm.
    destruct (uint_nil_dec d) as [->|Hnil]; [done|].
    pose proof (DecimalFacts.nb_digits_unorm d Hnil) as Hle.
    rewrite Hnorm in Hle. simpl in Hle. lia. }
  all: apply Nat.le_succ_l, Nat2Z.inj_lt, (Z.pow_lt_mono_r_iff 10); [lia..|];
    eapply Z.le_lt_trans; [|exact Hp]; rewrite <-Hvalue;
    (etrans; [|apply uint_value_lower; lia]);
    pose proof (Z.pow_pos_nonneg 10 (Z.of_nat (Decimal.nb_digits d))); nia.
Qed.

Lemma str_digits (z : Z) :
  (Z.abs z < 10 ^ 4300)%Z → (Py.count_digits (Py.str z) ≤ Py.MAX_STR_DIGITS)%N.
Proof.
  intros Hz. unfold Py.str, Py.MAX_STR_DIGITS.
  destruct z as [|p|p]; [done|..];
    cbn [Z.to_int NilZero.string_of_int];
    pose proof (DecimalPos.Unsigned.to_uint_nonnil p) as Hnil;
    pose proof (to_uint_digits p 4300 Hz) as Hlen;
    assert (NilZero.string_of_uint (Pos.to_uint p)
            = NilEmpty.string_of_uint (Pos.to_uint p)) as ->
      by (by destruct (Pos.to_uint p));
    cbn [Py.count_digits]; rewrite ?count_digits_uint;
    change (Py.isdigit "-") with false; cbv iota; lia.
Qed.

Lemma slot_byte (idx : Z) :
  Z.land (Z.shiftr idx 8) 255 = ((idx `div` 256) `mod` 256)%Z.
Proof.
  rewrite Z.shiftr_div_pow2 by lia.
  change 255%Z with (Z.ones 8). by rewrite Z.land_ones by lia.
Qed.

(** ** Fault containment in [collect_olt_data] *)

(** When the probe fails the record is the initial one with the reason set,
    whatever the vendor. *)
Lemma unreachable_record (V : adapter) (t : transport) (ip : string) :
  unreachable t ip →
  let r := collect_olt_data_with V t ip in
  rec_status r = ERROR
  ∧ metric_pairs r = [(0, 0); (0, 0); (0, 0)]
  ∧ rec_error r = "timeout/unreachable".
Proof.
  unfold unreachable, collect_olt_data_with. by intros ->.
Qed.

Lemma get_olt_sysname_total (t : transport) (ip : string) :
  ∃ name, get_olt_sysname t ip = Ret name.
Proof.
  unfold get_olt_sysname.
  destruct (run_snmp_command t ip OID_SYS_NAME false) as [[|c output]|]; eauto.
  case_bool_decide as Hlen; eauto.
  unfold list_getitem.
  destruct (lookup_lt_is_Some_2 _ _ Hlen) as [p1 ->]. simpl. eauto.
Qed.

Lemma zte_get_olt_model_total (t : transport) (ip : string) :
  ∃ model, ZTE.get_olt_model t ip = Ret model.
Proof.
  unfold ZTE.get_olt_model.
  destruct (run_snmp_command t ip OID_SYS_DESCR false) as [[|c output]|]; eauto.
  destruct (Re.search ZTE.MODEL_C6 _); eauto.
  destruct (Re.search ZTE.MODEL_ZXA10 _); eauto.
  destruct (_ || _); eauto.
Qed.

(** The status is OK as soon as the probe is answered and none of the five
    calls of the [try] block raises. *)
Lemma reachable_ok (V : adapter) (t : transport) (ip : string) :
  ¬ unreachable t ip →
  (∃ name, adapter_sysname V t ip = Ret name) →
  (∃ model, adapter_model V t ip = Ret model) →
  (∃ b, adapter_board V t ip = Ret b) →
  (∃ p, adapter_pon_port V t ip = Ret p) →
  (∃ o, adapter_ont V t ip = Ret o) →
  rec_status (collect_olt_data_with V t ip) = OK
  ∧ rec_error (collect_olt_data_with V t ip) = "".
Proof.
  unfold unreachable, collect_olt_data_with, collect_steps, step.
  intros Hprobe [name ->] [model ->] [b ->] [p ->] [o ->].
  by destruct (missing _).
Qed.

(** Variant C: an answered probe always gives the status OK. *)
Lemma zte_reachable_ok (t : transport) (ip : string) :
  ¬ unreachable t ip →
  rec_status (ZTE.collect_olt_data t ip) = OK.
Proof.
  intros Hprobe. apply reachable_ok; [done|..]; simpl.
  - apply get_olt_sysname_total.
  - apply zte_get_olt_model_total.
  - apply try_except_total.
  - apply try_except_total.
  - apply try_except_total.
Qed.

(** Variants A and B: the same, provided [get_olt_model] does not raise. *)
Lemma huawei_reachable_ok (t : transport) (ip : string) (model : string) :
  ¬ unreachable t ip →
  Huawei.get_olt_model t ip = Ret model →
  rec_status (Huawei.collect_olt_data t ip) = OK.
Proof.
  intros Hprobe Hmodel. apply reachable_ok; [done|..]; simpl.
  - apply get_olt_sysname_total.
  - eauto.
  - apply try_except_total.
  - apply try_except_total.
  - apply try_except_total.
Qed.

Lemma fiberhome_reachable_ok (t : transport) (ip : string) (model : string) :
  ¬ unreachable t ip →
  Fiberhome.get_olt_model t ip = Ret model →
  rec_status (Fiberhome.collect_olt_data t ip) = OK.
Proof.
  intros Hprobe Hmodel. apply reachable_ok; [done|..]; simpl.
  - apply get_olt_sysname_total.
  - eauto.
  - apply try_except_total.
  - apply try_except_total.
  - apply try_except_total.
Qed.

(** C1, where the code departs from it.  The probe of Variant B is answered,
    [get_olt_model] finds no model name and indexes the empty list of words
    after the equals sign, and the [IndexError] makes [collect_olt_data]
    return a record with the status ERROR.  Variant C, on the same answers,
    returns the status OK. *)
Theorem huawei_answered_probe_reported_error :
  let r := Huawei.collect_olt_data blank_description "10.0.0.1" in
  missing (run_snmp_command blank_description "10.0.0.1" OID_SYS_DESCR false) = false
  ∧ Huawei.get_olt_model blank_description "10.0.0.1" = Raise "list index out of range"
  ∧ rec_status r = ERROR
  ∧ rec_error r = "list index out of range"
  ∧ rec_status (ZTE.collect_olt_data blank_description "10.0.0.1") = OK.
Proof. by vm_compute. Qed.

Lemma fiberhome_answered_probe_reported_error :
  let r := Fiberhome.collect_olt_data blank_fiberhome_description "10.0.0.1" in
  missing (run_snmp_command blank_fiberhome_description "10.0.0.1" OID_SYS_DESCR false)
  = false
  ∧ rec_status r = ERROR
  ∧ rec_error r = "list index out of range".
Proof. by vm_compute. Qed.

(** ** The compound index of [parse_snmp_output] *)

(** *** Strings *)

Lemma app_cons c a b : String c a +:+ b = String c (a +:+ b).
Proof. done. Qed.

Lemma app_nil_l a : "" +:+ a = a.
Proof. done. Qed.

Lemma app_nil_r a : a +:+ "" = a.
Proof. induction a as [|c a IH]; [done|]. by rewrite app_cons, IH. Qed.

Lemma app_assoc a b c : (a +:+ b) +:+ c = a +:+ b +:+ c.
Proof. induction a as [|x a IH]; [done|]. by rewrite !app_cons, IH. Qed.

Lemma length_app a b :
  String.length (a +:+ b) = String.length a + String.length b.
Proof. induction a as [|x a IH]; [done|]. rewrite app_cons. simpl. by rewrite IH. Qed.

Lemma take_app a b : Py.take (String.length a) (a +:+ b) = a.
Proof. induction a as [|x a IH]; [by destruct b|]. rewrite app_cons. simpl. by rewrite IH. Qed.

Lemma take_consumed a b :
  Py.take (String.length (a +:+ b) - String.length b) (a +:+ b) = a.
Proof.
  rewrite length_app.
  replace (String.length a + String.length b - String.length b)
    with (String.length a) by lia.
  apply take_app.
Qed.

(** *** The matcher *)

Section matcher.
Variable n0 : nat.
Implicit Types (st : Re.mstate) (s : string) (caps : list (nat * string)).

Lemma run_class p s caps st' :
  st' ∈ Re.run n0 (Re.Class p) (s, caps)
  ↔ ∃ ch, s = String ch st'.1 ∧ p ch = true ∧ st'.2 = caps.
Proof.
  simpl. destruct s as [|ch s]; simpl.
  - rewrite elem_of_nil. split; [done | by intros (? & ? & _)].
  - destruct (p ch) eqn:Hp.
    + rewrite list_elem_of_singleton. split.
      * intros ->. by exists ch.
      * intros (ch' & [= -> ->] & _ & <-). by destruct st'.
    + rewrite elem_of_nil. split; [done|].
      intros (ch' & [= -> _] & Hp' & _). congruence.
Qed.

Lemma run_seq a b st st' :
  st' ∈ Re.run n0 (a ⋅ b) st ↔ ∃ st1, st1 ∈ Re.run n0 a st ∧ st' ∈ Re.run n0 b st1.
Proof. simpl. rewrite list_elem_of_bind. naive_solver. Qed.

Lemma star_go_spec step fuel st st' :
  String.length st.1 ≤ fuel →
  st' ∈ Re.star_go step fuel st ↔ star_rel step st st'.
Proof.
  revert st. induction fuel as [|fuel IH]; intros st Hfuel; simpl.
  - rewrite list_elem_of_singleton. split.
    + intros ->. constructor.
    + inversion 1; [done | lia].
  - rewrite elem_of_app, list_elem_of_bind, list_elem_of_singleton. split.
    + intros [(st1 & Hst' & Hst1) | ->]; [|constructor].
      case_bool_decide as Hlt; [|by apply elem_of_nil in Hst'].
      apply IH in Hst'; [|lia]. by eapply star_more.
    + inversion 1 as [|? st1 ? Hst1 Hlt Hrest]; subst; [by right|].
      left. exists st1. split; [|done].
      rewrite bool_decide_true by done. apply IH; [lia | done].
Qed.

Lemma run_star a st st' :
  st' ∈ Re.run n0 (Re.Star a) st ↔ star_rel (Re.run n0 a) st st'.
Proof. simpl. by apply star_go_spec. Qed.

Lemma run_group i a s caps st' :
  st' ∈ Re.run n0 (Re.Group i a) (s, caps)
  ↔ ∃ st1, st1 ∈ Re.run n0 a (s, caps)
           ∧ st' = (st1.1, (i, Py.take (String.length s - String.length st1.1) s) :: st1.2).
Proof. simpl. rewrite list_elem_of_fmap. naive_solver. Qed.

Lemma run_eos s caps st' :
  st' ∈ Re.run n0 Re.Eos (s, caps)
  ↔ st' = (s, caps) ∧ (s = "" ∨ s = String Py.LF "").
Proof.
  simpl. case_bool_decide as H.
  - rewrite list_elem_of_singleton. naive_solver.
  - rewrite elem_of_nil. naive_solver.
Qed.

End matcher.

(** *** The patterns of the compound index *)

Global Arguments Re.run : simpl never.

Section index_patterns.
Variable n0 : nat.
Implicit Types (st : Re.mstate) (s : string) (caps : list (nat * string)).

Lemma star_class p s caps st' :
  star_rel (Re.run n0 (Re.Class p)) (s, caps) st'
  ↔ ∃ d, all_chars p d = true ∧ s = d +:+ st'.1 ∧ st'.2 = caps.
Proof.
  split.
  - intros H. remember (s, caps) as st eqn:Hst. revert s caps Hst.
    induction H as [st|st st1 st' Hstep _ _ IH]; intros s caps ->.
    + by exists "".
    + apply run_class in Hstep as (ch & -> & Hp & Hcaps).
      destruct st1 as [s1 caps1]. simpl in *. subst caps1.
      destruct (IH s1 caps eq_refl) as (d & Hd & -> & <-).
      exists (String ch d). simpl. by rewrite Hp, Hd.
  - intros (d & Hd & -> & <-). destruct st' as [s' caps']. cbn [fst snd].
    induction d as [|ch d IH]; [constructor|].
    simpl in Hd. apply andb_true_iff in Hd as [Hp Hd].
    rewrite app_cons. eapply (star_more _ _ (d +:+ s', caps')).
    + apply run_class. by exists ch.
    + simpl. lia.
    + by apply IH.
Qed.

Lemma run_digits s caps st' :
  st' ∈ Re.run n0 DIGITS (s, caps)
  ↔ ∃ d, number d ∧ s = d +:+ st'.1 ∧ st'.2 = caps.
Proof.
  unfold DIGITS, Re.Plus. rewrite run_seq. split.
  - intros ([s1 caps1] & Hfirst & Hrest).
    apply run_class in Hfirst as (ch & -> & Hp & Hcaps). simpl in *. subst caps1.
    apply run_star, star_class in Hrest as (d & Hd & -> & <-).
    exists (String ch d). split_and!; [|done..].
    split; [done|]. simpl. by rewrite Hp, Hd.
  - intros (d & [Hne Hd] & -> & <-). destruct d as [|ch d]; [done|].
    simpl in Hd. apply andb_true_iff in Hd as [Hp Hd].
    exists (d +:+ st'.1, st'.2). split.
    + apply run_class. by exists ch.
    + apply run_star, star_class. by exists d.
Qed.

Lemma run_dot s caps st' :
  st' ∈ Re.run n0 (Re.Lit ".") (s, caps) ↔ s = "." +:+ st'.1 ∧ st'.2 = caps.
Proof.
  unfold Re.Lit. rewrite run_class. split.
  - intros (ch & -> & Hch & ->). by apply Ascii.eqb_eq in Hch as <-.
  - intros [-> ->]. by exists "."%char.
Qed.

Lemma star_dot_digits s caps st' :
  star_rel (Re.run n0 (Re.Lit "." ⋅ DIGITS)) (s, caps) st'
  ↔ ∃ w, dot_groups w ∧ s = w +:+ st'.1 ∧ st'.2 = caps.
Proof.
  split.
  - intros H. remember (s, caps) as st eqn:Hst. revert s caps Hst.
    induction H as [st|st st1 st' Hstep _ _ IH]; intros s caps ->.
    + exists "". split; [constructor | done].
    + apply run_seq in Hstep as ([s2 caps2] & Hdot & Hdigits).
      apply run_dot in Hdot as [-> Hcaps]. simpl in *. subst caps2.
      apply run_digits in Hdigits as (d & Hd & -> & Hcaps).
      destruct st1 as [s1 caps1]. simpl in *. subst caps1.
      destruct (IH s1 caps eq_refl) as (w & Hw & -> & <-).
      exists ("." +:+ d +:+ w). split; [by constructor|].
      by rewrite !app_assoc.
  - intros (w & Hw & -> & <-). destruct st' as [s' caps']. cbn [fst snd].
    induction Hw as [|d w Hd Hw IH]; [constructor|].
    eapply (star_more _ _ (w +:+ s', caps')).
    + apply run_seq. exists (d +:+ w +:+ s', caps'). split.
      * apply run_dot. by rewrite !app_assoc.
      * apply run_digits. by exists d.
    + simpl. rewrite !length_app. destruct Hd as [Hne _].
      destruct d; [done|]. simpl. lia.
    + done.
Qed.

End index_patterns.

Section whole_patterns.
Variable n0 : nat.
Implicit Types (st : Re.mstate) (s : string).

Lemma run_huawei_full_index s st' :
  st' ∈ Re.run n0 Huawei.FULL_INDEX (s, [])
  ↔ ∃ u, dotted u ∧ s = "." +:+ u +:+ st'.1 ∧ at_end st'.1 ∧ st'.2 = [(1, u)].
Proof.
  unfold Huawei.FULL_INDEX. rewrite run_seq. split.
  - intros ([s1 caps1] & Hdot & Hrest).
    apply run_dot in Hdot as [-> Hcaps]. cbn [fst snd] in *. subst caps1.
    apply run_seq in Hrest as ([s2 caps2] & Hgroup & Heos).
    apply run_eos in Heos as [-> Hend].
    apply run_group in Hgroup as ([s3 caps3] & Hbody & [= -> ->]).
    apply run_seq in Hbody as ([s4 caps4] & Hd & Hw).
    apply run_digits in Hd as (d & Hd & -> & Hcaps). cbn [fst snd] in *. subst caps4.
    apply run_star, star_dot_digits in Hw as (w & Hw & -> & <-).
    cbn [fst snd] in *. exists (d +:+ w). split_and!; [by exists d, w | | done |].
    + by rewrite app_assoc.
    + by rewrite <-app_assoc, take_consumed.
  - intros (u & (d & w & Hd & Hw & ->) & -> & Hend & Hcaps).
    destruct st' as [s' caps']. cbn [fst snd] in *. subst caps'.
    exists ((d +:+ w) +:+ s', []). split; [by apply run_dot|].
    apply run_seq. exists (s', [(1, d +:+ w)]). split; [|by apply run_eos].
    apply run_group. exists (s', []). split.
    + apply run_seq. exists (w +:+ s', []). split.
      * apply run_digits. exists d. by rewrite app_assoc.
      * apply run_star, star_dot_digits. by exists w.
    + cbn [fst snd]. by rewrite take_consumed.
Qed.

Lemma run_zte_full_index s st' :
  st' ∈ Re.run n0 ZTE.FULL_INDEX (s, [])
  ↔ ∃ u, two_groups u ∧ s = "." +:+ u +:+ st'.1 ∧ at_end st'.1 ∧ st'.2 = [(1, u)].
Proof.
  unfold ZTE.FULL_INDEX. rewrite run_seq. split.
  - intros ([s1 caps1] & Hdot & Hrest).
    apply run_dot in Hdot as [-> Hcaps]. cbn [fst snd] in *. subst caps1.
    apply run_seq in Hrest as ([s2 caps2] & Hgroup & Heos).
    apply run_eos in Heos as [-> Hend].
    apply run_group in Hgroup as ([s3 caps3] & Hbody & [= -> ->]).
    apply run_seq in Hbody as ([s4 caps4] & Hd1 & Hrest).
    apply run_digits in Hd1 as (d1 & Hd1 & -> & Hcaps). cbn [fst snd] in *. subst caps4.
    apply run_seq in Hrest as ([s5 caps5] & Hdot & Hd2).
    apply run_dot in Hdot as [-> Hcaps]. cbn [fst snd] in *. subst caps5.
    apply run_digits in Hd2 as (d2 & Hd2 & -> & <-).
    cbn [fst snd] in *. exists (d1 +:+ "." +:+ d2).
    split_and!; [by exists d1, d2 | | done |].
    + by rewrite !app_assoc.
    + match goal with |- context [Py.take _ (d1 +:+ "." +:+ d2 +:+ ?x)] =>
        replace (d1 +:+ "." +:+ d2 +:+ x) with ((d1 +:+ "." +:+ d2) +:+ x)
          by by rewrite !app_assoc
      end.
      by rewrite take_consumed.
  - intros (u & (d1 & d2 & Hd1 & Hd2 & ->) & -> & Hend & Hcaps).
    destruct st' as [s' caps']. cbn [fst snd] in *. subst caps'.
    exists ((d1 +:+ "." +:+ d2) +:+ s', []). split; [by apply run_dot|].
    apply run_seq. exists (s', [(1, d1 +:+ "." +:+ d2)]). split; [|by apply run_eos].
    apply run_group. exists (s', []). split.
    + apply run_seq. exists ("." +:+ d2 +:+ s', []). split.
      * apply run_digits. exists d1. by rewrite !app_assoc.
      * apply run_seq. exists (d2 +:+ s', []). split; [by apply run_dot|].
        apply run_digits. by exists d2.
    + cbn [fst snd]. by rewrite take_consumed.
Qed.

(** [re.search] returns the match at the first offset that has one. *)
Lemma search_from_spec r s :
  match Re.search_from n0 r s with
  | Some m =>
      ∃ p s1 st rest,
        s = p +:+ s1 ∧ Re.run n0 r (s1, []) = st :: rest
        ∧ m = (Py.take (String.length s1 - String.length st.1) s1, st.2)
        ∧ ∀ p' s1', s = p' +:+ s1' → String.length p' < String.length p →
                    Re.run n0 r (s1', []) = []
  | None => ∀ p' s1', s = p' +:+ s1' → Re.run n0 r (s1', []) = []
  end.
Proof.
  induction s as [|c s IH]; simpl.
  - destruct (Re.run n0 r ("", [])) as [|st rest] eqn:Hrun.
    + intros p' s1' H. destruct p'; [|by rewrite app_cons in H].
      rewrite app_nil_l in H. by subst s1'.
    + exists "", "", st, rest. split_and!; [done..|]. intros ??? Hlt. simpl in Hlt. lia.
  - destruct (Re.run n0 r (String c s, [])) as [|st rest] eqn:Hrun.
    + destruct (Re.search_from n0 r s) as [m|].
      * destruct IH as (p & s1 & st & rest & -> & Hs1 & -> & Hmin).
        exists (String c p), s1, st, rest. split_and!; [done..|].
        intros p' s1' Heq Hlt. destruct p' as [|c' p'].
        { rewrite app_nil_l in Heq. by subst s1'. }
        rewrite !app_cons in Heq. injection Heq as -> Heq.
        apply (Hmin p' s1' Heq). simpl in Hlt. lia.
      * intros p' s1' Heq. destruct p' as [|c' p'].
        { rewrite app_nil_l in Heq. by subst s1'. }
        rewrite app_cons in Heq. injection Heq as -> Heq.
        by apply (IH p' s1').
    + exists "", (String c s), st, rest. split_and!; [done..|].
      intros ??? Hlt. simpl in Hlt. lia.
Qed.

End whole_patterns.

(** *** Dot-separated digit groups, in the words of [split] *)

Lemma number_no_dot d : number d → no_dot d.
Proof.
  intros [_ Hd]. unfold no_dot. induction d as [|c d IH]; [done|].
  simpl in *. apply andb_true_iff in Hd as [Hc Hd]. rewrite IH by done.
  rewrite andb_true_r. destruct (Ascii.eqb_spec c "."); [by subst c | done].
Qed.

Lemma split_dot s : Py.split "." None ("." +:+ s) = "" :: Py.split "." None s.
Proof. done. Qed.

Lemma split_app_dot h r :
  no_dot h → Py.split "." None (h +:+ "." +:+ r) = h :: Py.split "." None r.
Proof.
  unfold no_dot. induction h as [|c h IH]; intros Hh; [done|].
  simpl in Hh. apply andb_true_iff in Hh as [Hc Hh].
  rewrite app_cons. simpl. apply negb_true_iff in Hc. rewrite Hc. simpl.
  by rewrite IH.
Qed.

Lemma split_no_dot h : no_dot h → Py.split "." None h = [h].
Proof.
  unfold no_dot. induction h as [|c h IH]; intros Hh; [done|].
  simpl in Hh. apply andb_true_iff in Hh as [Hc Hh].
  simpl. apply negb_true_iff in Hc. rewrite Hc. simpl. by rewrite IH.
Qed.

Lemma split_not_nil sep maxsplit s : Py.split sep maxsplit s ≠ [].
Proof.
  revert maxsplit. induction s as [|c s IH]; intros maxsplit; simpl; [done|].
  destruct (_ && _); [done|]. by destruct (Py.split sep maxsplit s).
Qed.

(** The first component that [split] returns, and what is left. *)
Lemma split_decomp s h t :
  Py.split "." None s = h :: t →
  no_dot h ∧ ((t = [] ∧ s = h) ∨ ∃ r, s = h +:+ "." +:+ r ∧ t = Py.split "." None r).
Proof.
  revert h t. induction s as [|c s IH]; intros h t; simpl.
  { intros [= <- <-]. split; [done | by left]. }
  destruct (Ascii.eqb_spec c ".") as [->|Hc]; simpl.
  - intros [= <- <-]. split; [done|]. right. by exists s.
  - destruct (Py.split "." None s) as [|h' t'] eqn:Hs.
    { by apply split_not_nil in Hs. }
    intros [= <- <-]. destruct (IH h' t' eq_refl) as [Hh' Hrest]. split.
    + unfold no_dot in *. simpl. rewrite Hh', andb_true_r.
      apply negb_true_iff. by destruct (Ascii.eqb_spec c ".").
    + destruct Hrest as [[-> ->] | (r & -> & ->)]; [by left|].
      right. by exists r.
Qed.

Lemma dotted_digit_groups u : dotted u ↔ digit_groups u.
Proof.
  unfold digit_groups. split.
  - intros (d & w & Hd & Hw & ->). revert d Hd.
    induction Hw as [|d' w Hd' Hw IH]; intros d Hd.
    + rewrite app_nil_r, split_no_dot by by apply number_no_dot.
      by apply Forall_singleton.
    + rewrite split_app_dot by by apply number_no_dot.
      apply Forall_cons. split; [done | by apply IH].
  - remember (Py.split "." None u) as l eqn:Hl. intros Hall. revert u Hl.
    induction Hall as [|h t Hh Ht IH]; intros u Hl.
    { destruct u; simpl in Hl; [done|]. repeat case_match; done. }
    symmetry in Hl. apply split_decomp in Hl as [_ [[-> ->] | (r & -> & ->)]].
    + exists h, "". split_and!; [done | constructor | by rewrite app_nil_r].
    + destruct (IH r eq_refl) as (d & w & Hd & Hw & ->).
      exists h, ("." +:+ d +:+ w). split_and!; [done | by constructor | done].
Qed.

Lemma two_groups_split u :
  two_groups u ↔ ∃ d1 d2, Py.split "." None u = [d1; d2] ∧ number d1 ∧ number d2.
Proof.
  split.
  - intros (d1 & d2 & H1 & H2 & ->). exists d1, d2. split; [|done].
    rewrite split_app_dot by by apply number_no_dot.
    by rewrite split_no_dot by by apply number_no_dot.
  - intros (d1 & d2 & Hsplit & H1 & H2). exists d1, d2. split_and!; [done..|].
    apply split_decomp in Hsplit as [_ [[? _] | (r & -> & Hr)]]; [done|].
    symmetry in Hr. apply split_decomp in Hr as [_ [[_ ->] | (r' & _ & Hr')]]; [done|].
    symmetry in Hr'. by apply split_not_nil in Hr'.
Qed.

(** A stripped string does not end with a blank. *)
Lemma rstrip_with_last p s a c : Py.rstrip_with p s = a +:+ String c "" → p c = false.
Proof.
  revert a. induction s as [|ch s IH]; intros a; simpl.
  { by destruct a. }
  destruct (Py.rstrip_with p s) as [|ch' r] eqn:Hr.
  - destruct (p ch) eqn:Hp; [by destruct a|].
    destruct a as [|? a]; [by intros [= <-]|].
    rewrite app_cons. intros [= _ H]. by destruct a.
  - destruct a as [|? a].
    + rewrite app_nil_l. done.
    + rewrite app_cons. intros [= _ H]. by apply (IH a).
Qed.

Lemma strip_not_before_newline x a : Py.strip x ≠ a +:+ String Py.LF "".
Proof.
  intros H. unfold Py.strip, Py.strip_with in H.
  by apply rstrip_with_last in H.
Qed.

(** *** The index the three parsers derive *)

(** The pattern of Variants A and B: the longest trailing run, else the
    trailing scalar. *)
Lemma longest_run_index (x : string) :
  let oid_part := Py.strip x in
  let index := table_index Huawei.FULL_INDEX true oid_part in
  (∃ u, longest_trailing_run oid_part u ∧ index = u)
  ∨ ((∀ u, ¬ trailing_run oid_part u) ∧ index = trailing_scalar oid_part).
Proof.
  intros oid_part index. subst index. unfold table_index, Re.search.
  pose proof (search_from_spec (String.length oid_part) Huawei.FULL_INDEX oid_part) as H.
  destruct (Re.search_from _ _ _) as [m|].
  - left. destruct H as (p & s1 & st & rest & Hs & Hrun & -> & Hmin).
    assert (st ∈ Re.run (String.length oid_part) Huawei.FULL_INDEX (s1, [])) as Hst
      by (rewrite Hrun; left).
    apply run_huawei_full_index in Hst as (u & Hu & -> & Hend & Hcaps).
    destruct Hend as [Hend|Hend]; rewrite Hend in *.
    2:{ exfalso. apply (strip_not_before_newline x (p +:+ "." +:+ u)).
        fold oid_part. by rewrite Hs, !app_assoc. }
    rewrite app_nil_r in *. exists u.
    split; [|by unfold Re.group; cbn [snd]; rewrite Hcaps].
    split; [split; [by exists p | by apply dotted_digit_groups]|].
    intros u' [[p' Hp'] Hu'].
    destruct (decide (String.length p' < String.length p)) as [Hlt|Hge].
    + exfalso. specialize (Hmin p' _ Hp' Hlt).
      assert (("", [(1, u')]) ∈ Re.run (String.length oid_part) Huawei.FULL_INDEX
                ("." +:+ u', [])) as Hin.
      { apply run_huawei_full_index. exists u'. cbn [fst snd].
        split_and!; [by apply dotted_digit_groups | by rewrite app_nil_r | by left | done]. }
      rewrite Hmin in Hin. by apply elem_of_nil in Hin.
    + apply (f_equal String.length) in Hs, Hp'. rewrite !length_app in Hs, Hp'.
      simpl in Hs, Hp'. lia.
  - right. split; [|done]. intros u [[p Hp] Hu].
    specialize (H p ("." +:+ u) Hp).
    assert (("", [(1, u)]) ∈ Re.run (String.length oid_part) Huawei.FULL_INDEX
              ("." +:+ u, [])) as Hin.
    { apply run_huawei_full_index. exists u. cbn [fst snd].
      split_and!; [by apply dotted_digit_groups | by rewrite app_nil_r | by left | done]. }
    rewrite H in Hin. by apply elem_of_nil in Hin.
Qed.

(** The pattern of Variant C: the last two groups, else the trailing scalar. *)
Lemma last_two_groups_index (x : string) :
  let oid_part := Py.strip x in
  let index := table_index ZTE.FULL_INDEX true oid_part in
  (∃ u, last_two_groups oid_part u ∧ index = u)
  ∨ ((∀ u, ¬ last_two_groups oid_part u) ∧ index = trailing_scalar oid_part).
Proof.
  intros oid_part index. subst index. unfold table_index, Re.search.
  pose proof (search_from_spec (String.length oid_part) ZTE.FULL_INDEX oid_part) as H.
  destruct (Re.search_from _ _ _) as [m|].
  - left. destruct H as (p & s1 & st & rest & Hs & Hrun & -> & Hmin).
    assert (st ∈ Re.run (String.length oid_part) ZTE.FULL_INDEX (s1, [])) as Hst
      by (rewrite Hrun; left).
    apply run_zte_full_index in Hst as (u & Hu & -> & Hend & Hcaps).
    destruct Hend as [Hend|Hend]; rewrite Hend in *.
    2:{ exfalso. apply (strip_not_before_newline x (p +:+ "." +:+ u)).
        fold oid_part. by rewrite Hs, !app_assoc. }
    rewrite app_nil_r in *. exists u.
    split; [|by unfold Re.group; cbn [snd]; rewrite Hcaps].
    split; [by exists p | by apply two_groups_split].
  - right. split; [|done]. intros u [[p Hp] Hu].
    specialize (H p ("." +:+ u) Hp).
    assert (("", [(1, u)]) ∈ Re.run (String.length oid_part) ZTE.FULL_INDEX
              ("." +:+ u, [])) as Hin.
    { apply run_zte_full_index. exists u. cbn [fst snd].
      split_and!; [by apply two_groups_split | by rewrite app_nil_r | by left | done]. }
    rewrite H in Hin. by apply elem_of_nil in Hin.
Qed.

(** A line with an equals sign is a row: it is cut at the first equals sign
    and stored under the index of what stands before it. *)
Lemma split_no_more sep s : Py.split sep (Some 0) s = [s].
Proof.
  induction s as [|c s IH]; [done|]. simpl. rewrite andb_false_r. by rewrite IH.
Qed.

Lemma contains_equals_cons c line :
  Py.contains "=" (String c line) = Ascii.eqb c "=" || Py.contains "=" line.
Proof.
  change (Py.contains "=" (String c line))
    with ((if ascii_dec "=" c then String.prefix "" line else false)
          || Py.contains "=" line).
  destruct (ascii_dec "=" c) as [<-|Hc].
  - by destruct line.
  - by destruct (Ascii.eqb_spec c "=") as [->|_].
Qed.

Lemma split_first_equals line :
  Py.contains "=" line = true →
  ∃ p0 p1, Py.split "=" (Some 1) line = [p0; p1].
Proof.
  induction line as [|c line IH]; [done|].
  rewrite contains_equals_cons.
  change (Py.split "=" (Some 1) (String c line))
    with (if Ascii.eqb c "=" && true then "" :: Py.split "=" (Some 0) line
          else match Py.split "=" (Some 1) line with
               | h :: t => String c h :: t
               | [] => [String c ""]
               end).
  destruct (Ascii.eqb c "="); simpl.
  - intros _. rewrite split_no_more. by eexists _, _.
  - intros (p0 & p1 & ->)%IH. by eexists _, _.
Qed.

Lemma parse_line_row pat full_index data line :
  Py.contains "=" line = true →
  ∃ p0 p1,
    Py.split "=" (Some 1) line = [p0; p1]
    ∧ parse_line pat full_index data line
      = <[table_index pat full_index (Py.strip p0) := clean_value (Py.strip p1)]> data.
Proof.
  intros Hline. destruct (split_first_equals line Hline) as (p0 & p1 & Hsplit).
  exists p0, p1. split; [done|]. unfold parse_line. by rewrite Hline, Hsplit.
Qed.

(** C2, as the code has it.  With [full_index] set, a line that has an equals
    sign is stored under an index derived from the stripped text before the
    first equals sign.  The parsers of Variants A and B take the longest
    trailing run of dot-separated digit groups that follows a dot; the parser
    of Variant C takes the last two dot-separated digit groups after a dot;
    each takes the trailing scalar component when its pattern does not match.
    The three parsers read the line [...ponOnuStatus.285278465.1 = INTEGER: 4]
    as index 285278465.1 and value 4. *)
Theorem compound_index_by_vendor :
  (∀ (pat : Re.regex) (data : gmap string string) (line : string),
     Py.contains "=" line = true →
     ∃ p0 p1,
       Py.split "=" (Some 1) line = [p0; p1]
       ∧ parse_line pat true data line
         = <[table_index pat true (Py.strip p0) := clean_value (Py.strip p1)]> data)
  ∧ (∀ x : string,
       let oid_part := Py.strip x in
       let huawei := table_index Huawei.FULL_INDEX true oid_part in
       let fiberhome := table_index Fiberhome.FULL_INDEX true oid_part in
       let zte := table_index ZTE.FULL_INDEX true oid_part in
       ((∃ u, longest_trailing_run oid_part u ∧ huawei = u ∧ fiberhome = u)
        ∨ ((∀ u, ¬ trailing_run oid_part u)
           ∧ huawei = trailing_scalar oid_part
           ∧ fiberhome = trailing_scalar oid_part))
       ∧ ((∃ u, last_two_groups oid_part u ∧ zte = u)
          ∨ ((∀ u, ¬ last_two_groups oid_part u) ∧ zte = trailing_scalar oid_part)))
  ∧ Huawei.parse_snmp_output (Some ONU_STATUS_LINE) true = {[ "285278465.1" := "4" ]}
  ∧ ZTE.parse_snmp_output (Some ONU_STATUS_LINE) true = {[ "285278465.1" := "4" ]}
  ∧ Fiberhome.parse_snmp_output (Some ONU_STATUS_LINE) true = {[ "285278465.1" := "4" ]}.
Proof.
  split_and!; [| |by vm_compute..].
  - intros pat data line. apply parse_line_row.
  - intros x oid_part huawei fiberhome zte. split.
    + change fiberhome with huawei.
      destruct (longest_run_index x) as [(u & Hu & Hidx) | [Hnone Hidx]].
      * left. by exists u.
      * by right.
    + apply last_two_groups_index.
Qed.

Lemma compound_index_by_vendor_witness :
  ∃ p0 p1,
    Py.split "=" (Some 1) ONU_STATUS_LINE = [p0; p1]
    ∧ parse_line ZTE.FULL_INDEX true ∅ ONU_STATUS_LINE
      = <[table_index ZTE.FULL_INDEX true (Py.strip p0) := clean_value (Py.strip p1)]> ∅.
Proof.
  apply (proj1 compound_index_by_vendor ZTE.FULL_INDEX ∅ ONU_STATUS_LINE).
  reflexivity.
Defined.

(** C2 as stated fails for Variant C: the longest trailing run of digit
    groups of a numeric identifier is the whole numeric part, and the parser
    of Variant C takes its last two groups. *)
Lemma zte_index_is_not_the_longest_run :
  ¬ (∀ x u : string,
       longest_trailing_run (Py.strip x) u →
       table_index ZTE.FULL_INDEX true (Py.strip x) = u).
Proof.
  intros H.
  destruct (longest_run_index NUMERIC_ONU_OID) as [(u & Hu & Hidx) | [_ Hidx]].
  - specialize (H NUMERIC_ONU_OID u Hu). rewrite <-Hidx in H.
    vm_compute in H. discriminate H.
  - vm_compute in Hidx. discriminate Hidx.
Qed.

Example zte_numeric_oid_row :
  ZTE.parse_snmp_output (Some (NUMERIC_ONU_OID +:+ " = INTEGER: 4")) true
  = {[ "285278465.1" := "4" ]}
  ∧ Huawei.parse_snmp_output (Some (NUMERIC_ONU_OID +:+ " = INTEGER: 4")) true
    = {[ "3.6.1.4.1.3902.1082.500.10.2.3.8.1.4.285278465.1" := "4" ]}.
Proof. split; by vm_compute. Qed.

(** * Further properties of the parser *)

Lemma parse_line_row_eq pat full_index data line :
  parse_line pat full_index data line
  = if Py.contains "=" line
    then <[table_index pat full_index (line_oid line) := line_value line]> data
    else data.
Proof.
  unfold parse_line, line_oid, line_value.
  destruct (Py.contains "=" line) eqn:Hline; [|done].
  destruct (split_first_equals line Hline) as (p0 & p1 & ->). done.
Qed.

Section rows.
Variables (pat : Re.regex) (full_index : bool).
Implicit Types (data : gmap string string) (lines : list string).

Let index (line : string) : string := table_index pat full_index (line_oid line).

Lemma fold_rows_filter data lines :
  foldl (parse_line pat full_index) data lines
  = foldl (parse_line pat full_index) data (filter is_row lines).
Proof.
  revert data. induction lines as [|line lines IH]; intros data; [done|].
  rewrite filter_cons. simpl. unfold is_row at 1.
  destruct (decide (Py.contains "=" line = true)) as [Hline|Hline]; simpl.
  - apply IH.
  - rewrite parse_line_row_eq. apply not_true_is_false in Hline.
    rewrite Hline. apply IH.
Qed.

Lemma fold_rows_size data lines :
  size (foldl (parse_line pat full_index) data lines)
  ≤ size data + length (filter is_row lines).
Proof.
  revert data. induction lines as [|line lines IH]; intros data.
  { rewrite filter_nil. simpl. lia. }
  rewrite filter_cons. simpl. etrans; [apply IH|].
  rewrite parse_line_row_eq. unfold is_row at 2.
  destruct (decide (Py.contains "=" line = true)) as [Hline|Hline].
  - rewrite Hline. simpl.
    pose proof (map_size_insert (index line) (line_value line) data) as Hsize.
    fold (index line). destruct (data !! index line); unfold id in Hsize; lia.
  - apply not_true_is_false in Hline. rewrite Hline. lia.
Qed.

Lemma fold_rows_lookup data lines k :
  foldl (parse_line pat full_index) data lines !! k
  = match list_find (λ line, is_row line ∧ index line = k) (reverse lines) with
    | Some (_, line) => Some (line_value line)
    | None => data !! k
    end.
Proof.
  revert data. induction lines as [|line lines IH] using rev_ind; intros data; [done|].
  rewrite foldl_app, reverse_app. simpl. rewrite parse_line_row_eq.
  destruct (decide (is_row line ∧ index line = k)) as [[Hline Hk]|Hno].
  - unfold is_row in Hline. rewrite Hline. fold (index line).
    rewrite Hk. apply lookup_insert_eq.
  - destruct (Py.contains "=" line) eqn:Hline.
    + fold (index line). rewrite lookup_insert_ne by (intros Hk; by apply Hno).
      rewrite IH. by destruct (list_find _ _) as [[]|].
    + rewrite IH. by destruct (list_find _ _) as [[]|].
Qed.

End rows.

Lemma parse_fold pat output full_index :
  parse_snmp_output_with pat output full_index
  = foldl (parse_line pat full_index) ∅ (lines_of output).
Proof. by destruct output as [[|c text]|]. Qed.

Lemma fold_rows_other pat full_index data lines k :
  (∀ line, line ∈ lines → is_row line → row_index pat full_index line ≠ k) →
  foldl (parse_line pat full_index) data lines !! k = data !! k.
Proof.
  intros Hlines. rewrite fold_rows_lookup.
  destruct (list_find _ _) as [[i line]|] eqn:Hfind; [|done].
  apply list_find_Some in Hfind as (Hline & [Hrow Hk] & _).
  apply list_elem_of_lookup_2 in Hline. rewrite elem_of_reverse in Hline.
  by destruct (Hlines line Hline Hrow).
Qed.

(** X1. [parse_snmp_output] makes its rows from the lines that have an equals
    sign and from nothing else: the other lines are skipped, the map has at
    most one row per such line, and an index is a key exactly when some such
    line carries it.  With no output there is no row. *)
Theorem parse_rows_come_from_lines_with_equals
    (pat : Re.regex) (output : option string) (full_index : bool) :
  let data := parse_snmp_output_with pat output full_index in
  let rows := filter is_row (lines_of output) in
  data = foldl (parse_line pat full_index) ∅ rows
  ∧ size data ≤ length rows
  ∧ (∀ k, is_Some (data !! k)
          ↔ ∃ line, line ∈ rows ∧ row_index pat full_index line = k)
  ∧ (missing output = true → data = ∅).
Proof.
  intros data rows. subst data rows. rewrite parse_fold. split_and!.
  - apply fold_rows_filter.
  - etrans; [apply fold_rows_size|]. by rewrite map_size_empty.
  - intros k. rewrite fold_rows_lookup, lookup_empty. split.
    + destruct (list_find _ _) as [[i line]|] eqn:Hfind; [|by intros [? ?]].
      intros _. apply list_find_Some in Hfind as (Hline & [Hrow Hk] & _).
      apply list_elem_of_lookup_2 in Hline. rewrite elem_of_reverse in Hline.
      exists line. split; [|done]. by apply list_elem_of_filter.
    + intros (line & [Hrow Hline]%list_elem_of_filter & Hk).
      destruct (list_find _ _) as [[i line']|] eqn:Hfind; [done|].
      apply list_find_None in Hfind. rewrite Forall_forall in Hfind.
      destruct (Hfind line); [by rewrite elem_of_reverse | done].
  - intros Hmiss. rewrite <-parse_fold. by apply parse_missing.
Qed.

Lemma parse_rows_come_from_lines_with_equals_witness :
  Huawei.parse_snmp_output (Some "") false = ∅.
Proof.
  apply (parse_rows_come_from_lines_with_equals Huawei.FULL_INDEX (Some "") false).
  reflexivity.
Defined.

(** X2. When an index occurs on several lines the last one wins: the map
    holds, under the index of a line, the value of that line whenever no
    later line carries the same index. *)
Theorem parse_later_row_overwrites
    (pat : Re.regex) (output : option string) (full_index : bool)
    (before after : list string) (line : string) :
  lines_of output = before ++ line :: after →
  is_row line →
  (∀ later, later ∈ after → is_row later →
            row_index pat full_index later ≠ row_index pat full_index line) →
  parse_snmp_output_with pat output full_index !! row_index pat full_index line
  = Some (line_value line).
Proof.
  intros Hlines Hrow Hafter. rewrite parse_fold, Hlines, foldl_app. simpl.
  rewrite fold_rows_other by done. rewrite parse_line_row_eq.
  unfold is_row in Hrow. rewrite Hrow. apply lookup_insert_eq.
Qed.

Lemma parse_key_row pat output full_index k v :
  parse_snmp_output_with pat output full_index !! k = Some v →
  ∃ line, line ∈ lines_of output ∧ is_row line
          ∧ row_index pat full_index line = k ∧ line_value line = v.
Proof.
  rewrite parse_fold, fold_rows_lookup, lookup_empty.
  destruct (list_find _ _) as [[i line]|] eqn:Hfind; [|done].
  intros [= <-]. apply list_find_Some in Hfind as (Hline & [Hrow Hk] & _).
  apply list_elem_of_lookup_2 in Hline. rewrite elem_of_reverse in Hline.
  by exists line.
Qed.

Lemma split_components_no_dot s : Forall no_dot (Py.split "." None s).
Proof.
  induction s as [|c s IH]; [by repeat constructor|]. simpl.
  destruct (Ascii.eqb_spec c ".") as [->|Hc]; simpl.
  - by constructor.
  - destruct (Py.split "." None s) as [|h t] eqn:Hs; [by apply split_not_nil in Hs|].
    apply Forall_cons in IH as [Hh Ht]. constructor; [|done].
    unfold no_dot in *. simpl. rewrite Hh, andb_true_r.
    apply negb_true_iff. by destruct (Ascii.eqb_spec c ".").
Qed.

Lemma trailing_scalar_no_dot s : no_dot (trailing_scalar s).
Proof.
  unfold trailing_scalar, Py.last_item.
  destruct (last _) as [x|] eqn:Hlast; [|done].
  apply last_Some_elem_of in Hlast.
  by apply (proj1 (Forall_forall _ _) (split_components_no_dot s)).
Qed.

(** X3. Without [full_index] a row is stored under what follows the last dot
    of its identifier: no key of the map contains a dot, so rows whose
    identifiers end in the same component share one key. *)
Theorem scalar_index_has_no_dot
    (pat : Re.regex) (output : option string) (k v : string) :
  parse_snmp_output_with pat output false !! k = Some v → no_dot k.
Proof.
  intros (line & _ & _ & <- & _)%parse_key_row.
  apply trailing_scalar_no_dot.
Qed.

Lemma lstrip_with_keeps p s :
  match s with String c _ => p c = false | "" => True end →
  Py.lstrip_with p s = s.
Proof. destruct s as [|c s]; [done|]. simpl. by intros ->. Qed.

Lemma lstrip_with_head p s :
  match Py.lstrip_with p s with String c _ => p c = false | "" => True end.
Proof.
  induction s as [|c s IH]; [done|]. simpl.
  destruct (p c) eqn:Hc; [done|]. exact Hc.
Qed.

Lemma rstrip_with_head p s :
  match s with String c _ => p c = false | "" => True end →
  match Py.rstrip_with p s with String c _ => p c = false | "" => True end.
Proof.
  destruct s as [|c s]; [done|]. simpl. intros Hc.
  destruct (Py.rstrip_with p s); by rewrite ?Hc.
Qed.

Lemma rstrip_with_idem p s :
  Py.rstrip_with p (Py.rstrip_with p s) = Py.rstrip_with p s.
Proof.
  induction s as [|c s IH]; [done|]. simpl.
  destruct (Py.rstrip_with p s) as [|c' r] eqn:Hr.
  - destruct (p c) eqn:Hc; [done|]. simpl. by rewrite Hc.
  - change (Py.rstrip_with p (String c (String c' r)))
      with (match Py.rstrip_with p (String c' r) with
            | "" => if p c then "" else String c ""
            | r0 => String c r0
            end).
    by rewrite IH.
Qed.

Lemma strip_with_idem p s : Py.strip_with p (Py.strip_with p s) = Py.strip_with p s.
Proof.
  unfold Py.strip_with.
  rewrite (lstrip_with_keeps p (Py.rstrip_with p _))
    by apply rstrip_with_head, lstrip_with_head.
  apply rstrip_with_idem.
Qed.

(** X4. Every value of the map is stripped: it neither begins nor ends with
    a blank, whatever the line it comes from. *)
Theorem parsed_values_are_stripped
    (pat : Re.regex) (output : option string) (full_index : bool) (k v : string) :
  parse_snmp_output_with pat output full_index !! k = Some v →
  Py.strip v = v
  ∧ match v with String c _ => Py.isspace c = false | "" => True end
  ∧ ∀ a c, v = a +:+ String c "" → Py.isspace c = false.
Proof.
  intros (line & _ & _ & _ & <-)%parse_key_row.
  unfold line_value, clean_value. split_and!.
  - apply strip_with_idem.
  - apply rstrip_with_head, lstrip_with_head.
  - intros a c. apply rstrip_with_last.
Qed.

Lemma parse_later_row_overwrites_witness :
  Huawei.parse_snmp_output (Some REPEATED_ROW) false !! "12" = Some "250".
Proof.
  refine (parse_later_row_overwrites Huawei.FULL_INDEX (Some REPEATED_ROW) false
            ["IF-MIB::ifType.12 = INTEGER: 6"] [] "IF-MIB::ifType.12 = INTEGER: 250"
            _ _ _).
  - reflexivity.
  - reflexivity.
  - intros later Hlater. by apply elem_of_nil in Hlater.
Defined.

Lemma scalar_index_has_no_dot_witness : no_dot "12".
Proof.
  apply (scalar_index_has_no_dot Huawei.FULL_INDEX (Some REPEATED_ROW) "12" "250").
  reflexivity.
Defined.

Lemma parsed_values_are_stripped_witness : Py.strip "250" = "250".
Proof.
  apply (parsed_values_are_stripped Huawei.FULL_INDEX (Some REPEATED_ROW) false "12" "250").
  reflexivity.
Defined.

(** * The type tag of a value *)

Section type_tag.
Variable n0 : nat.
Implicit Types (s : string) (caps : list (nat * string)) (p : ascii → bool).

Lemma star_go_class p fuel s caps :
  String.length s ≤ fuel →
  Re.star_go (Re.run n0 (Re.Class p)) fuel (s, caps) = (λ r, (r, caps)) <$> spans p s.
Proof.
  revert s. induction fuel as [|fuel IH]; intros s Hfuel.
  { destruct s; [done | simpl in Hfuel; lia]. }
  cbn [Re.star_go]. destruct s as [|c s]; [done|].
  change (Re.run n0 (Re.Class p) (String c s, caps))
    with (if p c then [(s, caps)] else []).
  cbn [spans]. destruct (p c); [|done].
  cbn [mbind list_bind fst]. rewrite bool_decide_true by (simpl; lia).
  rewrite IH by (simpl in Hfuel; lia). by rewrite List.app_nil_r, fmap_app.
Qed.

Lemma spans_head p s : ∃ rest, spans p s = Py.lstrip_with p s :: rest.
Proof.
  induction s as [|c s [rest IH]]; [by exists []|]. simpl.
  destruct (p c); [|by exists []]. rewrite IH. by eexists.
Qed.

Lemma run_star_class_head p s caps :
  ∃ rest, Re.run n0 (Re.Star (Re.Class p)) (s, caps)
          = (Py.lstrip_with p s, caps) :: rest.
Proof.
  change (Re.run n0 (Re.Star (Re.Class p)) (s, caps))
    with (Re.star_go (Re.run n0 (Re.Class p)) (String.length s) (s, caps)).
  rewrite star_go_class by done. destruct (spans_head p s) as [rest ->].
  by eexists.
Qed.

Lemma lstrip_with_app p a b :
  all_chars p a = true → Py.lstrip_with p (a +:+ b) = Py.lstrip_with p b.
Proof.
  induction a as [|c a IH]; [done|]. intros [Hc Ha]%andb_true_iff.
  rewrite app_cons. simpl. rewrite Hc. by apply IH.
Qed.

Lemma lstrip_with_length p s :
  String.length (Py.lstrip_with p s) ≤ String.length s.
Proof. induction s as [|c s IH]; [done|]. simpl. destruct (p c); simpl; lia. Qed.

Lemma run_plus_class_head p a b caps :
  a ≠ "" → all_chars p a = true →
  match b with String c _ => p c = false | "" => True end →
  ∃ rest, Re.run n0 (Re.Plus (Re.Class p)) (a +:+ b, caps) = (b, caps) :: rest.
Proof.
  intros Ha Hall Hb. destruct a as [|c a]; [done|].
  simpl in Hall. apply andb_true_iff in Hall as [Hc Hall]. rewrite app_cons.
  change (Re.run n0 (Re.Plus (Re.Class p)) (String c (a +:+ b), caps))
    with ((if p c then [(a +:+ b, caps)] else [])
          ≫= Re.run n0 (Re.Star (Re.Class p))).
  rewrite Hc. cbn [mbind list_bind]. rewrite List.app_nil_r.
  destruct (run_star_class_head p (a +:+ b) caps) as [rest ->].
  rewrite lstrip_with_app, lstrip_with_keeps by done. by eexists.
Qed.

End type_tag.

Lemma run_type_tag_tagged tag text :
  tag ≠ "" → all_chars tag_char tag = true →
  ∃ rest,
    Re.run (String.length (tag +:+ ":" +:+ text)) TYPE_TAG (tag +:+ ":" +:+ text, [])
    = (Py.lstrip_with Py.isspace text, []) :: rest.
Proof.
  intros Htag Hall. set (s := tag +:+ ":" +:+ text).
  change (Re.run (String.length s) TYPE_TAG (s, []))
    with ((if bool_decide (String.length s = String.length s) then [(s, [])] else [])
          ≫= λ st, Re.run (String.length s) (Re.Plus (Re.Class tag_char)) st
                   ≫= λ st', Re.run (String.length s) (Re.Lit ":") st'
                             ≫= Re.run (String.length s) (Re.Star (Re.Class Py.isspace))).
  rewrite bool_decide_true by done. cbn [mbind list_bind]. rewrite List.app_nil_r.
  subst s.
  destruct (run_plus_class_head (String.length (tag +:+ ":" +:+ text))
              tag_char tag (":" +:+ text) [] Htag Hall eq_refl) as [rest ->].
  cbn [mbind list_bind].
  change (Re.run _ (Re.Lit ":") (":" +:+ text, [])) with [(text, @nil (nat * string))].
  cbn [mbind list_bind]. rewrite List.app_nil_r.
  destruct (run_star_class_head (String.length (tag +:+ ":" +:+ text))
              Py.isspace text []) as [rest' ->].
  by eexists.
Qed.

Lemma run_type_tag_later n0 s :
  String.length s ≠ n0 → Re.run n0 TYPE_TAG (s, []) = [].
Proof.
  intros Hlen.
  change (Re.run n0 TYPE_TAG (s, []))
    with ((if bool_decide (String.length s = n0) then [(s, [])] else [])
          ≫= λ st, Re.run n0 (Re.Plus (Re.Class tag_char)) st
                   ≫= λ st', Re.run n0 (Re.Lit ":") st'
                             ≫= Re.run n0 (Re.Star (Re.Class Py.isspace))).
  by rewrite bool_decide_false.
Qed.

Lemma sub_type_tag_later n0 fuel s :
  String.length s < n0 → Re.sub_go n0 TYPE_TAG fuel s = s.
Proof.
  revert s. induction fuel as [|fuel IH]; intros s Hlen; [done|].
  cbn [Re.sub_go]. rewrite run_type_tag_later by lia.
  destruct s as [|c s]; [done|]. rewrite IH; [done | simpl in Hlen; lia].
Qed.

Lemma run_type_tag_untagged n0 s :
  (∀ tag text, tag ≠ "" → all_chars tag_char tag = true → s ≠ tag +:+ ":" +:+ text) →
  Re.run n0 TYPE_TAG (s, []) = [].
Proof.
  intros Hno. destruct (Re.run n0 TYPE_TAG (s, [])) as [|st rest] eqn:Hrun; [done|].
  exfalso. assert (st ∈ Re.run n0 TYPE_TAG (s, [])) as Hst by (rewrite Hrun; left).
  unfold TYPE_TAG in Hst.
  apply run_seq in Hst as ([s1 caps1] & Hbos & Hst).
  assert (s1 = s) as ->.
  { change (Re.run n0 Re.Bos (s, []))
      with (if bool_decide (String.length s = n0) then [(s, @nil (nat * string))] else [])
      in Hbos.
    case_bool_decide; [|by apply elem_of_nil in Hbos].
    by apply list_elem_of_singleton in Hbos as [= -> _]. }
  apply run_seq in Hst as ([s2 caps2] & Hplus & Hst).
  unfold Re.Plus in Hplus. apply run_seq in Hplus as ([s3 caps3] & Hfirst & Hmore).
  apply (run_class n0 (λ c, Py.isalpha c || Ascii.eqb c "-")) in Hfirst
    as (c & -> & Hc & _).
  apply run_star, (star_class n0 (λ c, Py.isalpha c || Ascii.eqb c "-")) in Hmore
    as (d & Hd & Hs3 & _).
  cbn [fst snd] in *. subst s3.
  apply run_seq in Hst as ([s4 caps4] & Hcolon & _).
  unfold Re.Lit in Hcolon.
  apply run_class in Hcolon as (ch & -> & Hch & _). apply Ascii.eqb_eq in Hch as <-.
  cbn [fst] in *.
  apply (Hno (String c d) s4); [done | | by rewrite app_cons].
  simpl. unfold tag_char. by rewrite Hc, Hd.
Qed.

Lemma sub_type_tag_tagged tag text :
  tag ≠ "" → all_chars tag_char tag = true →
  Re.sub_empty TYPE_TAG (tag +:+ ":" +:+ text) = Py.lstrip_with Py.isspace text.
Proof.
  intros Htag Hall. unfold Re.sub_empty. cbn [Re.sub_go].
  destruct (run_type_tag_tagged tag text Htag Hall) as [rest ->]. cbn [fst].
  assert (String.length (Py.lstrip_with Py.isspace text)
          < String.length (tag +:+ ":" +:+ text)) as Hlen.
  { pose proof (lstrip_with_length Py.isspace text). rewrite !length_app.
    destruct tag; [done|]. simpl. lia. }
  rewrite bool_decide_true by done. by apply sub_type_tag_later.
Qed.

Lemma sub_type_tag_untagged v :
  (∀ tag text, tag ≠ "" → all_chars tag_char tag = true → v ≠ tag +:+ ":" +:+ text) →
  Re.sub_empty TYPE_TAG v = v.
Proof.
  intros Hno. unfold Re.sub_empty. cbn [Re.sub_go].
  rewrite run_type_tag_untagged by done.
  destruct v as [|c v]; [done|]. rewrite sub_type_tag_later; [done | simpl; lia].
Qed.

(** X5. The type tag of a value is removed once, at the start: when the text
    after the equals sign begins with letters or hyphens followed by a colon,
    [clean_value] drops them, the colon and the blanks after it, then the
    double quotes and the blanks at both ends; a text that does not begin so
    keeps everything but the quotes and blanks at its ends. *)
Theorem clean_value_drops_type_tag :
  (∀ tag text : string,
     tag ≠ "" → all_chars tag_char tag = true →
     clean_value (tag +:+ ":" +:+ text)
     = Py.strip (Py.strip_with (Ascii.eqb Py.DQUOTE) (Py.lstrip_with Py.isspace text)))
  ∧ (∀ v : string,
       (∀ tag text, tag ≠ "" → all_chars tag_char tag = true → v ≠ tag +:+ ":" +:+ text) →
       clean_value v = Py.strip (Py.strip_with (Ascii.eqb Py.DQUOTE) v)).
Proof.
  split.
  - intros tag text Htag Hall. unfold clean_value. cbv zeta.
    by rewrite sub_type_tag_tagged.
  - intros v Hno. unfold clean_value. cbv zeta. by rewrite sub_type_tag_untagged.
Qed.

Lemma clean_value_drops_type_tag_witness :
  clean_value "Hex-STRING:  00 1A " = "00 1A" ∧ clean_value " up(1): x " = "up(1): x".
Proof.
  destruct clean_value_drops_type_tag as [Htagged Huntagged]. split.
  - refine (eq_trans (Htagged "Hex-STRING" "  00 1A " _ _) _); [done..|].
    reflexivity.
  - refine (eq_trans (Huntagged " up(1): x " _) _); [|reflexivity].
    intros tag text Htag Hall Heq. destruct tag as [|c tag]; [done|].
    rewrite app_cons in Heq. injection Heq as <- _. discriminate Hall.
Defined.

(** * Further properties of the metric methods *)

Lemma huawei_count_gpon_rows types oper_status (rows : list (string * string)) acc :
  (∀ row, row ∈ rows → types !! row.1 = Some row.2) →
  foldl (Huawei.count_gpon types oper_status) (Ret acc) rows.*1
  = Ret (acc.1 + length (filter is_gpon rows),
         acc.2 + length (filter (is_gpon_up oper_status) rows)).
Proof.
  revert acc. induction rows as [|[idx iftype] rows IH]; intros [installed used] Hrows.
  { simpl. by rewrite !Nat.add_0_r. }
  rewrite fmap_cons, !filter_cons. cbn [foldl fst snd].
  unfold Huawei.count_gpon at 2. cbn [exc_bind]. unfold dict_getitem.
  pose proof (Hrows (idx, iftype) ltac:(left)) as Hidx. cbn [fst snd] in Hidx.
  rewrite Hidx. cbn [exc_bind fst snd].
  assert (∀ row, row ∈ rows → types !! row.1 = Some row.2) as Hrest
    by (intros row Hrow; apply Hrows; by right).
  destruct (decide (is_gpon (idx, iftype))) as [Hg|Hg];
    destruct (decide (is_gpon_up oper_status (idx, iftype))) as [Hu|Hu];
    unfold is_gpon, is_gpon_up in Hg, Hu; cbn [fst snd] in Hg, Hu;
    repeat case_bool_decide; try (exfalso; tauto);
    rewrite IH by done; cbn [fst snd length]; f_equal; f_equal; lia.
Qed.

Lemma zte_count_gpon_rows oper_status (rows : list (string * string)) acc :
  foldl (ZTE.count_gpon oper_status) acc rows
  = (acc.1 + length (filter is_gpon rows),
     acc.2 + length (filter (is_gpon_up oper_status) rows)).
Proof.
  revert acc. induction rows as [|[idx iftype] rows IH]; intros [installed used].
  { simpl. by rewrite !Nat.add_0_r. }
  rewrite !filter_cons. cbn [foldl]. rewrite IH. unfold ZTE.count_gpon.
  destruct (decide (is_gpon (idx, iftype))) as [Hg|Hg];
    destruct (decide (is_gpon_up oper_status (idx, iftype))) as [Hu|Hu];
    unfold is_gpon, is_gpon_up in Hg, Hu; cbn [fst snd] in Hg, Hu;
    repeat case_bool_decide; try (exfalso; tauto);
    cbn [fst snd length]; f_equal; lia.
Qed.

(** X6. [get_pon_port_status] of Variants B and C, when both the type and
    the status table are walked, returns the number of rows of type 250 and,
    as used, the number of those whose index has status 1 in the status
    table; with either table missing it returns (0,0). *)
Theorem pon_port_status_counts (t : transport) (ip : string) :
  let type_output := run_snmp_command t ip OID_IF_TYPE true in
  let oper_output := run_snmp_command t ip OID_IF_OPER_STATUS true in
  let counts (parse : option string → bool → gmap string string) :=
    if missing type_output || missing oper_output then (0, 0)
    else (size (filter is_gpon (parse type_output false)),
          size (filter (is_gpon_up (parse oper_output false)) (parse type_output false))) in
  Huawei.get_pon_port_status t ip = Ret (counts Huawei.parse_snmp_output)
  ∧ ZTE.get_pon_port_status t ip = Ret (counts ZTE.parse_snmp_output).
Proof.
  intros type_output oper_output counts. subst counts. cbv beta. split.
  - unfold Huawei.get_pon_port_status, Huawei.get_pon_port_status_body.
    fold type_output oper_output.
    destruct (missing type_output || missing oper_output); [done|].
    unfold keys. rewrite huawei_count_gpon_rows.
    + by rewrite !size_filter_rows.
    + intros [idx v] Hrow. by apply elem_of_map_to_list.
  - unfold ZTE.get_pon_port_status, ZTE.get_pon_port_status_body.
    fold type_output oper_output.
    destruct (missing type_output || missing oper_output); [done|].
    unfold items. rewrite zte_count_gpon_rows. by rewrite !size_filter_rows.
Qed.

(** X7. [get_board_status] and [get_ont_status] of Variant B return the
    number of rows of their table and, as used, the number of rows whose
    value is 0 (a normal board), as online the number of rows whose value is
    1; a missing table counts as an empty one. *)
Theorem huawei_board_and_ont_counts (t : transport) (ip : string) :
  let boards :=
    Huawei.parse_snmp_output
      (run_snmp_command t ip Huawei.OID_HW_BOARD_OPER_STATUS true) false in
  let onts :=
    Huawei.parse_snmp_output
      (run_snmp_command t ip Huawei.OID_HW_ONT_RUN_STATUS true) true in
  Huawei.get_board_status t ip
  = Ret (size boards, size (filter (λ row : string * string, row.2 = "0") boards))
  ∧ Huawei.get_ont_status t ip
    = Ret (size onts, size (filter (λ row : string * string, row.2 = "1") onts)).
Proof.
  intros boards onts. split.
  - unfold Huawei.get_board_status, Huawei.get_board_status_body. fold boards.
    destruct (missing _) eqn:Hmiss; simpl.
    + subst boards. unfold Huawei.parse_snmp_output.
      rewrite (parse_missing _ _ _ Hmiss). by rewrite map_filter_empty, map_size_empty.
    + rewrite sum_list_ones, count_values. case_bool_decide as Hsize; [done|].
      assert (size boards = 0) as Hzero by lia.
      apply map_size_empty_inv in Hzero. rewrite Hzero.
      by rewrite map_filter_empty, map_size_empty.
  - unfold Huawei.get_ont_status, Huawei.get_ont_status_body. fold onts.
    destruct (missing _) eqn:Hmiss; simpl.
    + subst onts. unfold Huawei.parse_snmp_output.
      rewrite (parse_missing _ _ _ Hmiss). by rewrite map_filter_empty, map_size_empty.
    + by rewrite sum_list_ones, count_values.
Qed.

Lemma str_truthy (z : Z) : Py.truthy (Py.str z) = true.
Proof.
  unfold Py.str. destruct (Z.to_int z) as [d|d]; [|done]. by destruct d.
Qed.

Lemma decode_byte_name idx slot :
  ZTE.decode_zte_ifindex idx = Some slot → slot ∈ BYTE_NAMES ∧ Py.truthy slot = true.
Proof.
  unfold ZTE.decode_zte_ifindex. destruct (Py.int idx) as [z|]; [|done].
  intros [= <-]. split; [|apply str_truthy].
  unfold BYTE_NAMES. apply elem_of_list_to_set, list_elem_of_fmap.
  exists (Z.land (Z.shiftr z 8) 255). split; [done|].
  apply elem_of_seqZ. rewrite slot_byte.
  pose proof (Z.mod_pos_bound (z `div` 256) 256). lia.
Qed.

(** The two sets the loop of ZTE's [get_board_status] builds. *)
Lemma zte_add_card_sets admin_status (rows : list (string * string)) acc slot :
  let result := foldl (ZTE.add_card admin_status) acc rows in
  (slot ∈ result.1
   ↔ slot ∈ acc.1
     ∨ ∃ idx, (idx, "250") ∈ rows ∧ ZTE.decode_zte_ifindex idx = Some slot)
  ∧ (slot ∈ result.2
     ↔ slot ∈ acc.2
       ∨ ∃ idx, (idx, "250") ∈ rows ∧ ZTE.decode_zte_ifindex idx = Some slot
                ∧ admin_status !! idx = Some "1").
Proof.
  revert acc. induction rows as [|[idx iftype] rows IH]; intros acc; cbn [foldl].
  { split; (split; [by left | intros [?|(? & []%elem_of_nil & _)]; done]). }
  destruct (IH (ZTE.add_card admin_status acc (idx, iftype))) as [IH1 IH2].
  cbv zeta. rewrite IH1, IH2. clear IH IH1 IH2. unfold ZTE.add_card.
  setoid_rewrite elem_of_cons.
  destruct (decide (iftype = "250")) as [->|Hty].
  2:{ rewrite bool_decide_false by done. split; (split; [|naive_solver]);
        (intros [?|(idx' & ? & ?)]; [by left | right; exists idx'; naive_solver]). }
  rewrite bool_decide_true by done.
  destruct (ZTE.decode_zte_ifindex idx) as [slot'|] eqn:Hdec.
  2:{ split; (split; [|naive_solver]);
        (intros [?|(idx' & ? & ?)]; [by left | right; exists idx'; naive_solver]). }
  destruct (decode_byte_name idx slot' Hdec) as [_ ->].
  case_bool_decide as Hup; cbn [fst snd]; rewrite ?elem_of_union, ?elem_of_singleton;
    split; split; naive_solver.
Qed.

Lemma size_byte_names : size BYTE_NAMES = 256.
Proof. by vm_compute. Qed.

(** The two sets of slots behind the pair of ZTE's [get_board_status]. *)
Lemma zte_board_sets (t : transport) (ip : string) :
  let types := ZTE.parse_snmp_output (run_snmp_command t ip OID_IF_TYPE true) false in
  let admin_status :=
    ZTE.parse_snmp_output (run_snmp_command t ip OID_IF_ADMIN_STATUS true) false in
  ∃ cards active_cards : gset string,
    ZTE.get_board_status t ip = Ret (size cards, size active_cards)
    ∧ (∀ slot, slot ∈ cards
               ↔ ∃ idx, types !! idx = Some "250"
                        ∧ ZTE.decode_zte_ifindex idx = Some slot)
    ∧ (∀ slot, slot ∈ active_cards
               ↔ ∃ idx, types !! idx = Some "250"
                        ∧ ZTE.decode_zte_ifindex idx = Some slot
                        ∧ admin_status !! idx = Some "1").
Proof.
  intros types admin_status.
  set (result := foldl (ZTE.add_card admin_status) (∅, ∅) (items types)).
  assert (Hsets : ∀ slot,
    (slot ∈ result.1 ↔ ∃ idx, types !! idx = Some "250"
                              ∧ ZTE.decode_zte_ifindex idx = Some slot)
    ∧ (slot ∈ result.2 ↔ ∃ idx, types !! idx = Some "250"
                                ∧ ZTE.decode_zte_ifindex idx = Some slot
                                ∧ admin_status !! idx = Some "1")).
  { intros slot.
    destruct (zte_add_card_sets admin_status (items types) (∅, ∅) slot) as [H1 H2].
    fold result in H1, H2. rewrite H1, H2. unfold items.
    setoid_rewrite elem_of_map_to_list. set_solver. }
  assert (Hsub : result.2 ⊆ result.1).
  { intros slot. rewrite (proj1 (Hsets slot)), (proj2 (Hsets slot)). naive_solver. }
  exists result.1, result.2. split_and!.
  - unfold ZTE.get_board_status, ZTE.get_board_status_body.
    fold types. destruct (missing (run_snmp_command t ip OID_IF_TYPE true)) eqn:Hty.
    { simpl. subst result types. unfold ZTE.parse_snmp_output.
      by rewrite (parse_missing _ _ _ Hty). }
    assert ((if negb (missing (run_snmp_command t ip OID_IF_ADMIN_STATUS true))
             then ZTE.parse_snmp_output
                    (run_snmp_command t ip OID_IF_ADMIN_STATUS true) false
             else ∅) = admin_status) as ->.
    { subst admin_status.
      destruct (missing (run_snmp_command t ip OID_IF_ADMIN_STATUS true)) eqn:Hadm;
        [|done]. simpl.
      unfold ZTE.parse_snmp_output. by rewrite (parse_missing _ _ _ Hadm). }
    fold result. destruct result as [cards active_cards]. cbn [fst snd] in *. simpl.
    case_bool_decide as Hsize; [done|].
    assert (size cards = 0) as Hzero by lia.
    apply size_empty_inv in Hzero. apply leibniz_equiv in Hzero. subst cards.
    assert (active_cards = ∅) as -> by set_solver. done.
  - intros slot. apply Hsets.
  - intros slot. apply Hsets.
Qed.

(** X8. [get_board_status] of Variant C counts slots: installed is the number
    of distinct slots that the indices of the GPON rows decode to, used the
    number of distinct slots with a GPON row whose administrative status is 1,
    and a device is never given more than 256 boards. *)
Theorem zte_board_status_counts_slots (t : transport) (ip : string) :
  let types := ZTE.parse_snmp_output (run_snmp_command t ip OID_IF_TYPE true) false in
  let admin_status :=
    ZTE.parse_snmp_output (run_snmp_command t ip OID_IF_ADMIN_STATUS true) false in
  ∃ cards active_cards : gset string,
    ZTE.get_board_status t ip = Ret (size cards, size active_cards)
    ∧ (∀ slot, slot ∈ cards
               ↔ ∃ idx, types !! idx = Some "250"
                        ∧ ZTE.decode_zte_ifindex idx = Some slot)
    ∧ (∀ slot, slot ∈ active_cards
               ↔ ∃ idx, types !! idx = Some "250"
                        ∧ ZTE.decode_zte_ifindex idx = Some slot
                        ∧ admin_status !! idx = Some "1")
    ∧ size active_cards ≤ size cards ≤ 256.
Proof.
  intros types admin_status.
  destruct (zte_board_sets t ip) as (cards & active_cards & Hpair & Hcards & Hactive).
  exists cards, active_cards. split_and!; [done..| |].
  - apply subseteq_size. intros slot. rewrite Hcards, Hactive. naive_solver.
  - rewrite <-size_byte_names. apply subseteq_size. intros slot. rewrite Hcards.
    intros (idx & _ & Hdec). by apply decode_byte_name in Hdec as [? _].
Qed.

(** The table that [get_board_status] of Variant A counts. *)
Lemma fiberhome_board_table (t : transport) (ip : string) :
  let statuses :=
    Fiberhome.parse_snmp_output
      (run_snmp_command t ip Fiberhome.OID_FH_CARD_STATUS true) false in
  let types :=
    Fiberhome.parse_snmp_output
      (run_snmp_command t ip Fiberhome.OID_FH_CARD_TYPE true) false in
  Fiberhome.get_board_status t ip
  = Ret (if bool_decide (statuses = ∅) then (size types, size types)
         else (size statuses,
               size (filter (λ row : string * string, row.2 = "1") statuses))).
Proof.
  intros statuses types.
  unfold Fiberhome.get_board_status, Fiberhome.get_board_status_body.
  fold statuses types.
  assert ((if negb (missing (run_snmp_command t ip Fiberhome.OID_FH_CARD_TYPE true))
           then Ret (size types, size types) else Ret (0, 0))
          = Ret (size types, size types)) as ->.
  { destruct (missing _) eqn:Hty; [|done]. simpl. subst types.
    unfold Fiberhome.parse_snmp_output. by rewrite (parse_missing _ _ _ Hty). }
  destruct (missing (run_snmp_command t ip Fiberhome.OID_FH_CARD_STATUS true)) eqn:Hst.
  - simpl. rewrite bool_decide_true; [done|]. subst statuses.
    unfold Fiberhome.parse_snmp_output. by rewrite (parse_missing _ _ _ Hst).
  - simpl. rewrite count_values. case_bool_decide as Hsize.
    + rewrite bool_decide_false; [done|]. intros Hempty. rewrite Hempty in Hsize.
      rewrite map_size_empty in Hsize. lia.
    + rewrite bool_decide_true; [done|]. apply map_size_empty_inv. lia.
Qed.

(** X9. [get_board_status] of Variant A takes the card-status table when it
    has rows (installed its rows, used the rows equal to 1), else the
    card-type table with every card counted as used; and for the boards and
    the subscriber units of Variant A used never exceeds installed. *)
Theorem fiberhome_board_and_onu_counts (t : transport) (ip : string) :
  let statuses :=
    Fiberhome.parse_snmp_output
      (run_snmp_command t ip Fiberhome.OID_FH_CARD_STATUS true) false in
  let types :=
    Fiberhome.parse_snmp_output
      (run_snmp_command t ip Fiberhome.OID_FH_CARD_TYPE true) false in
  Fiberhome.get_board_status t ip
  = Ret (if bool_decide (statuses = ∅) then (size types, size types)
         else (size statuses,
               size (filter (λ row : string * string, row.2 = "1") statuses)))
  ∧ (∃ installed used,
       Fiberhome.get_board_status t ip = Ret (installed, used) ∧ used ≤ installed)
  ∧ (∃ installed online,
       Fiberhome.get_onu_status t ip = Ret (installed, online) ∧ online ≤ installed).
Proof.
  intros statuses types. pose proof (fiberhome_board_table t ip) as Hboard.
  cbv zeta in Hboard. fold statuses types in Hboard.
  split_and!; [done| |].
  - rewrite Hboard. case_bool_decide; eexists _, _; (split; [done|]); [done|].
    apply map_subseteq_size, map_filter_subseteq.
  - unfold Fiberhome.get_onu_status, Fiberhome.get_onu_status_body.
    destruct (missing _); simpl; [by exists 0, 0|].
    eexists _, _. split; [done|]. rewrite !count_values, !size_filter_rows.
    induction (map_to_list _) as [|row l IH]; [done|]. rewrite !filter_cons.
    destruct (decide (row.2 = "1")) as [E|E];
      destruct (decide (row.2 ≠ "0")) as [E0|E0]; simpl; try lia.
    exfalso. rewrite E in E0. by apply E0.
Qed.

(** * Further properties of [collect_olt_data] and [main] *)

Lemma list_getitem_raise {A} (l : list A) i e :
  list_getitem l i = Raise e → e = "list index out of range".
Proof. unfold list_getitem. destruct (l !! i); [done|]. by intros [= <-]. Qed.

Lemma list_getitem_in_range {A} (l : list A) i :
  i < length l → ∃ x, list_getitem l i = Ret x.
Proof.
  intros Hi. unfold list_getitem.
  destruct (lookup_lt_is_Some_2 _ _ Hi) as [x ->]. by exists x.
Qed.

Lemma huawei_model_raise t ip e :
  Huawei.get_olt_model t ip = Raise e → e = "list index out of range".
Proof.
  unfold Huawei.get_olt_model.
  destruct (run_snmp_command t ip OID_SYS_DESCR false) as [[|c output]|]; [done| |done].
  destruct (Re.search Huawei.MODEL _); [done|].
  case_bool_decide as Hlen; [|done].
  destruct (list_getitem_in_range _ 1 Hlen) as [p1 ->]. apply list_getitem_raise.
Qed.

Lemma fiberhome_model_raise t ip e :
  Fiberhome.get_olt_model t ip = Raise e → e = "list index out of range".
Proof.
  unfold Fiberhome.get_olt_model.
  destruct (run_snmp_command t ip OID_SYS_DESCR false) as [[|c output]|]; [done| |done].
  destruct (Re.search Fiberhome.MODEL _); [done|].
  destruct (Py.contains _ _); [|done].
  case_bool_decide as Hlen; [|done].
  destruct (list_getitem_in_range _ 1 Hlen) as [p1 ->]. apply list_getitem_raise.
Qed.

Lemma vendors_contained : Forall contained vendors.
Proof.
  repeat apply Forall_cons_2; [..|apply Forall_nil_2]; unfold contained; simpl;
    (split_and!; [apply get_olt_sysname_total | |
                  intros; apply try_except_total..]).
  - intros t ip e ->%huawei_model_raise. done.
  - intros t ip e. by destruct (zte_get_olt_model_total t ip) as [model ->].
  - intros t ip e ->%fiberhome_model_raise. done.
Qed.

(** The three shapes of the record [collect_olt_data] returns. *)
Lemma collect_cases (V : adapter) (t : transport) (ip : string) :
  contained V →
  let r := collect_olt_data_with V t ip in
  (unreachable t ip ∧ r = set_error "timeout/unreachable" (new_record ip))
  ∨ (¬ unreachable t ip
     ∧ ∃ name e, adapter_sysname V t ip = Ret name ∧ adapter_model V t ip = Raise e
                 ∧ e ≠ "" ∧ r = set_error e (set_sysname name (new_record ip)))
  ∨ (¬ unreachable t ip
     ∧ ∃ name model b p o,
         adapter_sysname V t ip = Ret name ∧ adapter_model V t ip = Ret model
         ∧ adapter_board V t ip = Ret b ∧ adapter_pon_port V t ip = Ret p
         ∧ adapter_ont V t ip = Ret o
         ∧ r = set_status OK (set_ont o (set_pon_port p (set_board b
                 (set_model model (set_sysname name (new_record ip))))))).
Proof.
  intros (Hname & Hmodel & Hb & Hp & Ho) r. subst r.
  unfold collect_olt_data_with, collect_steps, step, unreachable.
  destruct (missing _) eqn:Hprobe; [by left|]. right.
  destruct (Hname t ip) as [name ->].
  destruct (adapter_model V t ip) as [model|e] eqn:Hm.
  - right. split; [done|].
    destruct (Hb t ip) as [b ->], (Hp t ip) as [p ->], (Ho t ip) as [o ->].
    by exists name, model, b, p, o.
  - left. split; [done|]. exists name, e. split_and!; [done..| |done].
    by apply (Hmodel t ip).
Qed.

(** X10. The record of a device, for the three scripts: it carries the
    address it was asked for; its error text is empty exactly when its status
    is OK; and with the status ERROR every metric pair is (0,0), because
    nothing after the identification can fail. *)
Theorem device_record_invariants (t : transport) (ip : string) :
  Forall (λ V, let r := collect_olt_data_with V t ip in
               rec_ip r = ip
               ∧ (rec_status r = OK ↔ rec_error r = "")
               ∧ (rec_status r = ERROR → metric_pairs r = [(0, 0); (0, 0); (0, 0)]))
    vendors.
Proof.
  eapply Forall_impl; [apply vendors_contained|]. intros V HV r.
  destruct (collect_cases V t ip HV)
    as [[Hprobe Hr] | [(Hprobe & name & e & _ & Hraise & He & Hr)
                      | (Hprobe & name & model & b & p & o & _ & _ & _ & _ & _ & Hr)]];
    fold r in Hr; rewrite Hr; by split_and!.
Qed.

Lemma device_record_invariants_witness :
  metric_pairs (Huawei.collect_olt_data blank_description "10.0.0.1")
  = [(0, 0); (0, 0); (0, 0)].
Proof.
  pose proof (device_record_invariants blank_description "10.0.0.1") as H.
  apply Forall_cons in H as [(_ & _ & Hzero) _]. apply Hzero. reflexivity.
Defined.

(** X11. A record with the status OK holds what the five functions of the
    adapter returned for that device: the probe was answered, none of them
    raised, and the name, the model and the three pairs are their results. *)
Theorem ok_record_holds_the_results (V : adapter) (t : transport) (ip : string) :
  let r := collect_olt_data_with V t ip in
  rec_status r = OK →
  ¬ unreachable t ip
  ∧ adapter_sysname V t ip = Ret (rec_sysname r)
  ∧ adapter_model V t ip = Ret (rec_model r)
  ∧ adapter_board V t ip = Ret (rec_board_installed r, rec_board_used r)
  ∧ adapter_pon_port V t ip = Ret (rec_pon_port_installed r, rec_pon_port_used r)
  ∧ adapter_ont V t ip = Ret (rec_ont_installed r, rec_ont_online r)
  ∧ rec_error r = "".
Proof.
  intros r. subst r. unfold collect_olt_data_with, collect_steps, step, unreachable.
  destruct (missing _); [done|].
  destruct (adapter_sysname V t ip) as [name|]; [|done].
  destruct (adapter_model V t ip) as [model|]; [|done].
  destruct (adapter_board V t ip) as [[]|]; [|done].
  destruct (adapter_pon_port V t ip) as [[]|]; [|done].
  destruct (adapter_ont V t ip) as [[]|]; [|done].
  by intros _.
Qed.

Lemma ok_record_holds_the_results_witness :
  ZTE.get_olt_model blank_description "10.0.0.1" = Ret "Unknown".
Proof.
  apply (ok_record_holds_the_results ZTE.vendor blank_description "10.0.0.1").
  reflexivity.
Defined.

Lemma sorted_by_ip (results : list DeviceRecord) :
  Sorted String.le (rec_ip <$> sort_values_ip results).
Proof.
  apply (Sorted_fmap rec_ip ip_le String.le); [done|].
  apply Sorted_merge_sort, _.
Qed.

(** X12. [main] returns one record per address it was given, in the order of
    the addresses as Python compares strings, whatever the order of
    completion; the summary counts every record, as a success or as a
    failure. *)
Theorem main_one_record_per_address
    (V : adapter) (t : transport) (completed : list string) :
  let collect := collect_olt_data_with V t in
  let records := (main_with collect completed).1 in
  let s := (main_with collect completed).2 in
  records ≡ₚ collect <$> completed
  ∧ rec_ip <$> records ≡ₚ completed
  ∧ Sorted String.le (rec_ip <$> records)
  ∧ length records = length completed
  ∧ total_olt s = length completed
  ∧ success s + failed s = total_olt s.
Proof.
  intros collect records s. subst records s. unfold main_with. cbn [fst snd].
  rewrite gather_fmap.
  assert (sort_values_ip (collect <$> completed) ≡ₚ collect <$> completed) as Hperm
    by apply merge_sort_Permutation.
  split_and!.
  - done.
  - rewrite Hperm.
    assert (rec_ip <$> (collect <$> completed) = completed) as ->; [|done].
    clear Hperm. induction completed as [|ip l IH]; [done|].
    rewrite !fmap_cons, IH. f_equal. apply collect_keeps_ip.
  - apply sorted_by_ip.
  - by rewrite Hperm, length_fmap.
  - simpl. by rewrite length_fmap.
  - unfold failed. simpl. pose proof (count_ok_error (collect <$> completed)). lia.
Qed.

Lemma sum_ok_le (f g : DeviceRecord → nat) (results : list DeviceRecord) :
  (∀ r, r ∈ results → f r ≤ g r) → sum_ok f results ≤ sum_ok g results.
Proof.
  intros Hle. rewrite !sum_ok_column_sum.
  induction results as [|r results IH]; [done|]. simpl.
  assert (f r ≤ g r) by (apply Hle; left).
  assert (column_sum f results ≤ column_sum g results)
    by (apply IH; intros; apply Hle; by right).
  destruct (rec_status r); lia.
Qed.

Lemma huawei_zte_bounded : bounded Huawei.vendor ∧ bounded ZTE.vendor.
Proof.
  split; intros t ip counts; simpl.
  - intros [H|[H|H]]; revert H.
    + unfold Huawei.get_board_status, Huawei.get_board_status_body.
      destruct (missing _); simpl; [by intros [= <-]|].
      case_bool_decide; intros [= <-]; [|done]. apply count_le_size.
    + unfold Huawei.get_pon_port_status, Huawei.get_pon_port_status_body.
      destruct (missing _ || missing _); simpl; [by intros [= <-]|].
      destruct (foldl _ _ _) as [c|e] eqn:Hloop; simpl; intros [= <-]; [|done].
      apply (huawei_count_gpon_bound _ _ _ _ zero_pair_bound _ Hloop).
    + unfold Huawei.get_ont_status, Huawei.get_ont_status_body.
      destruct (missing _); simpl; intros [= <-]; [done|]. apply count_le_size.
  - intros [H|[H|H]]; revert H.
    + unfold ZTE.get_board_status, ZTE.get_board_status_body.
      destruct (missing _); simpl; [by intros [= <-]|].
      match goal with |- context [foldl (ZTE.add_card ?adm) ?a ?l] =>
        pose proof (zte_add_card_subseteq adm l a (reflexivity _)) as Hsub;
        destruct (foldl (ZTE.add_card adm) a l) as [cards active_cards] end.
      simpl in Hsub. case_bool_decide; simpl; intros [= <-]; [|done].
      by apply subseteq_size.
    + unfold ZTE.get_pon_port_status, ZTE.get_pon_port_status_body.
      destruct (missing _ || missing _); simpl; intros [= <-]; [done|].
      apply zte_count_gpon_bound. done.
    + unfold ZTE.get_ont_status, ZTE.get_ont_status_body.
      destruct (missing _); simpl; intros [= <-]; [done|]. apply count_le_size.
Qed.

Lemma bounded_record (V : adapter) (t : transport) (ip : string) :
  bounded V → within_installed (collect_olt_data_with V t ip).
Proof.
  intros HV. unfold within_installed, collect_olt_data_with, collect_steps, step.
  destruct (missing _); [simpl; lia|].
  destruct (adapter_sysname V t ip) as [name|]; [|simpl; lia].
  destruct (adapter_model V t ip) as [model|]; [|simpl; lia].
  destruct (adapter_board V t ip) as [b|] eqn:Hb; [|simpl; lia].
  pose proof (HV t ip b (or_introl Hb)).
  destruct (adapter_pon_port V t ip) as [p|] eqn:Hp; [|by simpl; lia].
  pose proof (HV t ip p (or_intror (or_introl Hp))).
  destruct (adapter_ont V t ip) as [o|] eqn:Ho; [|by simpl; lia].
  pose proof (HV t ip o (or_intror (or_intror Ho))). simpl. lia.
Qed.

Lemma bounded_fleet (V : adapter) (t : transport) (completed : list string) :
  bounded V →
  Forall within_installed (main_with (collect_olt_data_with V t) completed).1
  ∧ let s := (main_with (collect_olt_data_with V t) completed).2 in
    total_board_used s ≤ total_board_installed s
    ∧ total_pon_used s ≤ total_pon_installed s
    ∧ total_ont_online s ≤ total_ont_installed s.
Proof.
  intros HV.
  assert (Forall within_installed (collect_olt_data_with V t <$> completed)) as Hall.
  { apply Forall_fmap, Forall_forall. intros ip _. by apply bounded_record. }
  unfold main_with. cbn [fst snd]. rewrite gather_fmap. split.
  - unfold sort_values_ip. by rewrite merge_sort_Permutation.
  - rewrite Forall_forall in Hall. cbv zeta. simpl.
    split_and!; apply sum_ok_le; intros r Hr; by apply Hall.
Qed.

(** X13. For Variants B and C the bound used <= installed carries over from
    the methods to every record, whatever its status, and from the records to
    the totals of the fleet summary. *)
Theorem fleet_totals_within_installed (t : transport) (completed : list string) :
  Forall (λ V,
            Forall within_installed (main_with (collect_olt_data_with V t) completed).1
            ∧ let s := (main_with (collect_olt_data_with V t) completed).2 in
              total_board_used s ≤ total_board_installed s
              ∧ total_pon_used s ≤ total_pon_installed s
              ∧ total_ont_online s ≤ total_ont_installed s)
    [Huawei.vendor; ZTE.vendor].
Proof.
  destruct huawei_zte_bounded as [Hh Hz].
  repeat apply Forall_cons_2; [..|apply Forall_nil_2]; by apply bounded_fleet.
Qed.

Lemma ok_is_reachable (V : adapter) (t : transport) (ip : string) :
  rec_status (collect_olt_data_with V t ip) = OK → reachable t ip = true.
Proof.
  unfold collect_olt_data_with, reachable. by destruct (missing _).
Qed.

Lemma zte_reachable_is_ok (t : transport) (ip : string) :
  reachable t ip = true → rec_status (ZTE.collect_olt_data t ip) = OK.
Proof.
  intros Hprobe. apply reachable_ok; simpl.
  - unfold unreachable, reachable in *. by destruct (missing _).
  - apply get_olt_sysname_total.
  - apply zte_get_olt_model_total.
  - apply try_except_total.
  - apply try_except_total.
  - apply try_except_total.
Qed.

(** X14. A device counts as a success only if it answered the probe; for
    Variant C the successes are exactly the devices that answered; and a
    fleet none of whose devices answers has no success and all totals zero. *)
Theorem success_counts_answered_probes (t : transport) (completed : list string) :
  let answered := length (filter (λ ip, reachable t ip = true) completed) in
  (∀ V, success (main_with (collect_olt_data_with V t) completed).2 ≤ answered)
  ∧ success (ZTE.main t completed).2 = answered
  ∧ (∀ V, answered = 0 →
          (main_with (collect_olt_data_with V t) completed).2
          = mkSummary (length completed) 0 0 0 0 0 0 0).
Proof.
  intros answered. subst answered. unfold ZTE.main, main_with. cbn [fst snd].
  setoid_rewrite gather_fmap.
  assert (Hle : ∀ V,
    length (filter (λ r, rec_status r = OK) (collect_olt_data_with V t <$> completed))
    ≤ length (filter (λ ip, reachable t ip = true) completed)).
  { intros V. induction completed as [|ip l IH]; [done|].
    rewrite fmap_cons, !filter_cons.
    destruct (decide (rec_status (collect_olt_data_with V t ip) = OK)) as [Hok|Hok].
    - rewrite decide_True by by apply (ok_is_reachable V). simpl. lia.
    - destruct (decide (reachable t ip = true)); simpl; lia. }
  split_and!.
  - intros V. apply Hle.
  - simpl. clear Hle. induction completed as [|ip l IH]; [done|].
    rewrite fmap_cons, !filter_cons.
    destruct (decide (reachable t ip = true)) as [Hr|Hr].
    + rewrite decide_True by by apply zte_reachable_is_ok. simpl. by rewrite IH.
    + rewrite decide_False; [done|]. intros Hok. by apply ok_is_reachable in Hok.
  - intros V Hzero. specialize (Hle V). rewrite Hzero in Hle.
    assert (filter (λ r, rec_status r = OK) (collect_olt_data_with V t <$> completed)
            = []) as Hnone by (apply nil_length_inv; lia).
    unfold summary, sum_ok. rewrite Hnone. by rewrite length_fmap.
Qed.

Lemma success_counts_answered_probes_witness :
  (Huawei.main silent ["10.0.0.2"; "10.0.0.1"]).2 = mkSummary 2 0 0 0 0 0 0 0.
Proof.
  apply (success_counts_answered_probes silent ["10.0.0.2"; "10.0.0.1"]).
  reflexivity.
Defined.

(** X15. [decode_zte_ifindex] reads the slot from the second byte alone: the
    256 indices that differ only in their lowest byte (the ports of one
    board) decode to the same slot, the board number modulo 256, as long as
    the index stays below the 4300 digits that [int] reads. *)
Theorem ports_of_a_board_share_the_slot (board port : Z) :
  (0 ≤ port < 256)%Z →
  (Z.abs (256 * board + port) < 10 ^ 4300)%Z →
  ZTE.decode_zte_ifindex (Py.str (256 * board + port))
  = Some (Py.str (board `mod` 256)).
Proof.
  intros Hport Hsize. unfold ZTE.decode_zte_ifindex.
  rewrite (int_str _ (str_digits _ Hsize)). cbv zeta.
  rewrite slot_byte. do 3 f_equal.
  rewrite Z.mul_comm, Z.div_add_l by lia. rewrite Z.div_small by lia. lia.
Qed.

Lemma ports_of_a_board_share_the_slot_witness :
  ZTE.decode_zte_ifindex "285278466" = Some "1".
Proof.
  refine (ports_of_a_board_share_the_slot 1114369 2 _ _); [lia | by vm_compute].
Defined.

(** * Further properties of the identification *)

Lemma split_equals_app h r :
  no_equals h → Py.split "=" None (h +:+ "=" +:+ r) = h :: Py.split "=" None r.
Proof.
  unfold no_equals. induction h as [|c h IH]; intros Hh; [done|].
  simpl in Hh. apply andb_true_iff in Hh as [Hc Hh].
  rewrite app_cons. simpl. apply negb_true_iff in Hc. rewrite Hc. simpl.
  by rewrite IH.
Qed.

Lemma split_equals_none h : no_equals h → Py.split "=" None h = [h].
Proof.
  unfold no_equals. induction h as [|c h IH]; intros Hh; [done|].
  simpl in Hh. apply andb_true_iff in Hh as [Hc Hh].
  simpl. apply negb_true_iff in Hc. rewrite Hc. simpl. by rewrite IH.
Qed.

Lemma split_equals_decomp s h t :
  Py.split "=" None s = h :: t →
  no_equals h
  ∧ ((t = [] ∧ s = h) ∨ ∃ r, s = h +:+ "=" +:+ r ∧ t = Py.split "=" None r).
Proof.
  revert h t. induction s as [|c s IH]; intros h t; simpl.
  { intros [= <- <-]. split; [done | by left]. }
  destruct (Ascii.eqb_spec c "=") as [->|Hc]; simpl.
  - intros [= <- <-]. split; [done|]. right. by exists s.
  - destruct (Py.split "=" None s) as [|h' t'] eqn:Hs.
    { by apply split_not_nil in Hs. }
    intros [= <- <-]. destruct (IH h' t' eq_refl) as [Hh' Hrest]. split.
    + unfold no_equals in *. simpl. rewrite Hh', andb_true_r.
      apply negb_true_iff. by destruct (Ascii.eqb_spec c "=").
    + destruct Hrest as [[-> ->] | (r & -> & ->)]; [by left|].
      right. by exists r.
Qed.

Lemma split_second_value text value :
  Py.split "=" None text !! 1 = Some value ↔ first_value text value.
Proof.
  split.
  - destruct (Py.split "=" None text) as [|oid [|v t]] eqn:Hsplit; [done..|].
    intros [= ->].
    apply split_equals_decomp in Hsplit as [Hoid [[? _] | (r & -> & Hr)]]; [done|].
    symmetry in Hr. apply split_equals_decomp in Hr as [Hv [[_ ->] | (r' & -> & _)]].
    + exists oid, "". split_and!; [by rewrite app_nil_r | done.. | by left].
    + exists oid, ("=" +:+ r'). split_and!; [done..|]. right. by exists r'.
  - intros (oid & rest & -> & Hoid & Hv & [-> | [r ->]]).
    + rewrite app_nil_r, split_equals_app, split_equals_none by done. done.
    + rewrite split_equals_app, split_equals_app by done. done.
Qed.

Lemma split_has_second text :
  1 < length (Py.split "=" None text) ↔ ∃ value, first_value text value.
Proof.
  setoid_rewrite <-split_second_value. split.
  - intros Hlen. by apply lookup_lt_is_Some_2 in Hlen as [value ?]; exists value.
  - intros [value Hv]. by apply lookup_lt_Some in Hv.
Qed.

(** X16. [get_olt_sysname] never raises.  It returns the text between the
    first equals sign of the answer and the second, or the end, without its
    type tag, quotes and blanks: a name that contains an equals sign is cut
    there.  Without an answer or without an equals sign it returns Unknown. *)
Theorem sysname_is_the_first_value (t : transport) (ip : string) :
  let output := run_snmp_command t ip OID_SYS_NAME false in
  (∀ text value,
     output = Some text → first_value text value →
     get_olt_sysname t ip = Ret (clean_value (Py.strip value)))
  ∧ ((∀ text value, output = Some text → ¬ first_value text value) →
     get_olt_sysname t ip = Ret "Unknown").
Proof.
  intros output. unfold get_olt_sysname. fold output. split.
  - intros text value -> Hvalue.
    assert (1 < length (Py.split "=" None text)) as Hlen
      by (apply split_has_second; by exists value).
    apply split_second_value in Hvalue.
    destruct text as [|c text]; [done|].
    rewrite bool_decide_true by done. unfold list_getitem. by rewrite Hvalue.
  - intros Hnone. destruct output as [[|c text]|]; [done| |done].
    rewrite bool_decide_false; [done|].
    intros [value Hvalue]%split_has_second. by apply (Hnone _ value eq_refl).
Qed.

Lemma sysname_is_the_first_value_witness :
  get_olt_sysname named_device "10.0.0.1" = Ret "OLT-A"
  ∧ get_olt_sysname silent "10.0.0.1" = Ret "Unknown".
Proof.
  split.
  - refine (proj1 (sysname_is_the_first_value named_device "10.0.0.1")
              SYSNAME_ANSWER " STRING: OLT-A" eq_refl _).
    exists "SNMPv2-MIB::sysName.0 ", ("=B" +:+ LINE_END).
    split_and!; [reflexivity..|]. right. by exists ("B" +:+ LINE_END).
  - apply (proj2 (sysname_is_the_first_value silent "10.0.0.1")).
    intros text value Houtput. discriminate Houtput.
Defined.

Lemma split_ws_go_nil cur s :
  Py.split_ws_go cur s = [] ↔ cur = None ∧ all_chars Py.isspace s = true.
Proof.
  revert cur. induction s as [|c s IH]; intros cur; simpl.
  - destruct cur; simpl; naive_solver.
  - destruct (Py.isspace c); simpl.
    + rewrite app_nil, IH. destruct cur; simpl; naive_solver.
    + rewrite IH. naive_solver.
Qed.

Lemma lstrip_with_nil p s : Py.lstrip_with p s = "" ↔ all_chars p s = true.
Proof.
  induction s as [|c s IH]; [done|]. simpl. by destruct (p c).
Qed.

Lemma rstrip_with_nil p s :
  match s with String c _ => p c = false | "" => True end →
  Py.rstrip_with p s = "" → s = "".
Proof.
  destruct s as [|c s]; [done|]. simpl. intros ->.
  by destruct (Py.rstrip_with p s).
Qed.

Lemma strip_blank s : Py.strip s = "" ↔ all_chars Py.isspace s = true.
Proof.
  unfold Py.strip, Py.strip_with. rewrite <-lstrip_with_nil. split.
  - apply rstrip_with_nil, lstrip_with_head.
  - by intros ->.
Qed.

Lemma split_ws_strip_nil s : Py.split_ws (Py.strip s) = [] ↔ Py.strip s = "".
Proof.
  unfold Py.split_ws. rewrite split_ws_go_nil. split.
  - intros [_ Hall]. pose proof (rstrip_with_head Py.isspace _
      (lstrip_with_head Py.isspace s)) as Hhead.
    fold (Py.strip_with Py.isspace s) in Hhead. fold (Py.strip s) in Hhead.
    destruct (Py.strip s) as [|c u]; [done|]. simpl in Hall. by rewrite Hhead in Hall.
  - by intros ->.
Qed.

(** X17. [get_olt_model] of Variant B raises in one case only, and then an
    [IndexError]: the description has no model name and nothing but blanks
    between its first equals sign and the second, or the end. *)
Theorem huawei_model_raises_on_blank_value (t : transport) (ip e : string) :
  Huawei.get_olt_model t ip = Raise e
  ↔ e = "list index out of range"
    ∧ ∃ text value,
        run_snmp_command t ip OID_SYS_DESCR false = Some text
        ∧ Re.search Huawei.MODEL text = None
        ∧ first_value text value ∧ Py.strip value = "".
Proof.
  unfold Huawei.get_olt_model.
  destruct (run_snmp_command t ip OID_SYS_DESCR false) as [text|];
    [|split; [done | by intros (_ & ? & ? & ? & _)]].
  destruct text as [|c text].
  { split; [done|]. intros (_ & ? & value & [= <-] & _ & Hvalue & _).
    by apply split_second_value in Hvalue. }
  destruct (Re.search Huawei.MODEL (String c text)) as [m|] eqn:Hsearch.
  { split; [done|]. intros (_ & ? & ? & [= <-] & Hnone & _). congruence. }
  case_bool_decide as Hlen.
  - destruct (list_getitem_in_range _ 1 Hlen) as [p1 Hp1]. rewrite Hp1. simpl.
    assert (first_value (String c text) p1) as Hvalue.
    { apply split_second_value. unfold list_getitem in Hp1.
      destruct (_ !! 1); by simplify_eq. }
    unfold list_getitem. destruct (Py.split_ws (Py.strip p1) !! 0) as [w|] eqn:Hw.
    + split; [done|]. intros (_ & ? & value & [= <-] & _ & Hvalue' & Hblank).
      apply split_second_value in Hvalue, Hvalue'. simplify_eq.
      apply split_ws_strip_nil in Hblank. by rewrite Hblank in Hw.
    + split.
      * intros [= <-]. split; [done|]. exists (String c text), p1.
        split_and!; [done..|]. apply split_ws_strip_nil.
        by destruct (Py.split_ws (Py.strip p1)).
      * by intros [-> _].
  - split; [done|]. intros (_ & ? & value & [= <-] & _ & Hvalue & _).
    exfalso. apply Hlen, split_has_second. by exists value.
Qed.

Lemma huawei_model_raises_on_blank_value_witness :
  Huawei.get_olt_model blank_description "10.0.0.1" = Raise "list index out of range".
Proof.
  apply huawei_model_raises_on_blank_value. split; [done|].
  exists ("SNMPv2-MIB::sysDescr.0 = " +:+ LINE_END), (" " +:+ LINE_END).
  split_and!; [reflexivity..| |reflexivity].
  exists "SNMPv2-MIB::sysDescr.0 ", "". split_and!; [reflexivity..|by left].
Defined.

(** *** The model name of Variant B *)

Section model.
Variable n0 : nat.
Implicit Types (s w : string) (caps : list (nat * string)) (p : ascii → bool).

Lemma run_word w s caps :
  (∃ r, s = w +:+ r ∧ Re.run n0 (Re.Word w) (s, caps) = [(r, caps)])
  ∨ ((∀ r, s ≠ w +:+ r) ∧ Re.run n0 (Re.Word w) (s, caps) = []).
Proof.
  revert s. induction w as [|c w IH]; intros s.
  { left. by exists s. }
  change (Re.run n0 (Re.Word (String c w)) (s, caps))
    with (match s with
          | String x s' => if Ascii.eqb c x then [(s', caps)] else []
          | "" => []
          end ≫= Re.run n0 (Re.Word w)).
  destruct s as [|x s].
  { right. split; [|done]. intros r. by rewrite app_cons. }
  destruct (Ascii.eqb_spec c x) as [<-|Hne].
  - cbn [mbind list_bind]. rewrite List.app_nil_r.
    destruct (IH s) as [(r & -> & ->) | [Hno ->]].
    + left. by exists r.
    + right. split; [|done]. intros r. rewrite app_cons. intros [= ->]. by eapply Hno.
  - right. split; [|done]. intros r. rewrite app_cons. by intros [= ->].
Qed.

Lemma lstrip_with_decomp p s :
  ∃ a, s = a +:+ Py.lstrip_with p s ∧ all_chars p a = true.
Proof.
  induction s as [|c s (a & Ha & Hall)]; [by exists ""|]. simpl.
  destruct (p c) eqn:Hc; [|by exists ""].
  exists (String c a). rewrite app_cons, <-Ha. split; [done|]. simpl. by rewrite Hc.
Qed.

Lemma run_plus_class p s caps :
  (∃ a b rest,
     s = a +:+ b ∧ a ≠ "" ∧ all_chars p a = true
     ∧ match b with String c _ => p c = false | "" => True end
     ∧ Re.run n0 (Re.Plus (Re.Class p)) (s, caps) = (b, caps) :: rest)
  ∨ (match s with String c _ => p c = false | "" => True end
     ∧ Re.run n0 (Re.Plus (Re.Class p)) (s, caps) = []).
Proof.
  destruct s as [|c s]; [by right|]. destruct (p c) eqn:Hc.
  - left. destruct (lstrip_with_decomp p s) as (a & Ha & Hall).
    assert (String c a ≠ "") as Hne by done.
    assert (all_chars p (String c a) = true) as Hall' by (simpl; by rewrite Hc).
    destruct (run_plus_class_head n0 p (String c a) (Py.lstrip_with p s) caps
                Hne Hall' (lstrip_with_head p s)) as [rest Hrun].
    exists (String c a), (Py.lstrip_with p s), rest.
    rewrite app_cons, <-Ha in Hrun |- *.
    split_and!; [done..|apply lstrip_with_head|done].
  - right. split; [done|].
    change (Re.run n0 (Re.Plus (Re.Class p)) (String c s, caps))
      with ((if p c then [(s, caps)] else []) ≫= Re.run n0 (Re.Star (Re.Class p))).
    by rewrite Hc.
Qed.

Lemma all_chars_head p a b :
  a ≠ "" → all_chars p a = true →
  match a +:+ b with String c _ => p c = true | "" => False end.
Proof.
  destruct a as [|c a]; [done|]. intros _ [Hc _]%andb_true_iff. by rewrite app_cons.
Qed.

(** At an offset the pattern of the model name either reads one model name, the
    longest first, or nothing at all. *)
Lemma run_model s :
  (∃ a b rest,
     s = "MA5800-" +:+ a +:+ b ∧ a ≠ "" ∧ all_chars nonblank a = true
     ∧ match b with String c _ => nonblank c = false | "" => True end
     ∧ Re.run n0 Huawei.MODEL (s, []) = (b, []) :: rest)
  ∨ ((∀ a b, s = "MA5800-" +:+ a +:+ b → a ≠ "" → all_chars nonblank a = true → False)
     ∧ Re.run n0 Huawei.MODEL (s, []) = []).
Proof.
  change (Re.run n0 Huawei.MODEL (s, []))
    with (Re.run n0 (Re.Word "MA5800-") (s, [])
          ≫= Re.run n0 (Re.Plus (Re.Class nonblank))).
  destruct (run_word "MA5800-" s []) as [(r & -> & ->) | [Hno ->]].
  - cbn [mbind list_bind]. rewrite List.app_nil_r.
    destruct (run_plus_class nonblank r [])
      as [(a & b & rest & -> & Ha & Hall & Hb & ->) | [Hr ->]].
    + left. by exists a, b, rest.
    + right. split; [|done]. intros a b Heq Ha Hall.
      apply (f_equal (λ x, Py.take 0 x +:+ x)) in Heq. simpl in Heq.
      assert (r = a +:+ b) as ->.
      { clear -Heq. rewrite !app_cons, !app_nil_l in Heq. by simplify_eq. }
      pose proof (all_chars_head nonblank a b Ha Hall) as Hhead.
      destruct (a +:+ b); [done | congruence].
  - right. split; [|done]. intros a b -> _ _. by eapply Hno.
Qed.

End model.

(** X18. When the description holds a model name, [MA5800-] followed by at
    least one character that is not a blank, [get_olt_model] of Variant B
    returns the first one, up to the next blank or the end. *)
Theorem huawei_model_is_the_first_token (t : transport) (ip text : string) :
  run_snmp_command t ip OID_SYS_DESCR false = Some text →
  (∃ before token, model_token_at text before token) →
  ∃ before token,
    Huawei.get_olt_model t ip = Ret token
    ∧ model_token_at text before token
    ∧ ∀ before' token',
        model_token_at text before' token' →
        String.length before ≤ String.length before'.
Proof.
  intros Hout (before0 & token0 & a0 & after0 & Htext & -> & Ha0 & Hall0 & _).
  unfold Huawei.get_olt_model. rewrite Hout.
  destruct text as [|c text].
  { destruct before0; [|by rewrite app_cons in Htext].
    by rewrite app_nil_l, !app_cons in Htext. }
  unfold Re.search.
  pose proof (search_from_spec (String.length (String c text)) Huawei.MODEL
                (String c text)) as Hsearch.
  destruct (Re.search_from _ Huawei.MODEL (String c text)) as [m|].
  - destruct Hsearch as (p & s1 & st & rest & Hsplit & Hrun & -> & Hmin).
    destruct (run_model (String.length (String c text)) s1)
      as [(a & b & rest' & -> & Ha & Hall & Hb & Hrun') | [_ Hrun']];
      [|congruence].
    rewrite Hrun' in Hrun. injection Hrun as <- _. cbn [fst snd Re.group].
    replace (Py.take _ _) with ("MA5800-" +:+ a).
    2:{ change ("MA5800-" +:+ a +:+ b) with (("MA5800-" +:+ a) +:+ b).
        by rewrite take_consumed. }
    exists p, ("MA5800-" +:+ a). split_and!; [done| |].
    + exists a, b. by rewrite Hsplit.
    + intros before' token' (a' & after' & Htext' & -> & Ha' & Hall' & _).
      apply Nat.nlt_ge. intros Hlt.
      specialize (Hmin before' (("MA5800-" +:+ a') +:+ after') Htext' Hlt).
      destruct (run_model (String.length (String c text))
                  (("MA5800-" +:+ a') +:+ after'))
        as [(? & ? & ? & _ & _ & _ & _ & Hrun'') | [Hno _]]; [congruence|].
      by apply (Hno a' after').
  - specialize (Hsearch before0 (("MA5800-" +:+ a0) +:+ after0) Htext).
    destruct (run_model (String.length (String c text))
                (("MA5800-" +:+ a0) +:+ after0))
      as [(? & ? & ? & _ & _ & _ & _ & Hrun'') | [Hno _]]; [congruence|].
    by destruct (Hno a0 after0).
Qed.

Lemma huawei_model_is_the_first_token_witness :
  ∃ before token,
    Huawei.get_olt_model huawei_device "10.0.0.1" = Ret token
    ∧ model_token_at HUAWEI_DESCRIPTION before token
    ∧ ∀ before' token',
        model_token_at HUAWEI_DESCRIPTION before' token' →
        String.length before ≤ String.length before'.
Proof.
  apply (huawei_model_is_the_first_token huawei_device "10.0.0.1" HUAWEI_DESCRIPTION eq_refl).
  exists "SNMPv2-MIB::sysDescr.0 = STRING: Huawei ", "MA5800-X17", "X17",
    (" optical access" +:+ LINE_END).
  by split_and!.
Defined.

(** * The slot of a composite interface index *)

(** What [strip_with] removes on the right are characters of the set. *)
Lemma rstrip_with_decomp p s :
  ∃ b, s = Py.rstrip_with p s +:+ b ∧ all_chars p b = true.
Proof.
  induction s as [|c s (b & Hb & Hall)]; [by exists ""|]. simpl.
  destruct (Py.rstrip_with p s) as [|x r] eqn:Hr.
  - rewrite app_nil_l in Hb. subst b. destruct (p c) eqn:Hc.
    + exists (String c s). split; [done|]. simpl. by rewrite Hc.
    + exists s. by rewrite app_cons, app_nil_l.
  - exists b. by rewrite app_cons, <-Hb.
Qed.

Lemma all_chars_app p a b :
  all_chars p (a +:+ b) = all_chars p a && all_chars p b.
Proof.
  induction a as [|c a IH]; [done|]. rewrite app_cons. simpl.
  by rewrite IH, andb_assoc.
Qed.

Lemma all_chars_impl (p q : ascii → bool) s :
  (∀ c, p c = true → q c = true) → all_chars p s = true → all_chars q s = true.
Proof.
  intros Hpq. induction s as [|c s IH]; [done|]. simpl.
  intros [Hc Hs]%andb_true_iff. by rewrite (Hpq c Hc), IH.
Qed.

Lemma int_digits_chars acc b s n :
  Py.int_digits acc b s = Some n → all_chars numeral_char s = true.
Proof.
  revert acc b. induction s as [|c s IH]; intros acc b; [done|]. simpl.
  unfold numeral_char at 1. destruct (Py.isdigit c); simpl.
  { intros H. by rewrite (IH _ _ H). }
  destruct (Ascii.eqb c "_"); simpl; [|done].
  destruct b; simpl; [|done]. intros H. by rewrite (IH _ _ H).
Qed.

(** What [int] accepts is written with digits, underscores, signs and blanks. *)
Lemma int_chars s n : Py.int s = Some n → all_chars numeral_char s = true.
Proof.
  unfold Py.int, Py.strip_with. intros Hint.
  destruct (lstrip_with_decomp Py.c_isspace s) as (a & Ha & Hblank_a).
  destruct (rstrip_with_decomp Py.c_isspace (Py.lstrip_with Py.c_isspace s))
    as (b & Hb & Hblank_b).
  assert (∀ c, Py.c_isspace c = true → numeral_char c = true) as Hblank.
  { intros c Hc. unfold numeral_char. rewrite Hc. by rewrite !orb_true_r. }
  rewrite Ha, Hb, !all_chars_app.
  rewrite (all_chars_impl _ _ a Hblank Hblank_a), (all_chars_impl _ _ b Hblank Hblank_b).
  rewrite andb_true_r. cbn [andb].
  destruct (Py.rstrip_with Py.c_isspace (Py.lstrip_with Py.c_isspace s)) as [|c r];
    [done|].
  destruct (Ascii.eqb_spec c "-") as [->|_].
  { destruct (Py.int_digits 0 false r) as [m|] eqn:Hm; [|done].
    simpl. by rewrite (int_digits_chars _ _ _ _ Hm). }
  destruct (Ascii.eqb_spec c "+") as [->|_].
  { destruct (Py.int_digits 0 false r) as [m|] eqn:Hm; [|done].
    simpl. by rewrite (int_digits_chars _ _ _ _ Hm). }
  destruct (Py.int_digits 0 false (String c r)) as [m|] eqn:Hm; [|done].
  by rewrite (int_digits_chars _ _ _ _ Hm).
Qed.

(** C6. [decode_zte_ifindex] returns the slot [(index >> 8) & 0xFF], a byte,
    printed in decimal, for every index that [int] parses, among them every
    integer below 10^4300 in decimal notation, and [None], with no exception,
    for every other index, among them every index with a character that is
    not a digit, an underscore, a sign or a blank; the index 285278465
    decodes to slot 1 and 285278721 to slot 2. *)
Theorem decode_zte_ifindex_slot (ifindex : string) :
  ZTE.decode_zte_ifindex ifindex
  = (λ idx, Py.str (Z.land (Z.shiftr idx 8) 255)) <$> Py.int ifindex
  ∧ match Py.int ifindex with
    | Some idx =>
        ∃ slot : Z, ZTE.decode_zte_ifindex ifindex = Some (Py.str slot)
                    ∧ slot = ((idx `div` 256) `mod` 256)%Z
                    ∧ (0 ≤ slot < 256)%Z
    | None => ZTE.decode_zte_ifindex ifindex = None
    end
  ∧ (∀ idx : Z,
       (Z.abs idx < 10 ^ 4300)%Z →
       ZTE.decode_zte_ifindex (Py.str idx) = Some (Py.str ((idx `div` 256) `mod` 256)))
  ∧ (all_chars numeral_char ifindex = false → ZTE.decode_zte_ifindex ifindex = None)
  ∧ ZTE.decode_zte_ifindex "285278465" = Some "1"
  ∧ ZTE.decode_zte_ifindex "285278721" = Some "2"
  ∧ ZTE.decode_zte_ifindex "gpon_1/1/1" = None
  ∧ ZTE.decode_zte_ifindex "" = None
  ∧ ZTE.decode_zte_ifindex (String UNIT_SEPARATOR "285278465") = None
  ∧ ZTE.decode_zte_ifindex ("285278465" +:+ String UNIT_SEPARATOR "") = None.
Proof.
  split_and!.
  - unfold ZTE.decode_zte_ifindex. by destruct (Py.int ifindex).
  - unfold ZTE.decode_zte_ifindex. destruct (Py.int ifindex) as [idx|]; [|done].
    exists (Z.land (Z.shiftr idx 8) 255). split; [done|].
    rewrite slot_byte. split; [done|]. apply Z.mod_pos_bound. lia.
  - intros idx Hidx. unfold ZTE.decode_zte_ifindex.
    rewrite (int_str idx (str_digits idx Hidx)). cbv zeta. by rewrite slot_byte.
  - intros Hchars. unfold ZTE.decode_zte_ifindex.
    destruct (Py.int ifindex) as [idx|] eqn:Hint; [|done].
    apply int_chars in Hint. congruence.
  - by vm_compute.
  - by vm_compute.
  - by vm_compute.
  - by vm_compute.
  - by vm_compute.
  - by vm_compute.
Qed.

Lemma decode_zte_ifindex_slot_witness :
  ZTE.decode_zte_ifindex (Py.str 285278721) = Some "2"
  ∧ ZTE.decode_zte_ifindex "1.1" = None.
Proof.
  destruct (decode_zte_ifindex_slot "1.1") as (_ & _ & Hidx & Hnone & _).
  split.
  - apply (Hidx 285278721%Z). by vm_compute.
  - apply Hnone. by vm_compute.
Defined.

Example int_limit_ex :
  Py.int (zeros 4300) = Some 0%Z ∧ Py.int (zeros 4301) = None
  ∧ ZTE.decode_zte_ifindex (zeros 4300) = Some "0"
  ∧ ZTE.decode_zte_ifindex (zeros 4301) = None.
Proof. by vm_compute. Qed.

(** * How the metric methods degrade *)

(** The pairs that the faults named by the specification give where a method
    falls back on what it could read. *)
Example fallback_pairs :
  Fiberhome.get_pon_port_status unnamed_port "10.0.0.1" = Ret (1, 1)
  ∧ Fiberhome.get_board_status typed_card "10.0.0.1" = Ret (1, 1)
  ∧ ZTE.get_board_status one_gpon_port "10.0.0.1" = Ret (1, 0)
  ∧ ZTE.get_board_status mixed_indices "10.0.0.1" = Ret (1, 0).
Proof. by vm_compute. Qed.

(** C3 as stated fails: Variant A's [get_pon_port_status] cannot walk the
    table of the port names of [unnamed_port] and returns (1,1). *)
Lemma missing_table_is_not_always_zero : ¬ missing_table_gives_zero.
Proof.
  intros H.
  assert (Fiberhome.get_pon_port_status unnamed_port "10.0.0.1" = Ret (0, 0)) as Hzero.
  { apply (H unnamed_port "10.0.0.1"
             (Fiberhome.get_pon_port_status, Fiberhome.get_pon_port_status_body,
              [Fiberhome.OID_FH_PON_PORT_TYPE; Fiberhome.OID_FH_PON_PORT_NAME])
             Fiberhome.OID_FH_PON_PORT_NAME).
    - unfold metric_methods. do 7 apply list_elem_of_further. apply list_elem_of_here.
    - apply list_elem_of_further, list_elem_of_here.
    - reflexivity. }
  vm_compute in Hzero. discriminate Hzero.
Qed.

Example unparsable_index_is_not_always_zero : ¬ unparsable_index_gives_zero.
Proof.
  intros H.
  assert (ZTE.get_board_status mixed_indices "10.0.0.1" = Ret (0, 0)) as Hzero.
  { apply (H mixed_indices "10.0.0.1" "gpon1"); by vm_compute. }
  vm_compute in Hzero. discriminate Hzero.
Qed.

Lemma guarded_returns {A} (body : exc A) (d a : A) :
  body = Ret a → try_except body (λ _, Ret d) = Ret a.
Proof. by intros ->. Qed.

(** No step inside a metric method raises, whatever the device prints. *)
Lemma huawei_bodies_return (t : transport) (ip : string) :
  (∃ counts, Huawei.get_board_status_body t ip = Ret counts)
  ∧ (∃ counts, Huawei.get_pon_port_status_body t ip = Ret counts)
  ∧ (∃ counts, Huawei.get_ont_status_body t ip = Ret counts).
Proof.
  split_and!.
  - unfold Huawei.get_board_status_body. destruct (missing _); simpl; [by eexists|].
    case_bool_decide; by eexists.
  - unfold Huawei.get_pon_port_status_body.
    destruct (missing _ || missing _); [by eexists|].
    unfold keys. rewrite huawei_count_gpon_rows; [by eexists|].
    intros [idx v] Hrow. by apply elem_of_map_to_list.
  - unfold Huawei.get_ont_status_body. destruct (missing _); by eexists.
Qed.

Lemma zte_bodies_return (t : transport) (ip : string) :
  (∃ counts, ZTE.get_board_status_body t ip = Ret counts)
  ∧ (∃ counts, ZTE.get_pon_port_status_body t ip = Ret counts)
  ∧ (∃ counts, ZTE.get_ont_status_body t ip = Ret counts).
Proof.
  split_and!.
  - unfold ZTE.get_board_status_body. destruct (missing _); [by eexists|].
    destruct (foldl _ _ _) as [cards active_cards]. case_bool_decide; by eexists.
  - unfold ZTE.get_pon_port_status_body. destruct (missing _ || missing _); by eexists.
  - unfold ZTE.get_ont_status_body. destruct (missing _); by eexists.
Qed.

Lemma fiberhome_bodies_return (t : transport) (ip : string) :
  (∃ counts, Fiberhome.get_board_status_body t ip = Ret counts)
  ∧ (∃ counts, Fiberhome.get_pon_port_status_body t ip = Ret counts)
  ∧ (∃ counts, Fiberhome.get_onu_status_body t ip = Ret counts).
Proof.
  split_and!.
  - unfold Fiberhome.get_board_status_body.
    destruct (missing (run_snmp_command t ip Fiberhome.OID_FH_CARD_TYPE true));
      destruct (missing (run_snmp_command t ip Fiberhome.OID_FH_CARD_STATUS true));
      simpl; try case_bool_decide; by eexists.
  - unfold Fiberhome.get_pon_port_status_body. destruct (missing _); by eexists.
  - unfold Fiberhome.get_onu_status_body. destruct (missing _); by eexists.
Qed.

(** C3, amended.  No exception leaves a metric method: for every transport
    each of the nine methods returns a pair, the one its body computes, and
    an exception inside a body would be answered by (0,0).  A method that
    cannot walk the table its installed count is read from returns (0,0).
    Where only a second table cannot be walked the method falls back on the
    first: the boards of Variant C count no active card, the PON ports and
    the boards of Variant A take used = installed.  A row of Variant C's
    interface table whose index is not an integer is left out and the other
    rows are counted; with no index an integer the boards are (0,0). *)
Theorem metric_methods_degrade_by_table (t : transport) (ip : string) :
  let zte_types :=
    ZTE.parse_snmp_output (run_snmp_command t ip OID_IF_TYPE true) false in
  let card_types :=
    Fiberhome.parse_snmp_output
      (run_snmp_command t ip Fiberhome.OID_FH_CARD_TYPE true) false in
  let port_types :=
    Fiberhome.parse_snmp_output
      (run_snmp_command t ip Fiberhome.OID_FH_PON_PORT_TYPE true) false in
  Forall (λ m : method * method * list string,
            (∃ counts, m.1.2 t ip = Ret counts ∧ m.1.1 t ip = Ret counts)
            ∧ m.1.1 t ip = match m.1.2 t ip with
                           | Ret counts => Ret counts
                           | Raise _ => Ret (0, 0)
                           end)
    metric_methods
  ∧ (absent t ip Huawei.OID_HW_BOARD_OPER_STATUS →
     Huawei.get_board_status t ip = Ret (0, 0))
  ∧ (absent t ip OID_IF_TYPE ∨ absent t ip OID_IF_OPER_STATUS →
     Huawei.get_pon_port_status t ip = Ret (0, 0)
     ∧ ZTE.get_pon_port_status t ip = Ret (0, 0))
  ∧ (absent t ip Huawei.OID_HW_ONT_RUN_STATUS →
     Huawei.get_ont_status t ip = Ret (0, 0))
  ∧ (absent t ip OID_IF_TYPE → ZTE.get_board_status t ip = Ret (0, 0))
  ∧ (absent t ip ZTE.OID_ZTE_ONU_STATUS → ZTE.get_ont_status t ip = Ret (0, 0))
  ∧ (absent t ip Fiberhome.OID_FH_CARD_STATUS →
     absent t ip Fiberhome.OID_FH_CARD_TYPE →
     Fiberhome.get_board_status t ip = Ret (0, 0))
  ∧ (absent t ip Fiberhome.OID_FH_PON_PORT_TYPE →
     Fiberhome.get_pon_port_status t ip = Ret (0, 0))
  ∧ (absent t ip Fiberhome.OID_FH_ONU_STATUS →
     Fiberhome.get_onu_status t ip = Ret (0, 0))
  ∧ (absent t ip OID_IF_ADMIN_STATUS →
     ∃ installed, ZTE.get_board_status t ip = Ret (installed, 0))
  ∧ (absent t ip Fiberhome.OID_FH_CARD_STATUS →
     Fiberhome.get_board_status t ip = Ret (size card_types, size card_types))
  ∧ (absent t ip Fiberhome.OID_FH_PON_PORT_NAME →
     let installed :=
       size (filter (λ row : string * string, row.2 = "1") port_types) in
     Fiberhome.get_pon_port_status t ip = Ret (installed, installed))
  ∧ (∃ cards active_cards : gset string,
       ZTE.get_board_status t ip = Ret (size cards, size active_cards)
       ∧ active_cards ⊆ cards
       ∧ ∀ slot, slot ∈ cards
                 ↔ ∃ idx, zte_types !! idx = Some "250"
                          ∧ ZTE.decode_zte_ifindex idx = Some slot)
  ∧ ((∀ idx, idx ∈ keys zte_types → Py.int idx = None) →
     ZTE.get_board_status t ip = Ret (0, 0)).
Proof.
  intros zte_types card_types port_types. unfold absent.
  destruct (huawei_bodies_return t ip) as ([hb Hhb] & [hp Hhp] & [ho Hho]).
  destruct (zte_bodies_return t ip) as ([zb Hzb] & [zp Hzp] & [zo Hzo]).
  destruct (fiberhome_bodies_return t ip) as ([fb Hfb] & [fp Hfp] & [fo Hfo]).
  destruct (zte_board_sets t ip) as (cards & active_cards & Hpair & Hcards & Hactive).
  fold zte_types in Hcards, Hactive.
  split_and!.
  - unfold metric_methods.
    repeat apply Forall_cons_2; [..|apply Forall_nil_2]; cbn [fst snd];
      unfold Huawei.get_board_status, Huawei.get_pon_port_status,
        Huawei.get_ont_status, ZTE.get_board_status, ZTE.get_pon_port_status,
        ZTE.get_ont_status, Fiberhome.get_board_status,
        Fiberhome.get_pon_port_status, Fiberhome.get_onu_status;
      (split; [|done]).
    + exists hb. by rewrite Hhb.
    + exists hp. by rewrite Hhp.
    + exists ho. by rewrite Hho.
    + exists zb. by rewrite Hzb.
    + exists zp. by rewrite Hzp.
    + exists zo. by rewrite Hzo.
    + exists fb. by rewrite Hfb.
    + exists fp. by rewrite Hfp.
    + exists fo. by rewrite Hfo.
  - intros H. unfold Huawei.get_board_status, Huawei.get_board_status_body.
    by rewrite H.
  - intros H. split.
    + unfold Huawei.get_pon_port_status, Huawei.get_pon_port_status_body.
      destruct H as [-> | ->]; [done|]. by rewrite orb_true_r.
    + unfold ZTE.get_pon_port_status, ZTE.get_pon_port_status_body.
      destruct H as [-> | ->]; [done|]. by rewrite orb_true_r.
  - intros H. unfold Huawei.get_ont_status, Huawei.get_ont_status_body.
    by rewrite H.
  - intros H. unfold ZTE.get_board_status, ZTE.get_board_status_body.
    by rewrite H.
  - intros H. unfold ZTE.get_ont_status, ZTE.get_ont_status_body.
    by rewrite H.
  - intros H1 H2. unfold Fiberhome.get_board_status, Fiberhome.get_board_status_body.
    by rewrite H1, H2.
  - intros H. unfold Fiberhome.get_pon_port_status, Fiberhome.get_pon_port_status_body.
    by rewrite H.
  - intros H. unfold Fiberhome.get_onu_status, Fiberhome.get_onu_status_body.
    by rewrite H.
  - intros H. exists (size cards). rewrite Hpair. do 2 f_equal.
    apply size_empty_iff, elem_of_equiv_empty. intros slot. rewrite Hactive.
    intros (idx & _ & _ & Hup). unfold ZTE.parse_snmp_output in Hup.
    by rewrite (parse_missing _ _ _ H) in Hup.
  - intros H. rewrite fiberhome_board_table. rewrite bool_decide_true; [done|].
    unfold Fiberhome.parse_snmp_output. by rewrite (parse_missing _ _ _ H).
  - intros H. cbv zeta.
    unfold Fiberhome.get_pon_port_status, Fiberhome.get_pon_port_status_body.
    cbv zeta. rewrite H. fold port_types.
    destruct (missing (run_snmp_command t ip Fiberhome.OID_FH_PON_PORT_TYPE true))
      eqn:Hty; simpl.
    + subst port_types. unfold Fiberhome.parse_snmp_output.
      rewrite (parse_missing _ _ _ Hty). by rewrite map_filter_empty, map_size_empty.
    + by rewrite count_values.
  - exists cards, active_cards. split_and!; [done| |done].
    intros slot. rewrite Hcards, Hactive. naive_solver.
  - intros H. unfold ZTE.get_board_status, ZTE.get_board_status_body.
    destruct (missing _); [done|].
    rewrite zte_add_card_unparsable; [done|].
    intros row Hrow. apply H. unfold keys. by apply list_elem_of_fmap_2.
Qed.

Lemma metric_methods_degrade_by_table_witness :
  Huawei.get_board_status silent "10.0.0.1" = Ret (0, 0)
  ∧ Huawei.get_pon_port_status silent "10.0.0.1" = Ret (0, 0)
  ∧ Huawei.get_ont_status silent "10.0.0.1" = Ret (0, 0)
  ∧ ZTE.get_board_status silent "10.0.0.1" = Ret (0, 0)
  ∧ ZTE.get_board_status named_rows "10.0.0.1" = Ret (0, 0)
  ∧ ZTE.get_pon_port_status silent "10.0.0.1" = Ret (0, 0)
  ∧ ZTE.get_ont_status silent "10.0.0.1" = Ret (0, 0)
  ∧ Fiberhome.get_board_status silent "10.0.0.1" = Ret (0, 0)
  ∧ Fiberhome.get_pon_port_status silent "10.0.0.1" = Ret (0, 0)
  ∧ Fiberhome.get_onu_status silent "10.0.0.1" = Ret (0, 0)
  ∧ (∃ installed, ZTE.get_board_status one_gpon_port "10.0.0.1" = Ret (installed, 0))
  ∧ Fiberhome.get_board_status typed_card "10.0.0.1" = Ret (1, 1)
  ∧ Fiberhome.get_pon_port_status unnamed_port "10.0.0.1" = Ret (1, 1).
Proof.
  destruct (metric_methods_degrade_by_table silent "10.0.0.1")
    as (_ & Hb & Hp & Ho & Hzb & Hzo & Hfb & Hfp & Hfo & _).
  destruct (metric_methods_degrade_by_table named_rows "10.0.0.1")
    as (_ & _ & _ & _ & _ & _ & _ & _ & _ & _ & _ & _ & _ & Hzb').
  destruct (metric_methods_degrade_by_table one_gpon_port "10.0.0.1")
    as (_ & _ & _ & _ & _ & _ & _ & _ & _ & Hadmin & _).
  destruct (metric_methods_degrade_by_table typed_card "10.0.0.1")
    as (_ & _ & _ & _ & _ & _ & _ & _ & _ & _ & Hcard & _).
  destruct (metric_methods_degrade_by_table unnamed_port "10.0.0.1")
    as (_ & _ & _ & _ & _ & _ & _ & _ & _ & _ & _ & Hport & _).
  split_and!.
  - apply Hb. reflexivity.
  - apply Hp. left. reflexivity.
  - apply Ho. reflexivity.
  - apply Hzb. reflexivity.
  - apply Hzb'. intros idx Hidx. vm_compute in Hidx.
    apply list_elem_of_singleton in Hidx as ->. reflexivity.
  - apply Hp. left. reflexivity.
  - apply Hzo. reflexivity.
  - apply Hfb; reflexivity.
  - apply Hfp. reflexivity.
  - apply Hfo. reflexivity.
  - apply Hadmin. reflexivity.
  - apply (Hcard eq_refl).
  - apply (Hport eq_refl).
Defined.
